(** * SCOUT resume pipeline: a shallow embedding and its verified properties

    The development follows the Python sources of the parsing and
    normalisation core:

    - [skills_normalizer.py]  (module [Skills])
    - [docx_extractor.py]     (module [Docx])
    - [pdf_extractor.py]      (module [Pdf])
    - [profile_schema.py]     (module [Schema])
    - [profile_validator.py]  (module [Validator])
    - [parser_service.py]     (module [Parser])

    Python strings are sequences of code points ([pystr]).  Blanks
    ([str.isspace], [strip], [split], [\s]) are those of Python on all
    code points.  Case mapping, [\d], [\w] and [\b] are modelled on the
    ASCII range, where they are exact; code points above 127 are carried
    unchanged and count as uncased symbols, so the properties that depend
    on case mapping are stated for ASCII strings ([is_ascii]).
    Regular expressions are written as syntax trees and run by a
    backtracking matcher that follows the search order of Python's [re]
    (leftmost match, alternatives in order, greedy or lazy repetition). *)

From Stdlib Require Import String Ascii NArith ZArith Bool Arith Lia List.
From Stdlib Require Import Permutation Sorted.
From Corelib Require Import PrimFloat.
Import ListNotations.

Set Implicit Arguments.
Set Warnings "-inexact-float,-register-all".
Open Scope string_scope.
Open Scope nat_scope.
Open Scope list_scope.

(* ================================================================== *)
(** * Python strings *)
(* ================================================================== *)

Module PyStr.

Definition pystr := list N.

(** A literal: the code points of an ASCII string. *)
Definition u (s : string) : pystr := map N_of_ascii (list_ascii_of_string s).

Definition ch (a : ascii) : N := N_of_ascii a.
Arguments ch a%_char.

(** The newline. *)
Definition nl : pystr := [10%N].

(** [a == b] *)
Fixpoint streq (a b : pystr) : bool :=
  match a, b with
  | [], [] => true
  | x :: a', y :: b' => (x =? y)%N && streq a' b'
  | _, _ => false
  end.

Definition is_upper (c : N) : bool := (65 <=? c)%N && (c <=? 90)%N.
Definition is_lower (c : N) : bool := (97 <=? c)%N && (c <=? 122)%N.
Definition is_cased (c : N) : bool := is_upper c || is_lower c.
Definition is_digit (c : N) : bool := (48 <=? c)%N && (c <=? 57)%N.
Definition is_alnum (c : N) : bool := is_cased c || is_digit c.
(** [str.isspace], which is also [\s] and what [strip] and [split] take
    for blanks: TAB..CR, FS..US and the space, then U+0085, U+00A0,
    U+1680, U+2000..U+200A, U+2028, U+2029, U+202F, U+205F and U+3000. *)
Definition is_space (c : N) : bool :=
  ((9 <=? c)%N && (c <=? 13)%N) || ((28 <=? c)%N && (c <=? 32)%N)
  || (c =? 133)%N || (c =? 160)%N || (c =? 5760)%N
  || ((8192 <=? c)%N && (c <=? 8202)%N)
  || (c =? 8232)%N || (c =? 8233)%N || (c =? 8239)%N || (c =? 8287)%N
  || (c =? 12288)%N.
(** [str.isascii] *)
Definition is_ascii (s : list N) : bool := forallb (fun c => (c <? 128)%N) s.
(** [\w]: letters, digits and the underscore. *)
Definition is_word (c : N) : bool := is_alnum c || (c =? 95)%N.

Definition lower_c (c : N) : N := if is_upper c then (c + 32)%N else c.
Definition upper_c (c : N) : N := if is_lower c then (c - 32)%N else c.

(** [str.lower], [str.upper]. *)
Definition lower (s : pystr) : pystr := map lower_c s.
Definition upper (s : pystr) : pystr := map upper_c s.

(** [str.title]: a cased character is upper-cased when the previous
    character is uncased and lower-cased otherwise. *)
Fixpoint title_from (prev_cased : bool) (s : pystr) : pystr :=
  match s with
  | [] => []
  | c :: s' =>
      if is_cased c
      then (if prev_cased then lower_c c else upper_c c) :: title_from true s'
      else c :: title_from false s'
  end.
Definition title (s : pystr) : pystr := title_from false s.

(** [str.isupper]: at least one cased character and no lower-case one. *)
Definition isupper (s : pystr) : bool :=
  existsb is_cased s && negb (existsb is_lower s).

Fixpoint lstrip (s : pystr) : pystr :=
  match s with
  | c :: s' => if is_space c then lstrip s' else s
  | [] => []
  end.
Definition rstrip (s : pystr) : pystr := rev (lstrip (rev s)).
(** [str.strip()]. *)
Definition strip (s : pystr) : pystr := rstrip (lstrip s).

(** [s.startswith(p)]. *)
Fixpoint startswith (p s : pystr) : bool :=
  match p, s with
  | [], _ => true
  | a :: p', b :: s' => (a =? b)%N && startswith p' s'
  | _ :: _, [] => false
  end.

(** [p in s] for strings. *)
Fixpoint contains (p s : pystr) : bool :=
  startswith p s ||
  match s with
  | [] => false
  | _ :: s' => contains p s'
  end.

(** [sep.join(l)]. *)
Fixpoint join (sep : pystr) (l : list pystr) : pystr :=
  match l with
  | [] => []
  | [x] => x
  | x :: l' => x ++ sep ++ join sep l'
  end.

(** [s.split(sep, maxsplit)] for a non-empty separator; [maxsplit = None]
    is unlimited.  [skip] counts the characters of a separator still to
    be passed over, [cur] is the piece being collected (reversed). *)
Fixpoint split_go (sep : pystr) (budget : option nat) (skip : nat)
         (cur : pystr) (s : pystr) : list pystr :=
  match s with
  | [] => [rev cur]
  | c :: s' =>
      match skip with
      | S k => split_go sep budget k cur s'
      | O =>
          let may := match budget with Some O => false | _ => true end in
          if may && startswith sep s
          then rev cur ::
               split_go sep (option_map pred budget) (length sep - 1) [] s'
          else split_go sep budget 0 (c :: cur) s'
      end
  end.
Definition split (sep : pystr) (s : pystr) : list pystr :=
  split_go sep None 0 [] s.
Definition split_max (sep : pystr) (n : nat) (s : pystr) : list pystr :=
  split_go sep (Some n) 0 [] s.

(** [s.split()]: the maximal runs of non-blank characters. *)
Fixpoint split_ws_go (cur : pystr) (s : pystr) : list pystr :=
  match s with
  | [] => match cur with [] => [] | _ => [rev cur] end
  | c :: s' =>
      if is_space c
      then match cur with
           | [] => split_ws_go [] s'
           | _ => rev cur :: split_ws_go [] s'
           end
      else split_ws_go (c :: cur) s'
  end.
Definition split_ws (s : pystr) : list pystr := split_ws_go [] s.

(** Decimal rendering of a natural number ([str(n)]). *)
Fixpoint digits_go (fuel n : nat) (acc : pystr) : pystr :=
  match fuel with
  | O => acc
  | S f =>
      let d := (48 + N.of_nat (n mod 10))%N in
      if n <? 10 then d :: acc else digits_go f (n / 10) (d :: acc)
  end.
Definition str_of_nat (n : nat) : pystr := digits_go (S n) n [].

End PyStr.
Export PyStr.

(* ================================================================== *)
(** * Regular expressions ([re]) *)
(* ================================================================== *)

Module Re.

(** Items of a character class. *)
Inductive citem :=
| Ch (c : N)            (* a literal character *)
| Rg (lo hi : N)        (* a range lo-hi *)
| Dg                    (* \d *)
| Sp                    (* \s *)
| Wd.                   (* \w *)

Inductive regex :=
| Eps
| Chr (c : N)                         (* a literal character *)
| Cls (neg : bool) (items : list citem) (* [...] and [^...] *)
| Dot                                 (* . : anything but a newline *)
| Seq (a b : regex)
| Alt (a b : regex)                   (* a|b, a tried first *)
| Star (a : regex)                    (* a*, greedy *)
| LazyStar (a : regex)                (* a*?, lazy *)
| Grp (i : nat) (a : regex)           (* the i-th capturing group *)
| Bol                                 (* ^ *)
| Eol                                 (* $ *)
| Wb                                  (* \b *)
| Ahead (a : regex).                  (* (?=a) *)

Record flags := { ignorecase : bool; multiline : bool }.
Definition no_flags := {| ignorecase := false; multiline := false |}.
Definition IGNORECASE := {| ignorecase := true; multiline := false |}.
Definition IGNORECASE_MULTILINE := {| ignorecase := true; multiline := true |}.

(** Derived forms. *)
Definition Plus (a : regex) : regex := Seq a (Star a).
Definition Opt (a : regex) : regex := Alt a Eps.
Fixpoint Rep (n : nat) (a : regex) : regex :=
  match n with O => Eps | S k => Seq a (Rep k a) end.
(** a{m,m+extra}: m copies, then up to [extra] more, greedily. *)
Fixpoint UpTo (extra : nat) (a : regex) : regex :=
  match extra with O => Eps | S k => Opt (Seq a (UpTo k a)) end.
Definition RepRange (m extra : nat) (a : regex) : regex :=
  Seq (Rep m a) (UpTo extra a).
(** a{m,} *)
Definition AtLeast (m : nat) (a : regex) : regex := Seq (Rep m a) (Star a).
Fixpoint Lit (s : pystr) : regex :=
  match s with
  | [] => Eps
  | [c] => Chr c
  | c :: s' => Seq (Chr c) (Lit s')
  end.
Definition Str (s : string) : regex := Lit (u s).
Fixpoint Alts (l : list regex) : regex :=
  match l with
  | [] => Eps
  | [a] => a
  | a :: l' => Alt a (Alts l')
  end.
Fixpoint Seqs (l : list regex) : regex :=
  match l with
  | [] => Eps
  | [a] => a
  | a :: l' => Seq a (Seqs l')
  end.
Definition digit : regex := Cls false [Dg].
Definition space : regex := Cls false [Sp].

Definition caps := list (nat * pystr).

Definition citem_mem (it : citem) (c : N) : bool :=
  match it with
  | Ch x => (x =? c)%N
  | Rg lo hi => (lo <=? c)%N && (c <=? hi)%N
  | Dg => is_digit c
  | Sp => is_space c
  | Wd => is_word c
  end.

Definition cls_mem (fl : flags) (items : list citem) (c : N) : bool :=
  existsb (fun it =>
    citem_mem it c ||
    (ignorecase fl && (citem_mem it (lower_c c) || citem_mem it (upper_c c))))
    items.

Definition chr_eq (fl : flags) (c x : N) : bool :=
  if ignorecase fl then (lower_c c =? lower_c x)%N else (c =? x)%N.

Definition word_opt (c : option N) : bool :=
  match c with Some x => is_word x | None => false end.

Definition at_bol (fl : flags) (prev : option N) : bool :=
  match prev with
  | None => true
  | Some c => multiline fl && (c =? 10)%N
  end.

Definition at_eol (fl : flags) (s : pystr) : bool :=
  match s with
  | [] => true
  | [c] => (c =? 10)%N
  | c :: _ => multiline fl && (c =? 10)%N
  end.

Definition K := option N -> pystr -> caps -> option (pystr * caps).

(** The matcher, in continuation-passing style.  [prev] is the character
    just before the current position, [s] the rest of the subject.  A
    repetition gives up an iteration that consumes nothing, so its
    counter, one more than the length of the rest, never runs out. *)
Fixpoint rx (fl : flags) (r : regex) (prev : option N) (s : pystr)
         (cs : caps) (k : K) {struct r} : option (pystr * caps) :=
  match r with
  | Eps => k prev s cs
  | Chr c =>
      match s with
      | x :: s' => if chr_eq fl c x then k (Some x) s' cs else None
      | [] => None
      end
  | Cls neg items =>
      match s with
      | x :: s' =>
          if xorb neg (cls_mem fl items x) then k (Some x) s' cs else None
      | [] => None
      end
  | Dot =>
      match s with
      | x :: s' => if (x =? 10)%N then None else k (Some x) s' cs
      | [] => None
      end
  | Seq a b => rx fl a prev s cs (fun p' s' cs' => rx fl b p' s' cs' k)
  | Alt a b =>
      match rx fl a prev s cs k with
      | Some x => Some x
      | None => rx fl b prev s cs k
      end
  | Star a =>
      (fix loop (n : nat) (prev : option N) (s : pystr) (cs : caps)
         : option (pystr * caps) :=
         match n with
         | O => k prev s cs
         | S n' =>
             match rx fl a prev s cs
                     (fun p' s' cs' =>
                        if length s' <? length s then loop n' p' s' cs'
                        else None) with
             | Some x => Some x
             | None => k prev s cs
             end
         end) (S (length s)) prev s cs
  | LazyStar a =>
      (fix loop (n : nat) (prev : option N) (s : pystr) (cs : caps)
         : option (pystr * caps) :=
         match n with
         | O => k prev s cs
         | S n' =>
             match k prev s cs with
             | Some x => Some x
             | None =>
                 rx fl a prev s cs
                    (fun p' s' cs' =>
                       if length s' <? length s then loop n' p' s' cs'
                       else None)
             end
         end) (S (length s)) prev s cs
  | Grp i a =>
      rx fl a prev s cs
         (fun p' s' cs' =>
            k p' s' ((i, firstn (length s - length s') s) :: cs'))
  | Bol => if at_bol fl prev then k prev s cs else None
  | Eol => if at_eol fl s then k prev s cs else None
  | Wb =>
      if xorb (word_opt prev) (word_opt (hd_error s)) then k prev s cs
      else None
  | Ahead a =>
      match rx fl a prev s cs (fun _ s' cs' => Some (s', cs')) with
      | Some (_, cs') => k prev s cs'
      | None => None
      end
  end.

(** A match object: the matched text and the groups. *)
Record mobj := { m_text : pystr; m_caps : caps }.

(** A match starting exactly at the current position; [allow_empty]
    tells whether the empty match is acceptable here. *)
Definition match_here (fl : flags) (r : regex) (allow_empty : bool)
           (prev : option N) (s : pystr) : option mobj :=
  match rx fl r prev s []
           (fun _ s' cs =>
              if allow_empty || (length s' <? length s)
              then Some (s', cs) else None) with
  | Some (s', cs) =>
      Some {| m_text := firstn (length s - length s') s; m_caps := cs |}
  | None => None
  end.

(** [re.match(r, s)]. *)
Definition re_match (fl : flags) (r : regex) (s : pystr) : option mobj :=
  match_here fl r true None s.

(** [re.search(r, s)]: the leftmost match. *)
Fixpoint search_from (fl : flags) (r : regex) (prev : option N)
         (s : pystr) : option mobj :=
  match match_here fl r true prev s with
  | Some m => Some m
  | None =>
      match s with
      | [] => None
      | c :: s' => search_from fl r (Some c) s'
      end
  end.
Definition search (fl : flags) (r : regex) (s : pystr) : option mobj :=
  search_from fl r None s.

Definition matches (fl : flags) (r : regex) (s : pystr) : bool :=
  match search fl r s with Some _ => true | None => false end.

(** [m.group(i)], the empty string when the group took no part. *)
Fixpoint lookup_group (i : nat) (cs : caps) : pystr :=
  match cs with
  | [] => []
  | (j, t) :: cs' => if i =? j then t else lookup_group i cs'
  end.
Definition group (m : mobj) (i : nat) : pystr := lookup_group i (m_caps m).

(** All non-overlapping matches, left to right ([re.finditer]).  After an
    empty match the same position is tried once more for a non-empty one
    (the rule of Python 3.7 and later). *)
Fixpoint finditer_go (fl : flags) (r : regex) (prev : option N)
         (skip : nat) (s : pystr) {struct s} : list mobj :=
  let next (n : nat) :=
    match s with
    | [] => []
    | c :: s' => finditer_go fl r (Some c) n s'
    end in
  match skip with
  | S k => next k
  | O =>
      match match_here fl r true prev s with
      | None => next 0
      | Some m =>
          match length (m_text m) with
          | S n => m :: next n
          | O =>
              match match_here fl r false prev s with
              | Some m' => m :: m' :: next (length (m_text m') - 1)
              | None => m :: next 0
              end
          end
      end
  end.
Definition finditer (fl : flags) (r : regex) (s : pystr) : list mobj :=
  finditer_go fl r None 0 s.

(** Number of capturing groups of a pattern. *)
Fixpoint ngroups (r : regex) : nat :=
  match r with
  | Seq a b | Alt a b => ngroups a + ngroups b
  | Star a | LazyStar a | Ahead a => ngroups a
  | Grp _ a => S (ngroups a)
  | _ => 0
  end.

(** One item of [re.findall]: the whole match when the pattern has no
    group, the group when it has one, the tuple of groups otherwise. *)
Inductive fitem :=
| FStr (s : pystr)
| FTuple (l : list pystr).

Definition findall (fl : flags) (r : regex) (s : pystr) : list fitem :=
  map (fun m =>
         match ngroups r with
         | 0 => FStr (m_text m)
         | 1 => FStr (group m 1)
         | n => FTuple (map (group m) (seq 1 n))
         end) (finditer fl r s).

(** [re.sub(r, repl, s)] for a replacement without group references. *)
Fixpoint sub_go (fl : flags) (r : regex) (repl : pystr) (prev : option N)
         (skip : nat) (s : pystr) {struct s} : pystr :=
  match skip with
  | S k =>
      match s with
      | [] => []
      | c :: s' => sub_go fl r repl (Some c) k s'
      end
  | O =>
      match match_here fl r true prev s with
      | None =>
          match s with
          | [] => []
          | c :: s' => c :: sub_go fl r repl (Some c) 0 s'
          end
      | Some m =>
          match length (m_text m) with
          | S n =>
              repl ++ match s with
                      | [] => []
                      | c :: s' => sub_go fl r repl (Some c) n s'
                      end
          | O =>
              match match_here fl r false prev s with
              | Some m' =>
                  repl ++ repl ++
                  match s with
                  | [] => []
                  | c :: s' =>
                      sub_go fl r repl (Some c) (length (m_text m') - 1) s'
                  end
              | None =>
                  repl ++ match s with
                          | [] => []
                          | c :: s' => c :: sub_go fl r repl (Some c) 0 s'
                          end
              end
          end
      end
  end.
Definition sub (fl : flags) (r : regex) (repl : pystr) (s : pystr) : pystr :=
  sub_go fl r repl None 0 s.

(** [re.split(r, s)] for a pattern without capturing groups; [cur] is the
    piece being collected (reversed). *)
Fixpoint split_go (fl : flags) (r : regex) (prev : option N) (skip : nat)
         (cur : pystr) (s : pystr) {struct s} : list pystr :=
  match skip with
  | S k =>
      match s with
      | [] => [rev cur]
      | c :: s' => split_go fl r (Some c) k cur s'
      end
  | O =>
      match match_here fl r true prev s with
      | None =>
          match s with
          | [] => [rev cur]
          | c :: s' => split_go fl r (Some c) 0 (c :: cur) s'
          end
      | Some m =>
          match length (m_text m) with
          | S n =>
              rev cur :: match s with
                         | [] => [[]]
                         | c :: s' => split_go fl r (Some c) n [] s'
                         end
          | O =>
              match s with
              | [] => [rev cur; []]
              | c :: s' =>
                  match match_here fl r false prev s with
                  | Some m' =>
                      rev cur :: [] ::
                      split_go fl r (Some c) (length (m_text m') - 1) [] s'
                  | None =>
                      rev cur :: split_go fl r (Some c) 0 [c] s'
                  end
              end
          end
      end
  end.
Definition split (fl : flags) (r : regex) (s : pystr) : list pystr :=
  split_go fl r None 0 [] s.

End Re.

(* ================================================================== *)
(** * Exceptions and dictionaries *)
(* ================================================================== *)

Module Py.

(** An exception: [type(e).__name__] and [str(e)]. *)
Record exn := Exn { exn_kind : pystr; exn_msg : pystr }.

Inductive result (A : Type) :=
| Ok (a : A)
| Raise (e : exn).
Arguments Ok {A} a.
Arguments Raise {A} e.

Definition bind {A B : Type} (m : result A) (f : A -> result B) : result B :=
  match m with
  | Ok a => f a
  | Raise e => Raise e
  end.

(** A dict with string keys, in insertion order. *)
Definition dict (V : Type) := list (pystr * V).

Fixpoint dict_get {V : Type} (k : pystr) (d : dict V) : option V :=
  match d with
  | [] => None
  | (k', v) :: d' => if streq k k' then Some v else dict_get k d'
  end.

Definition dict_mem {V : Type} (k : pystr) (d : dict V) : bool :=
  match dict_get k d with Some _ => true | None => false end.

(** [d[k] = v]: the binding is replaced in place, or added at the end. *)
Fixpoint dict_set {V : Type} (k : pystr) (v : V) (d : dict V) : dict V :=
  match d with
  | [] => [(k, v)]
  | (k', v') :: d' =>
      if streq k k' then (k, v) :: d' else (k', v') :: dict_set k v d'
  end.

(** [del d[k]]. *)
Definition dict_del {V : Type} (k : pystr) (d : dict V) : dict V :=
  filter (fun kv => negb (streq k (fst kv))) d.

Definition dict_keys {V : Type} (d : dict V) : list pystr := map fst d.

(** Python values as they occur in profile and parser dictionaries.  A
    [datetime] object carries an abstract time stamp. *)
Inductive pyval :=
| VNone
| VBool (b : bool)
| VInt (z : Z)
| VFloat (f : float)
| VStr (s : pystr)
| VDatetime (t : Z)
| VList (l : list pyval)
| VDict (d : list (pystr * pyval)).

(** Truth value of an object ([if v:], [v or w]). *)
Definition truthy (v : pyval) : bool :=
  match v with
  | VNone => false
  | VBool b => b
  | VInt z => negb (z =? 0)%Z
  | VFloat f => negb (PrimFloat.eqb f 0%float)
  | VStr s => match s with [] => false | _ => true end
  | VDatetime _ => true
  | VList l => match l with [] => false | _ => true end
  | VDict d => match d with [] => false | _ => true end
  end.

(** [a or b] *)
Definition py_or (a b : pyval) : pyval := if truthy a then a else b.

End Py.
Export Py.

Declare Scope py_scope.
Notation "x <- m ;; f" := (bind m (fun x => f))
  (at level 61, m at next level, right associativity) : py_scope.
Open Scope py_scope.

(* ================================================================== *)
(** * skills_normalizer.py *)
(* ================================================================== *)

Module Skills.

Import Re.

(** [SkillCategoryEnum] of profile_schema.py. *)
Inductive SkillCategoryEnum :=
| TECHNICAL | PROGRAMMING | FRAMEWORKS | DATABASES | CLOUD | TOOLS
| LANGUAGES | SOFT_SKILLS | CERTIFICATIONS | OTHER.

(** [category.value]. *)
Definition category_value (c : SkillCategoryEnum) : pystr :=
  match c with
  | TECHNICAL => u "technical"
  | PROGRAMMING => u "programming"
  | FRAMEWORKS => u "frameworks"
  | DATABASES => u "databases"
  | CLOUD => u "cloud"
  | TOOLS => u "tools"
  | LANGUAGES => u "languages"
  | SOFT_SKILLS => u "soft_skills"
  | CERTIFICATIONS => u "certifications"
  | OTHER => u "other"
  end.

(** One value of [SKILL_ALIASES]. *)
Record skill_info := {
  canonical : pystr;
  aliases : list pystr;
  category : SkillCategoryEnum
}.

Definition entry (key canon : string) (al : list string)
           (cat : SkillCategoryEnum) : pystr * skill_info :=
  (u key, {| canonical := u canon; aliases := map u al; category := cat |}).

Definition SKILL_ALIASES : dict skill_info := [
  (* Programming Languages *)
  entry "python" "Python" ["python3"; "py"; "python 3"; "python3.x"] PROGRAMMING;
  entry "javascript" "JavaScript"
        ["js"; "java script"; "javascript es6"; "es6"; "node.js backend"]
        PROGRAMMING;
  entry "typescript" "TypeScript" ["ts"; "type script"] PROGRAMMING;
  entry "java" "Java" ["java 8"; "java 11"; "java 17"; "jdk"] PROGRAMMING;
  entry "csharp" "C#" ["c sharp"; "c#"; ".net"; "dotnet"] PROGRAMMING;
  entry "cplusplus" "C++" ["c++"; "cpp"; "c plus plus"] PROGRAMMING;
  entry "go" "Go" ["golang"; "go lang"] PROGRAMMING;
  entry "rust" "Rust" ["rust lang"] PROGRAMMING;
  entry "php" "PHP" ["php7"; "php8"] PROGRAMMING;
  entry "ruby" "Ruby" ["ruby on rails"] PROGRAMMING;
  (* Web Frameworks *)
  entry "react" "React" ["reactjs"; "react.js"; "react js"] FRAMEWORKS;
  entry "angular" "Angular" ["angularjs"; "angular js"; "angular 2+"]
        FRAMEWORKS;
  entry "vue" "Vue.js" ["vuejs"; "vue js"; "vue"] FRAMEWORKS;
  entry "nextjs" "Next.js" ["next"; "nextjs"; "next js"] FRAMEWORKS;
  entry "django" "Django" ["django rest framework"; "drf"] FRAMEWORKS;
  entry "flask" "Flask" [] FRAMEWORKS;
  entry "fastapi" "FastAPI" ["fast api"] FRAMEWORKS;
  entry "express" "Express.js" ["expressjs"; "express js"] FRAMEWORKS;
  entry "spring" "Spring Framework" ["spring boot"; "spring mvc"] FRAMEWORKS;
  (* Databases *)
  entry "postgresql" "PostgreSQL" ["postgres"; "psql"; "pg"] DATABASES;
  entry "mysql" "MySQL" ["my sql"] DATABASES;
  entry "mongodb" "MongoDB" ["mongo db"; "mongo"] DATABASES;
  entry "redis" "Redis" [] DATABASES;
  entry "sqlite" "SQLite" ["sql lite"] DATABASES;
  entry "sql" "SQL" ["structured query language"] DATABASES;
  (* Cloud Platforms *)
  entry "aws" "Amazon Web Services" ["amazon web services"; "aws cloud"]
        CLOUD;
  entry "azure" "Microsoft Azure" ["azure cloud"; "ms azure"] CLOUD;
  entry "gcp" "Google Cloud Platform"
        ["google cloud"; "google cloud platform"; "gcloud"] CLOUD;
  entry "docker" "Docker" ["containerization"] TOOLS;
  entry "kubernetes" "Kubernetes" ["k8s"; "kube"] CLOUD;
  (* Development Tools *)
  entry "git" "Git" ["version control"; "git version control"] TOOLS;
  entry "github" "GitHub" ["git hub"] TOOLS;
  entry "gitlab" "GitLab" ["git lab"] TOOLS;
  entry "jenkins" "Jenkins" ["ci/cd"] TOOLS;
  entry "jira" "Jira" ["atlassian jira"] TOOLS;
  (* Machine Learning / AI *)
  entry "tensorflow" "TensorFlow" ["tensor flow"; "tf"] TECHNICAL;
  entry "pytorch" "PyTorch" ["torch"] TECHNICAL;
  entry "pandas" "Pandas" [] TECHNICAL;
  entry "numpy" "NumPy" ["num py"] TECHNICAL;
  entry "scikitlearn" "Scikit-learn" ["sklearn"; "scikit learn"] TECHNICAL;
  (* Operating Systems *)
  entry "linux" "Linux" ["unix"; "ubuntu"; "centos"; "red hat"] TECHNICAL;
  entry "windows" "Windows" ["microsoft windows"; "windows server"] TECHNICAL;
  entry "macos" "macOS" ["mac os"; "osx"; "os x"] TECHNICAL;
  (* Soft Skills *)
  entry "leadership" "Leadership" ["team leadership"; "leading teams"]
        SOFT_SKILLS;
  entry "communication" "Communication"
        ["verbal communication"; "written communication"] SOFT_SKILLS;
  entry "project_management" "Project Management" ["project mgmt"; "pm"]
        SOFT_SKILLS;
  entry "problem_solving" "Problem Solving"
        ["problem-solving"; "troubleshooting"] SOFT_SKILLS
].

(** The state of a [SkillsNormalizer] instance. *)
Record SkillsNormalizer := {
  _alias_to_canonical : dict skill_info;
  _canonical_to_info : dict skill_info
}.

(** [_build_lookup_tables], one entry of [SKILL_ALIASES] at a time. *)
Definition add_entry (self : SkillsNormalizer) (info : skill_info)
  : SkillsNormalizer :=
  let a2c := dict_set (lower (canonical info)) info (_alias_to_canonical self) in
  let c2i := dict_set (lower (canonical info)) info (_canonical_to_info self) in
  {| _alias_to_canonical :=
       fold_left (fun d al => dict_set (lower al) info d) (aliases info) a2c;
     _canonical_to_info := c2i |}.

Definition _build_lookup_tables (self : SkillsNormalizer) : SkillsNormalizer :=
  fold_left (fun st kv => add_entry st (snd kv)) SKILL_ALIASES self.

(** [SkillsNormalizer()] *)
Definition init : SkillsNormalizer :=
  _build_lookup_tables
    {| _alias_to_canonical := []; _canonical_to_info := [] |}.

(** [SkillEntrySchema] of profile_schema.py, as [normalize_skill] fills it. *)
Record SkillEntrySchema := {
  name : pystr;
  canonical_name : pystr;
  skill_aliases : list pystr;
  skill_category : option SkillCategoryEnum;
  context : option pystr;
  confidence_score : float
}.

Definition ValidationError (msg : string) : exn :=
  {| exn_kind := u "ValidationError"; exn_msg := u msg |}.

(** Construction of a [SkillEntrySchema]: the [max_length] constraints of
    the schema ([name] 100, [canonical_name] 100, [context] 500) are
    checked and a violation raises pydantic's [ValidationError]. *)
Definition new_SkillEntrySchema (e : SkillEntrySchema)
  : result SkillEntrySchema :=
  if 100 <? length (name e)
  then Raise (ValidationError "name: String should have at most 100 characters")
  else if 100 <? length (canonical_name e)
  then Raise (ValidationError
                "canonical_name: String should have at most 100 characters")
  else if match context e with Some c => 500 <? length c | None => false end
  then Raise (ValidationError
                "context: String should have at most 500 characters")
  else Ok e.

(** The patterns of [_clean_skill_name]. *)
(* \s+ *)
Definition re_spaces : regex := Plus space.
(* ^(proficient in|experience with|knowledge of)\s+ *)
Definition re_prefix : regex :=
  Seqs [Bol;
        Grp 1 (Alts [Str "proficient in"; Str "experience with";
                     Str "knowledge of"]);
        Plus space].
(* \s+(programming|development|framework|library|database)$ *)
Definition re_suffix : regex :=
  Seqs [Plus space;
        Grp 1 (Alts [Str "programming"; Str "development"; Str "framework";
                     Str "library"; Str "database"]);
        Eol].
(* \s+\d+(\.\d+)*$ *)
Definition re_version : regex :=
  Seqs [Plus space; Plus digit;
        Star (Grp 1 (Seq (Chr (ch ".")) (Plus digit))); Eol].
(* \s*\([^)]*\)\s* *)
Definition re_parens : regex :=
  Seqs [Star space; Chr (ch "("); Star (Cls true [Ch (ch ")")]);
        Chr (ch ")"); Star space].
(* [.,;:!?] *)
Definition re_punct : regex :=
  Cls false [Ch (ch "."); Ch (ch ","); Ch (ch ";"); Ch (ch ":");
             Ch (ch "!"); Ch (ch "?")].

Definition _clean_skill_name (skill : pystr) : pystr :=
  match skill with
  | [] => []
  | _ =>
      let skill := sub no_flags re_spaces (u " ") (strip skill) in
      let skill := sub IGNORECASE re_prefix [] skill in
      let skill := sub IGNORECASE re_suffix [] skill in
      let skill := sub no_flags re_version [] skill in
      let skill := sub no_flags re_parens (u " ") skill in
      let skill := sub no_flags re_punct [] skill in
      sub no_flags re_spaces (u " ") (strip skill)
  end.

(** The pattern groups of [_infer_skill_category], in order. *)
Definition prog_patterns : list regex := [
  (* \b(lang|language)$ *)
  Seqs [Wb; Grp 1 (Alts [Str "lang"; Str "language"]); Eol];
  (* ^(c|r|matlab|scala|kotlin|swift|perl|shell)$ *)
  Seqs [Bol; Grp 1 (Alts [Str "c"; Str "r"; Str "matlab"; Str "scala";
                          Str "kotlin"; Str "swift"; Str "perl"; Str "shell"]);
        Eol];
  (* script$ *)
  Seq (Str "script") Eol ].
Definition framework_patterns : list regex := [
  (* (framework|js|\.js)$ *)
  Seq (Grp 1 (Alts [Str "framework"; Str "js"; Str ".js"])) Eol;
  (* ^(spring|hibernate|laravel|rails|ember|backbone)$ *)
  Seqs [Bol; Grp 1 (Alts [Str "spring"; Str "hibernate"; Str "laravel";
                          Str "rails"; Str "ember"; Str "backbone"]); Eol] ].
Definition db_patterns : list regex := [
  (* (db|database|sql|nosql)$ *)
  Seq (Grp 1 (Alts [Str "db"; Str "database"; Str "sql"; Str "nosql"])) Eol;
  (* ^(oracle|cassandra|neo4j|influx|elastic)$ *)
  Seqs [Bol; Grp 1 (Alts [Str "oracle"; Str "cassandra"; Str "neo4j";
                          Str "influx"; Str "elastic"]); Eol] ].
Definition cloud_patterns : list regex := [
  (* (cloud|aws|azure|gcp)$ *)
  Seq (Grp 1 (Alts [Str "cloud"; Str "aws"; Str "azure"; Str "gcp"])) Eol;
  (* ^(serverless|lambda|functions)$ *)
  Seqs [Bol; Grp 1 (Alts [Str "serverless"; Str "lambda"; Str "functions"]);
        Eol] ].
Definition tool_patterns : list regex := [
  (* ^(ide|editor|vim|vscode|intellij|eclipse)$ *)
  Seqs [Bol; Grp 1 (Alts [Str "ide"; Str "editor"; Str "vim"; Str "vscode";
                          Str "intellij"; Str "eclipse"]); Eol];
  (* (testing|test|ci|cd|devops)$ *)
  Seq (Grp 1 (Alts [Str "testing"; Str "test"; Str "ci"; Str "cd";
                    Str "devops"])) Eol ].
Definition soft_skill_patterns : list regex := [
  (* ^(teamwork|collaboration|analytical|creative)$ *)
  Seqs [Bol; Grp 1 (Alts [Str "teamwork"; Str "collaboration";
                          Str "analytical"; Str "creative"]); Eol];
  (* (management|planning|organization)$ *)
  Seq (Grp 1 (Alts [Str "management"; Str "planning"; Str "organization"]))
      Eol ].
Definition cert_patterns : list regex := [
  (* (certified|certification|cert)$ *)
  Seq (Grp 1 (Alts [Str "certified"; Str "certification"; Str "cert"])) Eol;
  (* ^(pmp|cissp|cism|aws|azure|google).*cert *)
  Seqs [Bol; Grp 1 (Alts [Str "pmp"; Str "cissp"; Str "cism"; Str "aws";
                          Str "azure"; Str "google"]);
        Star Dot; Str "cert"] ].
Definition technical_words : list pystr :=
  map u ["api"; "rest"; "http"; "json"; "xml"; "web"; "mobile"; "algorithm"].

Definition any_search (ps : list regex) (s : pystr) : bool :=
  existsb (fun p => matches no_flags p s) ps.

Definition _infer_skill_category (skill : pystr) : option SkillCategoryEnum :=
  let skill_lower := lower skill in
  if any_search prog_patterns skill_lower then Some PROGRAMMING
  else if any_search framework_patterns skill_lower then Some FRAMEWORKS
  else if any_search db_patterns skill_lower then Some DATABASES
  else if any_search cloud_patterns skill_lower then Some CLOUD
  else if any_search tool_patterns skill_lower then Some TOOLS
  else if any_search soft_skill_patterns skill_lower then Some SOFT_SKILLS
  else if any_search cert_patterns skill_lower then Some CERTIFICATIONS
  else if existsb (fun w => contains w skill_lower) technical_words
  then Some TECHNICAL
  else Some OTHER.

(** [context[:500] if context else None] *)
Definition context_arg (ctx : pystr) : option pystr :=
  match ctx with
  | [] => None
  | _ => Some (firstn 500 ctx)
  end.

Definition normalize_skill (self : SkillsNormalizer) (raw_skill : pystr)
           (ctx : pystr) : result SkillEntrySchema :=
  let cleaned_skill := _clean_skill_name raw_skill in
  match dict_get (lower cleaned_skill) (_alias_to_canonical self) with
  | Some skill_info =>
      new_SkillEntrySchema
        {| name := strip raw_skill;
           canonical_name := canonical skill_info;
           skill_aliases := aliases skill_info;
           skill_category := Some (category skill_info);
           context := context_arg ctx;
           confidence_score := 0.95 |}
  | None =>
      let inferred_category := _infer_skill_category cleaned_skill in
      new_SkillEntrySchema
        {| name := strip raw_skill;
           canonical_name := title cleaned_skill;
           skill_aliases := [];
           skill_category := inferred_category;
           context := context_arg ctx;
           confidence_score := 0.7 |}
  end.

(** Comparison of strings and of sort keys, as Python compares them. *)
Fixpoint str_ltb (a b : pystr) : bool :=
  match a, b with
  | [], [] => false
  | [], _ :: _ => true
  | _ :: _, [] => false
  | x :: a', y :: b' =>
      if (x <? y)%N then true
      else if (y <? x)%N then false
      else str_ltb a' b'
  end.

Definition key_ltb (k1 k2 : pystr * pystr) : bool :=
  str_ltb (fst k1) (fst k2) ||
  (streq (fst k1) (fst k2) && str_ltb (snd k1) (snd k2)).

(** [lambda s: (s.category.value if s.category else 'z_other',
                s.canonical_name)] *)
Definition sort_key (s : SkillEntrySchema) : pystr * pystr :=
  (match skill_category s with
   | Some c => category_value c
   | None => u "z_other"
   end, canonical_name s).

(** [list.sort(key=...)]: a stable sort; an element is placed before the
    first later element that is not smaller than it. *)
Fixpoint insert_by {A : Type} (key : A -> pystr * pystr) (x : A)
         (l : list A) : list A :=
  match l with
  | [] => [x]
  | y :: l' =>
      if key_ltb (key y) (key x) then y :: insert_by key x l'
      else x :: l
  end.
Fixpoint sort_by {A : Type} (key : A -> pystr * pystr) (l : list A)
  : list A :=
  match l with
  | [] => []
  | x :: l' => insert_by key x (sort_by key l')
  end.

Definition is_blank (s : pystr) : bool :=
  match strip s with [] => true | _ => false end.

(** The loop of [normalize_skills_list]: [seen] is [seen_canonical],
    [acc] is [normalized_skills] (most recent first). *)
Fixpoint normalize_loop (self : SkillsNormalizer) (ctx : pystr)
         (seen : list pystr) (acc : list SkillEntrySchema)
         (raw_skills : list pystr) : result (list SkillEntrySchema) :=
  match raw_skills with
  | [] => Ok (rev acc)
  | raw_skill :: rest =>
      if is_blank raw_skill then normalize_loop self ctx seen acc rest
      else
        normalized <- normalize_skill self raw_skill ctx ;;
        let canonical_key := lower (canonical_name normalized) in
        if existsb (streq canonical_key) seen
        then normalize_loop self ctx seen acc rest
        else normalize_loop self ctx (canonical_key :: seen)
                            (normalized :: acc) rest
  end.

Definition normalize_skills_list (self : SkillsNormalizer)
           (raw_skills : list pystr) (ctx : pystr)
  : result (list SkillEntrySchema) :=
  normalized_skills <- normalize_loop self ctx [] [] raw_skills ;;
  Ok (sort_by sort_key normalized_skills).

End Skills.

(* ================================================================== *)
(** * The intermediate model shared by the extractors *)
(* ================================================================== *)

Module Entries.

(** ExperienceEntry *)
Record experience_entry := {
  exp_company : pystr;
  exp_title : pystr;
  exp_duration : pystr;
  exp_responsibilities : list pystr
}.

(** EducationEntry *)
Record education_entry := {
  edu_degree : pystr;
  edu_institution : pystr;
  edu_year : pystr;
  edu_details : list pystr
}.

(** ProjectEntry *)
Record project_entry := {
  proj_name : pystr;
  proj_description : pystr;
  proj_technologies : list pystr;
  proj_details : list pystr
}.

(** The [extracted] dictionary of both extractors. *)
Record extracted := {
  contact : dict pyval;
  summary : pystr;
  experience : list experience_entry;
  education : list education_entry;
  skills : list pystr;
  projects : list project_entry;
  achievements : list pystr;
  warnings : list pystr
}.

(** [extracted.get('contact', {}).get('email')] as a condition. *)
Definition has_email (e : extracted) : bool :=
  match dict_get (u "email") (contact e) with
  | Some v => truthy v
  | None => false
  end.

Definition nonempty {A : Type} (l : list A) : bool :=
  match l with [] => false | _ => true end.

(** [min(a, b)] on floats: [b] when [b < a], else [a]. *)
Definition fmin (a b : float) : float := if PrimFloat.ltb b a then b else a.

(** Patterns shared by the two extractors. *)
Import Re.

(** Words separated by [\s+]. *)
Fixpoint Words (l : list string) : regex :=
  match l with
  | [] => Eps
  | [w] => Str w
  | w :: l' => Seqs [Str w; Plus space; Words l']
  end.
(** [\b(p1|p2|...)\b] *)
Definition Phrase (alts : list (list string)) : regex :=
  Seqs [Wb; Grp 1 (Alts (map Words alts)); Wb].

Definition summary_patterns : list regex := [
  (* \b(summary|objective|profile|overview|about)\b *)
  Phrase [["summary"]; ["objective"]; ["profile"]; ["overview"]; ["about"]];
  (* \b(professional\s+summary|career\s+summary)\b *)
  Phrase [["professional"; "summary"]; ["career"; "summary"]];
  (* \b(executive\s+summary)\b *)
  Phrase [["executive"; "summary"]] ].
Definition experience_patterns : list regex := [
  (* \b(experience|employment|work\s+history|professional\s+experience)\b *)
  Phrase [["experience"]; ["employment"]; ["work"; "history"];
          ["professional"; "experience"]];
  (* \b(work\s+experience|career\s+history|employment\s+history)\b *)
  Phrase [["work"; "experience"]; ["career"; "history"];
          ["employment"; "history"]] ].
Definition education_patterns : list regex := [
  (* \b(education|academic|qualifications|degrees)\b *)
  Phrase [["education"]; ["academic"]; ["qualifications"]; ["degrees"]];
  (* \b(educational\s+background|academic\s+background)\b *)
  Phrase [["educational"; "background"]; ["academic"; "background"]] ].
Definition skills_patterns : list regex := [
  (* \b(skills|technical\s+skills|core\s+competencies)\b *)
  Phrase [["skills"]; ["technical"; "skills"]; ["core"; "competencies"]];
  (* \b(technologies|expertise|competencies|proficiencies)\b *)
  Phrase [["technologies"]; ["expertise"]; ["competencies"];
          ["proficiencies"]] ].
Definition projects_patterns : list regex := [
  (* \b(projects|key\s+projects|notable\s+projects)\b *)
  Phrase [["projects"]; ["key"; "projects"]; ["notable"; "projects"]];
  (* \b(project\s+experience|personal\s+projects)\b *)
  Phrase [["project"; "experience"]; ["personal"; "projects"]] ].
Definition achievements_patterns : list regex := [
  (* \b(achievements|accomplishments|awards|honors)\b *)
  Phrase [["achievements"]; ["accomplishments"]; ["awards"]; ["honors"]];
  (* \b(recognition|certifications)\b *)
  Phrase [["recognition"]; ["certifications"]] ].

(** The bullet characters of [\•\-\*\+]; the first is U+2022. *)
Definition bullet_items : list citem :=
  [Ch 8226%N; Ch (ch "-"); Ch (ch "*"); Ch (ch "+")].
(* ^[\•\-\*\+]\s* *)
Definition re_bullet : regex := Seqs [Bol; Cls false bullet_items; Star space].

(* \b[A-Za-z0-9._%+-]+@[A-Za-z0-9.-]+\.[A-Z|a-z]{2,}\b *)
Definition EMAIL_PATTERN : regex :=
  Seqs [Wb;
        Plus (Cls false [Rg 65 90; Rg 97 122; Rg 48 57; Ch (ch "."); Ch (ch "_");
                         Ch (ch "%"); Ch (ch "+"); Ch (ch "-")]);
        Chr (ch "@");
        Plus (Cls false [Rg 65 90; Rg 97 122; Rg 48 57; Ch (ch "."); Ch (ch "-")]);
        Chr (ch ".");
        AtLeast 2 (Cls false [Rg 65 90; Ch (ch "|"); Rg 97 122]);
        Wb].
(* [\+]?[1-9]?[\d\s\-\(\)\.]{8,15}\d *)
Definition PHONE_PATTERN : regex :=
  Seqs [Opt (Cls false [Ch (ch "+")]);
        Opt (Cls false [Rg 49 57]);
        RepRange 8 7 (Cls false [Dg; Sp; Ch (ch "-"); Ch (ch "("); Ch (ch ")");
                                 Ch (ch ".")]);
        digit].
(* https?://[^\s]+|www\.[^\s]+ *)
Definition URL_PATTERN : regex :=
  Alt (Seqs [Str "http"; Opt (Chr (ch "s")); Str "://"; Plus (Cls true [Sp])])
      (Seqs [Str "www."; Plus (Cls true [Sp])]).

Definition fitem_str (f : fitem) : pystr :=
  match f with
  | FStr s => s
  | FTuple l => join (u ", ") l
  end.

(** [_extract_contact_info], the same in both extractors. *)
Definition _extract_contact_info (text : pystr) : dict pyval :=
  let contact : dict pyval := [] in
  let emails := findall no_flags EMAIL_PATTERN text in
  let contact :=
    match emails with
    | e :: _ => dict_set (u "email") (VStr (fitem_str e)) contact
    | [] => contact
    end in
  let phones := findall no_flags PHONE_PATTERN text in
  let contact :=
    match phones with
    | p :: _ => dict_set (u "phone") (VStr (strip (fitem_str p))) contact
    | [] => contact
    end in
  let urls := findall no_flags URL_PATTERN text in
  match urls with
  | _ :: _ =>
      dict_set (u "urls")
               (VList (map (fun f => VStr (fitem_str f)) (firstn 3 urls)))
               contact
  | [] => contact
  end.

End Entries.
Export Entries.

(* ================================================================== *)
(** * docx_extractor.py *)
(* ================================================================== *)

Module Docx.

Import Re.

(** [SECTION_PATTERNS], in the order of the source. *)
Definition SECTION_PATTERNS : dict (list regex) := [
  (u "contact",
   (* \b(contact|personal\s+info|personal\s+information)\b *)
   [Phrase [["contact"]; ["personal"; "info"]; ["personal"; "information"]]]);
  (u "summary", summary_patterns);
  (u "experience", experience_patterns);
  (u "education", education_patterns);
  (u "skills", skills_patterns);
  (u "projects", projects_patterns);
  (u "achievements", achievements_patterns)
].

(** [DATE_PATTERNS]; U+2013 is the en dash. *)
Definition dash : regex := Cls false [Ch (ch "-"); Ch 8211%N].
Definition DATE_PATTERNS : list regex := [
  (* \b(jan|feb|mar|apr|may|jun|jul|aug|sep|oct|nov|dec)[a-z]*\s+\d{4}\b *)
  Seqs [Wb;
        Grp 1 (Alts [Str "jan"; Str "feb"; Str "mar"; Str "apr"; Str "may";
                     Str "jun"; Str "jul"; Str "aug"; Str "sep"; Str "oct";
                     Str "nov"; Str "dec"]);
        Star (Cls false [Rg 97 122]); Plus space; Rep 4 digit; Wb];
  (* \b\d{1,2}[/\-]\d{1,2}[/\-]\d{2,4}\b *)
  Seqs [Wb; RepRange 1 1 digit; Cls false [Ch (ch "/"); Ch (ch "-")];
        RepRange 1 1 digit; Cls false [Ch (ch "/"); Ch (ch "-")];
        RepRange 2 2 digit; Wb];
  (* \b\d{4}\s*[\-\–]\s*\d{4}\b *)
  Seqs [Wb; Rep 4 digit; Star space; dash; Star space; Rep 4 digit; Wb];
  (* \b\d{4}\s*[\-\–]\s*(present|current)\b *)
  Seqs [Wb; Rep 4 digit; Star space; dash; Star space;
        Grp 1 (Alts [Str "present"; Str "current"]); Wb]
].

(** A run and a paragraph of the [python-docx] document. *)
Record run := {
  run_text : pystr;
  run_bold : option bool;
  run_font_size : option Z
}.
Record paragraph := {
  para_text : pystr;
  para_style : option pystr;
  para_runs : list run
}.

(** One element of the list built by [_extract_paragraphs]
    (a RawContentUnit). *)
Record para := {
  index : nat;
  text : pystr;
  is_header : bool;
  style : option pystr;
  runs : list pystr;
  is_bold : bool;
  font_size : option Z
}.

Definition bold_run (r : run) : bool :=
  match run_bold r with Some b => b | None => false end.

Definition matches_any_section (fl : flags) (t : pystr) : bool :=
  existsb (fun kv => existsb (fun p => matches fl p t) (snd kv))
          SECTION_PATTERNS.

Definition _is_likely_header (p : paragraph) : bool :=
  let text := strip (para_text p) in
  if 50 <? length text then false
  else
    let has_bold := existsb bold_run (para_runs p) in
    let is_uppercase := isupper text in
    let matches_pattern := matches_any_section IGNORECASE text in
    (has_bold || is_uppercase) && matches_pattern.

Fixpoint _get_font_size (rs : list run) : option Z :=
  match rs with
  | [] => None
  | r :: rs' =>
      match run_font_size r with
      | Some z => if (z =? 0)%Z then _get_font_size rs' else Some z
      | None => _get_font_size rs'
      end
  end.

(** [_extract_paragraphs]: [i] is the position in [document.paragraphs]. *)
Fixpoint extract_paragraphs_from (i : nat) (ps : list paragraph) : list para :=
  match ps with
  | [] => []
  | p :: ps' =>
      let text := strip (para_text p) in
      match text with
      | [] => extract_paragraphs_from (S i) ps'
      | _ =>
          {| index := i; text := text; is_header := _is_likely_header p;
             style := para_style p; runs := map run_text (para_runs p);
             is_bold := existsb bold_run (para_runs p);
             font_size := _get_font_size (para_runs p) |}
          :: extract_paragraphs_from (S i) ps'
      end
  end.
Definition _extract_paragraphs (document : list paragraph) : list para :=
  extract_paragraphs_from 0 document.

(** The first section whose patterns match, in dictionary order. *)
Fixpoint first_section (fl : flags) (pats : dict (list regex)) (t : pystr)
  : option pystr :=
  match pats with
  | [] => None
  | (section_name, patterns) :: rest =>
      if existsb (fun p => matches fl p t) patterns then Some section_name
      else first_section fl rest t
  end.

(** The state of the section scan: the section map and the cursor. *)
Definition sections_t := dict (list nat).
Definition scan_state := (sections_t * option pystr)%type.

(** [sections[current].append(i)] *)
Definition append_to (sections : sections_t) (current : pystr) (i : nat)
  : sections_t :=
  match dict_get current sections with
  | Some l => dict_set current (l ++ [i]) sections
  | None => sections
  end.

(** [if current not in sections: sections[current] = []] *)
Definition open_section (sections : sections_t) (current : pystr)
  : sections_t :=
  if dict_mem current sections then sections
  else dict_set current [] sections.

(** Whether the scan treats the unit as a section header, and which. *)
Definition header_of (p : para) : option pystr :=
  match first_section IGNORECASE SECTION_PATTERNS (lower (text p)) with
  | Some detected_section =>
      if is_header p then Some detected_section else None
  | None => None
  end.

(** One iteration of the loop of [_detect_sections]. *)
Definition scan_step (st : scan_state) (p : para) : scan_state :=
  let '(sections, current_section) := st in
  match header_of p with
  | Some detected_section =>
      (open_section sections detected_section, Some detected_section)
  | None =>
      match current_section with
      | Some cur => (append_to sections cur (index p), current_section)
      | None => st
      end
  end.

Definition _detect_sections (paragraphs : list para) : sections_t :=
  fst (fold_left scan_step paragraphs ([], None)).

(** [_extract_dates] *)
Fixpoint extract_dates_from (patterns : list regex) (t : pystr)
  : option pystr :=
  match patterns with
  | [] => None
  | pattern :: rest =>
      match findall IGNORECASE pattern t with
      | FStr s :: _ => Some s
      | FTuple l :: _ => Some (join (u " - ") l)
      | [] => extract_dates_from rest t
      end
  end.
Definition _extract_dates (t : pystr) : option pystr :=
  extract_dates_from DATE_PATTERNS t.

Definition has_date (t : pystr) : bool :=
  match _extract_dates t with
  | Some d => nonempty d
  | None => false
  end.

Definition responsibility_verbs : list pystr :=
  map u ["developed"; "managed"; "led"; "built"; "implemented"; "improved";
         "collaborated"].

(** The stripped, non-blank lines of a block. *)
Definition block_lines (entry : pystr) : list pystr :=
  map strip (filter (fun l => nonempty (strip l)) (PyStr.split nl entry)).

Definition is_responsibility (line : pystr) : bool :=
  match re_match no_flags re_bullet line with
  | Some _ => true
  | None => existsb (fun v => startswith v (lower line)) responsibility_verbs
  end.

(** The first truthy date found in the lines. *)
Fixpoint first_date (lines : list pystr) : option pystr :=
  match lines with
  | [] => None
  | line :: rest =>
      match _extract_dates line with
      | Some d => if nonempty d then Some d else first_date rest
      | None => first_date rest
      end
  end.

Definition nth_str (l : list pystr) (i : nat) : pystr := nth i l [].

Definition _parse_experience_entry (entry : pystr) : option experience_entry :=
  let lines := block_lines entry in
  match lines with
  | [] => None
  | _ =>
      let stripped := map strip lines in
      let title_lines :=
        filter (fun l => negb (is_responsibility l)) stripped in
      let responsibility_lines :=
        filter nonempty
               (map (sub no_flags re_bullet [])
                    (filter is_responsibility stripped)) in
      let exp :=
        match title_lines with
        | [] =>
            {| exp_company := []; exp_title := []; exp_duration := [];
               exp_responsibilities := responsibility_lines |}
        | first_line :: _ =>
            let duration :=
              match first_date lines with Some d => d | None => [] end in
            if contains (u "|") first_line then
              let parts := split_max (u "|") 1 first_line in
              {| exp_company := strip (nth_str parts 1);
                 exp_title := strip (nth_str parts 0);
                 exp_duration := duration;
                 exp_responsibilities := responsibility_lines |}
            else if contains (u " - ") first_line then
              let parts := split_max (u " - ") 1 first_line in
              {| exp_company := strip (nth_str parts 1);
                 exp_title := strip (nth_str parts 0);
                 exp_duration := duration;
                 exp_responsibilities := responsibility_lines |}
            else if contains (u ",") first_line && negb (has_date first_line)
            then
              let parts := split_max (u ",") 1 first_line in
              {| exp_company := strip (nth_str parts 1);
                 exp_title := strip (nth_str parts 0);
                 exp_duration := duration;
                 exp_responsibilities := responsibility_lines |}
            else
              {| exp_company :=
                   if (1 <? length title_lines)
                      && negb (has_date (nth_str title_lines 1))
                   then nth_str title_lines 1 else [];
                 exp_title := first_line;
                 exp_duration := duration;
                 exp_responsibilities := responsibility_lines |}
        end in
      if nonempty (exp_company exp) || nonempty (exp_title exp)
         || nonempty (exp_responsibilities exp)
      then Some exp else None
  end.

(* \n(?=[A-Z][^\n]*(?:,|\n)) *)
Definition re_experience_boundary : regex :=
  Seq (Chr 10%N)
      (Ahead (Seqs [Cls false [Rg 65 90]; Star (Cls true [Ch 10%N]);
                    Alt (Chr (ch ",")) (Chr 10%N)])).

Definition _extract_experience (t : pystr) : list experience_entry :=
  let entries := Re.split no_flags re_experience_boundary t in
  flat_map (fun entry =>
              let entry := strip entry in
              if length entry <? 10 then []
              else match _parse_experience_entry entry with
                   | Some exp_item => [exp_item]
                   | None => []
                   end) entries.

(** [_calculate_confidence_score] *)
Definition _calculate_confidence_score (e : extracted) : float :=
  let score := 0.0%float in
  let score := if has_email e then (score + 0.2)%float else score in
  let score := if nonempty (summary e) then (score + 0.1)%float else score in
  let score := if nonempty (experience e) then (score + 0.3)%float else score in
  let score := if nonempty (education e) then (score + 0.2)%float else score in
  let score := if nonempty (skills e) then (score + 0.2)%float else score in
  fmin score 1.0.

End Docx.

(* ================================================================== *)
(** * pdf_extractor.py *)
(* ================================================================== *)

Module Pdf.

Import Re.

(** [SECTION_PATTERNS] of the PDF extractor: no [contact] section. *)
Definition SECTION_PATTERNS : dict (list regex) := [
  (u "summary", summary_patterns);
  (u "experience", experience_patterns);
  (u "education", education_patterns);
  (u "skills", skills_patterns);
  (u "projects", projects_patterns);
  (u "achievements", achievements_patterns)
].

(* \n\s*\n *)
Definition re_blank_lines : regex := Seqs [Chr 10%N; Star space; Chr 10%N].
(*  {2,} *)
Definition re_two_spaces : regex := AtLeast 2 (Chr 32%N).
(* ^\d+$ *)
Definition re_page_number : regex := Seqs [Bol; Plus digit; Eol].

Definition _clean_text (t : pystr) : pystr :=
  let t := sub no_flags re_blank_lines (nl ++ nl) t in
  let t := sub no_flags re_two_spaces (u " ") t in
  let lines := PyStr.split nl t in
  let cleaned_lines :=
    filter (fun line =>
              match re_match no_flags re_page_number line with
              | Some _ => false
              | None => negb (length line <? 2)
              end) (map strip lines) in
  join nl cleaned_lines.

Definition sections_t := dict (list nat).
Definition scan_state := (sections_t * option pystr)%type.

(** The section a line opens: the first section with a matching pattern,
    provided the line has at most five words. *)
Fixpoint detect (pats : dict (list regex)) (line : pystr) : option pystr :=
  match pats with
  | [] => None
  | (section_name, patterns) :: rest =>
      if existsb (fun p => matches no_flags p (lower line)) patterns
         && (length (split_ws line) <=? 5)
      then Some section_name
      else detect rest line
  end.
Definition header_of (line : pystr) : option pystr :=
  detect SECTION_PATTERNS line.

(** One iteration of the loop of [_detect_sections_heuristic]; [n] is
    [len(lines)]. *)
Definition scan_step (n : nat) (st : scan_state) (il : nat * pystr)
  : scan_state :=
  let '(sections, current_section) := st in
  let '(i, line) := il in
  match header_of line with
  | Some detected_section =>
      (Docx.open_section sections detected_section, Some detected_section)
  | None =>
      match current_section with
      | Some cur =>
          if i <? n - 1
          then (Docx.append_to sections cur i, current_section)
          else st
      | None => st
      end
  end.

(** [enumerate(lines)] *)
Definition enumerate {A : Type} (l : list A) : list (nat * A) :=
  combine (seq 0 (length l)) l.

Definition _detect_sections_heuristic (lines : list pystr) : sections_t :=
  fst (fold_left (scan_step (length lines)) (enumerate lines) ([], None)).

Definition _extract_summary_heuristic (t : pystr) : pystr :=
  let sentences := PyStr.split (u ".") t in
  let summary_parts :=
    filter (fun s => nonempty s && (10 <? length s))
           (map strip (firstn 5 sentences)) in
  join (u ". ") summary_parts.

Definition company_words : list pystr :=
  map u ["inc"; "corp"; "ltd"; "llc"; "company"].

(* \b\d{4}\b.*?\b\d{4}\b|\b\d{4}\b.*?present *)
Definition re_year_range : regex :=
  Alt (Seqs [Wb; Rep 4 digit; Wb; LazyStar Dot; Wb; Rep 4 digit; Wb])
      (Seqs [Wb; Rep 4 digit; Wb; LazyStar Dot; Str "present"]).
(* \b\d{4}\b *)
Definition re_year4 : regex := Seqs [Wb; Rep 4 digit; Wb].
(* \b(19|20)\d{2}\b *)
Definition re_grad_year : regex :=
  Seqs [Wb; Grp 1 (Alt (Str "19") (Str "20")); Rep 2 digit; Wb].

Definition nonblank_lines (entry : pystr) : list pystr :=
  map strip (filter (fun l => nonempty (strip l)) (PyStr.split nl entry)).

Fixpoint first_duration (lines : list pystr) : pystr :=
  match lines with
  | [] => []
  | line :: rest =>
      match search IGNORECASE re_year_range line with
      | Some m => strip (m_text m)
      | None => first_duration rest
      end
  end.

Definition _parse_experience_entry_heuristic (entry : pystr)
  : option experience_entry :=
  match nonblank_lines entry with
  | [] => None
  | first_line :: rest as lines =>
      let is_company :=
        existsb (fun w => contains w (lower first_line)) company_words in
      let responsibilities :=
        filter nonempty
          (map (sub no_flags re_bullet [])
               (filter (fun line => nonempty line
                                    && negb (matches no_flags re_year4 line))
                       rest)) in
      let exp :=
        {| exp_company := if is_company then first_line else [];
           exp_title := if is_company then [] else first_line;
           exp_duration := first_duration (firstn 3 lines);
           exp_responsibilities := responsibilities |} in
      if nonempty (exp_title exp) || nonempty (exp_company exp)
      then Some exp else None
  end.

(* \n\n+ *)
Definition re_paragraph_break : regex := Seq (Chr 10%N) (Plus (Chr 10%N)).

Definition _extract_experience_heuristic (t : pystr) : list experience_entry :=
  let entries := Re.split no_flags re_paragraph_break t in
  let experience :=
    flat_map (fun entry =>
                let entry := strip entry in
                if length entry <? 20 then []
                else match _parse_experience_entry_heuristic entry with
                     | Some exp_item => [exp_item]
                     | None => []
                     end) entries in
  firstn 10 experience.

Definition degree_keywords : list pystr :=
  map u ["bachelor"; "master"; "phd"; "degree"; "b.s."; "m.s."; "b.a.";
         "m.a."].
Definition institution_keywords : list pystr :=
  map u ["university"; "college"; "institute"].

(** The loop of [_extract_education_heuristic]: [education] is collected
    most recent first. *)
Fixpoint education_loop (education : list education_entry)
         (current_edu : option education_entry) (lines : list pystr)
  : list education_entry :=
  match lines with
  | [] =>
      rev (match current_edu with
           | Some e => e :: education
           | None => education
           end)
  | line :: rest =>
      let line := strip line in
      match line with
      | [] => education_loop education current_edu rest
      | _ =>
          let has_degree :=
            existsb (fun k => contains k (lower line)) degree_keywords in
          let has_institution :=
            existsb (fun k => contains k (lower line)) institution_keywords in
          if has_degree || has_institution then
            let education :=
              match current_edu with
              | Some e => e :: education
              | None => education
              end in
            let year :=
              match search no_flags re_grad_year line with
              | Some m => m_text m
              | None => []
              end in
            education_loop education
              (Some {| edu_degree := if has_degree then line else [];
                       edu_institution := if has_institution then line else [];
                       edu_year := year;
                       edu_details := [] |}) rest
          else
            match current_edu with
            | Some e =>
                education_loop education
                  (Some {| edu_degree := edu_degree e;
                           edu_institution := edu_institution e;
                           edu_year := edu_year e;
                           edu_details := edu_details e ++ [line] |}) rest
            | None => education_loop education current_edu rest
            end
      end
  end.

Definition _extract_education_heuristic (t : pystr) : list education_entry :=
  firstn 5 (education_loop [] None (PyStr.split nl t)).

(* ^(skills?|technologies?):?\s* *)
Definition re_skills_header : regex :=
  Seqs [Bol;
        Grp 1 (Alt (Seq (Str "skill") (Opt (Chr (ch "s"))))
                   (Seq (Str "technologie") (Opt (Chr (ch "s")))));
        Opt (Chr (ch ":")); Star space].
(* [,;\n\|•\-\*\+]+ *)
Definition re_skill_delims : regex :=
  Plus (Cls false ([Ch (ch ","); Ch (ch ";"); Ch 10%N; Ch (ch "|")]
                   ++ bullet_items)).

Definition _extract_skills_heuristic (t : pystr) : list pystr :=
  let t := sub IGNORECASE_MULTILINE re_skills_header [] t in
  let skills := Re.split no_flags re_skill_delims t in
  let cleaned_skills :=
    filter (fun skill => nonempty skill && (2 <=? length skill)
                         && (length skill <=? 50))
           (map strip skills) in
  firstn 20 cleaned_skills.

Definition _extract_projects_heuristic (t : pystr) : list project_entry :=
  let entries := Re.split no_flags re_paragraph_break t in
  let projects :=
    flat_map (fun entry =>
                let entry := strip entry in
                if length entry <? 10 then []
                else match nonblank_lines entry with
                     | [] => []
                     | first :: rest =>
                         [{| proj_name := first;
                             proj_description := join (u " ") rest;
                             proj_technologies := [];
                             proj_details := [] |}]
                     end) entries in
  firstn 5 projects.

(* [\n•\-\*\+]+ *)
Definition re_item_delims : regex := Plus (Cls false (Ch 10%N :: bullet_items)).

Definition _extract_achievements_heuristic (t : pystr) : list pystr :=
  let items := Re.split no_flags re_item_delims t in
  firstn 10 (filter (fun item => nonempty item && (5 <=? length item)
                                 && (length item <=? 200))
                    (map strip items)).

Definition tech_terms : list pystr :=
  map u ["python"; "java"; "javascript"; "react"; "angular"; "vue";
         "sql"; "mysql"; "postgresql"; "mongodb"; "git"; "docker";
         "aws"; "azure"; "linux"; "windows"; "html"; "css"].

Definition set_contact (e : extracted) (c : dict pyval) : extracted :=
  {| contact := c; summary := summary e; experience := experience e;
     education := education e; skills := skills e; projects := projects e;
     achievements := achievements e; warnings := warnings e |}.
Definition set_summary (e : extracted) (s : pystr) : extracted :=
  {| contact := contact e; summary := s; experience := experience e;
     education := education e; skills := skills e; projects := projects e;
     achievements := achievements e; warnings := warnings e |}.
Definition set_experience (e : extracted) (x : list experience_entry)
  : extracted :=
  {| contact := contact e; summary := summary e; experience := x;
     education := education e; skills := skills e; projects := projects e;
     achievements := achievements e; warnings := warnings e |}.
Definition set_education (e : extracted) (x : list education_entry)
  : extracted :=
  {| contact := contact e; summary := summary e; experience := experience e;
     education := x; skills := skills e; projects := projects e;
     achievements := achievements e; warnings := warnings e |}.
Definition set_skills (e : extracted) (x : list pystr) : extracted :=
  {| contact := contact e; summary := summary e; experience := experience e;
     education := education e; skills := x; projects := projects e;
     achievements := achievements e; warnings := warnings e |}.
Definition set_projects (e : extracted) (x : list project_entry) : extracted :=
  {| contact := contact e; summary := summary e; experience := experience e;
     education := education e; skills := skills e; projects := x;
     achievements := achievements e; warnings := warnings e |}.
Definition set_achievements (e : extracted) (x : list pystr) : extracted :=
  {| contact := contact e; summary := summary e; experience := experience e;
     education := education e; skills := skills e; projects := projects e;
     achievements := x; warnings := warnings e |}.
Definition add_warning (e : extracted) (w : string) : extracted :=
  {| contact := contact e; summary := summary e; experience := experience e;
     education := education e; skills := skills e; projects := projects e;
     achievements := achievements e; warnings := warnings e ++ [u w] |}.

Definition _extract_from_full_text (t : pystr) (e : extracted) : extracted :=
  let e :=
    match contact e with
    | [] => set_contact e (_extract_contact_info t)
    | _ => e
    end in
  let e :=
    match skills e with
    | [] =>
        let text_lower := lower t in
        let found_skills :=
          map title (filter (fun term => contains term text_lower)
                            tech_terms) in
        set_skills e (firstn 10 found_skills)
    | _ => e
    end in
  add_warning e "Limited extraction due to unclear document structure".

Definition empty_extracted : extracted :=
  {| contact := []; summary := []; experience := []; education := [];
     skills := []; projects := []; achievements := []; warnings := [] |}.

(** The body of the loop over [sections.items()]. *)
Definition process_section (lines : list pystr) (e : extracted)
           (kv : pystr * list nat) : extracted :=
  let '(section_name, line_indices) := kv in
  let section_lines := map (fun i => nth i lines []) line_indices in
  let section_text := join nl section_lines in
  if streq section_name (u "summary")
  then set_summary e (_extract_summary_heuristic section_text)
  else if streq section_name (u "experience")
  then set_experience e (_extract_experience_heuristic section_text)
  else if streq section_name (u "education")
  then set_education e (_extract_education_heuristic section_text)
  else if streq section_name (u "skills")
  then set_skills e (_extract_skills_heuristic section_text)
  else if streq section_name (u "projects")
  then set_projects e (_extract_projects_heuristic section_text)
  else if streq section_name (u "achievements")
  then set_achievements e (_extract_achievements_heuristic section_text)
  else e.

Definition _process_text_content (t : pystr) : extracted :=
  match strip t with
  | [] => add_warning empty_extracted "No text content extracted from PDF"
  | _ =>
      let t := _clean_text t in
      let lines :=
        map strip (filter (fun l => nonempty (strip l)) (PyStr.split nl t)) in
      let sections := _detect_sections_heuristic lines in
      let extracted := set_contact empty_extracted (_extract_contact_info t) in
      let extracted := fold_left (process_section lines) sections extracted in
      if existsb (fun kv => nonempty (snd kv)) sections then extracted
      else
        _extract_from_full_text t
          (add_warning extracted
             "No clear sections detected - using heuristic extraction")
  end.

(** [_calculate_confidence_score] *)
Definition _calculate_confidence_score (e : extracted) : float :=
  let score := 0.0%float in
  let score := if has_email e then (score + 0.15)%float else score in
  let score := if nonempty (summary e) then (score + 0.1)%float else score in
  let score := if nonempty (experience e) then (score + 0.2)%float else score in
  let score := if nonempty (education e) then (score + 0.15)%float else score in
  let score := if nonempty (skills e) then (score + 0.1)%float else score in
  fmin (score * 0.8)%float 0.8.

End Pdf.

(* ================================================================== *)
(** * profile_schema.py *)
(* ================================================================== *)

Module Schema.

Import Re.

Definition PROFILE_SCHEMA_VERSION : pystr := u "1.0.0".

(** ** The pydantic models

    A model is described by its fields; [validate] follows pydantic v2 in
    its default (lax) mode on the values of [pyval]: the errors of all
    fields are collected in field order, each with the path ([loc]) of the
    offending value and pydantic's message. *)

Inductive loc_item :=
| LKey (k : pystr)
| LIdx (i : nat).

(** One element of [ValidationError.errors()]. *)
Record verror := { loc : list loc_item; msg : pystr }.

Inductive ftype :=
| TStr (max_length : option nat)         (* str, Field(max_length=...) *)
| TInt
| TFloat
| TBool
| TDatetime
| TDateOrStr                             (* Union[date, str] *)
| TAny
| TEnum (values : list pystr)            (* a str-valued Enum *)
| TList (t : ftype)                      (* List[t] *)
| TDict (t : ftype)                      (* Dict[str, t] *)
| TOptional (t : ftype)                  (* Optional[t] *)
| TChecked (t : ftype) (check : pyval -> option pystr)
                                         (* t with a validator that may
                                            raise ValueError(msg) *)
| TModel (name : pystr) (fields : list (pystr * (bool * ftype))).
                                         (* (field, (required, type)) *)

Definition err (m : string) : list verror := [{| loc := []; msg := u m |}].

Definition under (i : loc_item) (es : list verror) : list verror :=
  map (fun e => {| loc := i :: loc e; msg := msg e |}) es.

(** Numbers and time stamps written as strings, as the lax mode reads
    them. *)
(* [+-]?\d+ *)
Definition re_int_text : regex :=
  Seqs [Bol; Opt (Cls false [Ch (ch "+"); Ch (ch "-")]); Plus digit; Eol].
(* [+-]?\d+(\.\d+)? *)
Definition re_float_text : regex :=
  Seqs [Bol; Opt (Cls false [Ch (ch "+"); Ch (ch "-")]); Plus digit;
        Opt (Seq (Chr (ch ".")) (Plus digit)); Eol].
(* \d{4}-\d{2}-\d{2}([T ]\d{2}:\d{2}(:\d{2}(\.\d+)?)?(Z|[+-]\d{2}:?\d{2})?)? *)
Definition re_datetime_text : regex :=
  Seqs [Bol; Rep 4 digit; Chr (ch "-"); Rep 2 digit; Chr (ch "-"); Rep 2 digit;
        Opt (Seqs [Cls false [Ch (ch "T"); Ch (ch "t"); Ch 32%N];
                   Rep 2 digit; Chr (ch ":"); Rep 2 digit;
                   Opt (Seqs [Chr (ch ":"); Rep 2 digit;
                              Opt (Seq (Chr (ch ".")) (Plus digit))]);
                   Opt (Alt (Cls false [Ch (ch "Z"); Ch (ch "z")])
                            (Seqs [Cls false [Ch (ch "+"); Ch (ch "-")];
                                   Rep 2 digit; Opt (Chr (ch ":"));
                                   Rep 2 digit]))]);
        Eol].
Definition full_match (r : regex) (s : pystr) : bool :=
  match re_match no_flags r s with Some _ => true | None => false end.

Definition bool_texts : list pystr :=
  map u ["0"; "off"; "f"; "false"; "n"; "no"; "1"; "on"; "t"; "true"; "y";
         "yes"].

(** A float without fractional part. *)
Definition is_integral (f : float) : bool :=
  let a := PrimFloat.abs f in
  if PrimFloat.ltb a 4503599627370496%float
  then PrimFloat.eqb (a + 4503599627370496 - 4503599627370496)%float a
  else PrimFloat.ltb a PrimFloat.infinity.

Definition enum_message : pystr :=
  u "Input should be 'technical', 'programming', 'frameworks', 'databases', 'cloud', 'tools', 'languages', 'soft_skills', 'certifications' or 'other'".

Fixpoint indexed_from {A : Type} (i : nat) (l : list A) : list (nat * A) :=
  match l with
  | [] => []
  | x :: l' => (i, x) :: indexed_from (S i) l'
  end.

Fixpoint validate (t : ftype) (v : pyval) {struct t} : list verror :=
  match t with
  | TStr max_length =>
      match v with
      | VStr s =>
          match max_length with
          | Some n =>
              if n <? length s
              then [{| loc := [];
                       msg := u "String should have at most " ++ str_of_nat n
                              ++ u " characters" |}]
              else []
          | None => []
          end
      | _ => err "Input should be a valid string"
      end
  | TInt =>
      match v with
      | VInt _ | VBool _ => []
      | VFloat f =>
          if is_integral f then []
          else err "Input should be a valid integer, got a number with a fractional part"
      | VStr s =>
          if full_match re_int_text s then []
          else err "Input should be a valid integer, unable to parse string as an integer"
      | _ => err "Input should be a valid integer"
      end
  | TFloat =>
      match v with
      | VFloat _ | VInt _ | VBool _ => []
      | VStr s =>
          if full_match re_float_text s then []
          else err "Input should be a valid number, unable to parse string as a number"
      | _ => err "Input should be a valid number"
      end
  | TBool =>
      match v with
      | VBool _ => []
      | VInt z =>
          if (z =? 0)%Z || (z =? 1)%Z then []
          else err "Input should be a valid boolean, unable to interpret input"
      | VFloat f =>
          if PrimFloat.eqb f 0 || PrimFloat.eqb f 1 then []
          else err "Input should be a valid boolean, unable to interpret input"
      | VStr s =>
          if existsb (streq (lower s)) bool_texts then []
          else err "Input should be a valid boolean, unable to interpret input"
      | _ => err "Input should be a valid boolean"
      end
  | TDatetime =>
      match v with
      | VDatetime _ | VInt _ | VFloat _ => []
      | VStr s =>
          if full_match re_datetime_text s || full_match re_float_text s
          then []
          else err "Input should be a valid datetime or date, invalid character in year"
      | _ => err "Input should be a valid datetime"
      end
  | TDateOrStr =>
      match v with
      | VStr _ => []
      | VInt _ => []
      | VDatetime t' =>
          if (t' mod 86400 =? 0)%Z then []
          else [{| loc := [LKey (u "date")];
                   msg := u "Datetimes provided to dates should have zero time - e.g. be exact dates" |};
                {| loc := [LKey (u "str")];
                   msg := u "Input should be a valid string" |}]
      | _ =>
          [{| loc := [LKey (u "date")]; msg := u "Input should be a valid date" |};
           {| loc := [LKey (u "str")]; msg := u "Input should be a valid string" |}]
      end
  | TAny => []
  | TEnum values =>
      match v with
      | VStr s =>
          if existsb (streq s) values then []
          else [{| loc := []; msg := enum_message |}]
      | _ => [{| loc := []; msg := enum_message |}]
      end
  | TList t' =>
      match v with
      | VList l =>
          flat_map (fun ix => under (LIdx (fst ix)) (validate t' (snd ix)))
                   (indexed_from 0 l)
      | _ => err "Input should be a valid list"
      end
  | TDict t' =>
      match v with
      | VDict d =>
          flat_map (fun kv => under (LKey (fst kv)) (validate t' (snd kv))) d
      | _ => err "Input should be a valid dictionary"
      end
  | TOptional t' =>
      match v with
      | VNone => []
      | _ => validate t' v
      end
  | TChecked t' check =>
      match validate t' v with
      | [] =>
          match check v with
          | Some m => [{| loc := []; msg := u "Value error, " ++ m |}]
          | None => []
          end
      | errs => errs
      end
  | TModel name fields =>
      match v with
      | VDict d =>
          (fix go (fs : list (pystr * (bool * ftype))) : list verror :=
             match fs with
             | [] => []
             | (fname, (required, ft)) :: fs' =>
                 match dict_get fname d with
                 | Some x => under (LKey fname) (validate ft x)
                 | None =>
                     if required
                     then [{| loc := [LKey fname]; msg := u "Field required" |}]
                     else []
                 end ++ go fs'
             end) fields
      | _ =>
          [{| loc := [];
              msg := u "Input should be a valid dictionary or instance of "
                     ++ name |}]
      end
  end.

(** Field declarations. *)
Definition opt_str (n : nat) : bool * ftype :=
  (false, TOptional (TStr (Some n))).
Definition opt_str_any : bool * ftype := (false, TOptional (TStr None)).
Definition opt_strs : bool * ftype :=
  (false, TOptional (TList (TStr None))).
Definition opt_int : bool * ftype := (false, TOptional TInt).
Definition opt_float : bool * ftype := (false, TOptional TFloat).
Definition fld (n : string) (d : bool * ftype) : pystr * (bool * ftype) :=
  (u n, d).

(* ^[^@]+@[^@]+\.[^@]+$ *)
Definition re_email : regex :=
  Seqs [Bol; Plus (Cls true [Ch (ch "@")]); Chr (ch "@");
        Plus (Cls true [Ch (ch "@")]); Chr (ch ".");
        Plus (Cls true [Ch (ch "@")]); Eol].
(* [\s\-\(\)\+\.] *)
Definition re_phone_punct : regex :=
  Cls false [Sp; Ch (ch "-"); Ch (ch "("); Ch (ch ")"); Ch (ch "+");
             Ch (ch ".")].
(* ^\d{7,15}$ *)
Definition re_phone_digits : regex := Seqs [Bol; RepRange 7 8 digit; Eol].

Definition validate_email (v : pyval) : option pystr :=
  match v with
  | VStr s =>
      if nonempty s && negb (full_match re_email s)
      then Some (u "Invalid email format") else None
  | _ => None
  end.

Definition validate_phone (v : pyval) : option pystr :=
  match v with
  | VStr s =>
      if nonempty s
      then let cleaned := sub no_flags re_phone_punct [] s in
           if full_match re_phone_digits cleaned then None
           else Some (u "Invalid phone format")
      else None
  | _ => None
  end.

Definition ContactInfoSchema : ftype :=
  TModel (u "ContactInfoSchema") [
    fld "full_name" (opt_str 200);
    fld "email" (false, TChecked (TOptional (TStr (Some 254))) validate_email);
    fld "phone" (false, TChecked (TOptional (TStr (Some 50))) validate_phone);
    fld "location" (opt_str 200);
    fld "website" (opt_str 500);
    fld "linkedin" (opt_str 500);
    fld "github" (opt_str 500);
    fld "address" (opt_str 500);
    fld "social_profiles" (false, TOptional (TDict (TStr None)))
  ].

Definition SummarySchema : ftype :=
  TModel (u "SummarySchema") [
    fld "text" (opt_str 2000);
    fld "objective" (opt_str 1000);
    fld "keywords" opt_strs
  ].

(** The [parse_dates] pre-validator turns a string into a date or a
    stripped string; both are accepted by [Union[date, str]]. *)
Definition DateRangeSchema : ftype :=
  TModel (u "DateRangeSchema") [
    fld "start_date" (false, TOptional TDateOrStr);
    fld "end_date" (false, TOptional TDateOrStr);
    fld "is_current" (false, TBool);
    fld "raw_date_text" (opt_str 200)
  ].

Definition ExperienceEntrySchema : ftype :=
  TModel (u "ExperienceEntrySchema") [
    fld "company" (opt_str 200);
    fld "position" (opt_str 200);
    fld "location" (opt_str 200);
    fld "dates" (false, TOptional DateRangeSchema);
    fld "description" (opt_str 5000);
    fld "responsibilities" opt_strs;
    fld "technologies" opt_strs;
    fld "confidence_score" opt_float;
    fld "warnings" opt_strs
  ].

Definition EducationEntrySchema : ftype :=
  TModel (u "EducationEntrySchema") [
    fld "institution" (opt_str 200);
    fld "degree" (opt_str 200);
    fld "field_of_study" (opt_str 200);
    fld "location" (opt_str 200);
    fld "dates" (false, TOptional DateRangeSchema);
    fld "gpa" (opt_str 20);
    fld "honors" opt_strs;
    fld "relevant_coursework" opt_strs;
    fld "confidence_score" opt_float;
    fld "warnings" opt_strs
  ].

Definition SkillCategoryEnum : ftype :=
  TEnum (map u ["technical"; "programming"; "frameworks"; "databases";
                "cloud"; "tools"; "languages"; "soft_skills";
                "certifications"; "other"]).

Definition SkillEntrySchema : ftype :=
  TModel (u "SkillEntrySchema") [
    fld "name" (true, TStr (Some 100));
    fld "category" (false, TOptional SkillCategoryEnum);
    fld "proficiency_level" (opt_str 50);
    fld "years_experience" opt_int;
    fld "canonical_name" (opt_str 100);
    fld "aliases" opt_strs;
    fld "context" (opt_str 500);
    fld "confidence_score" opt_float
  ].

Definition ProjectEntrySchema : ftype :=
  TModel (u "ProjectEntrySchema") [
    fld "name" (true, TStr (Some 200));
    fld "description" (opt_str 2000);
    fld "url" (opt_str 500);
    fld "dates" (false, TOptional DateRangeSchema);
    fld "technologies" opt_strs;
    fld "role" (opt_str 100);
    fld "team_size" opt_int;
    fld "confidence_score" opt_float
  ].

Definition AchievementEntrySchema : ftype :=
  TModel (u "AchievementEntrySchema") [
    fld "title" (true, TStr (Some 200));
    fld "organization" (opt_str 200);
    fld "date_received" (false, TOptional TDateOrStr);
    fld "description" (opt_str 1000);
    fld "type" (opt_str 50);
    fld "expiration_date" (false, TOptional TDateOrStr);
    fld "credential_id" (opt_str 100);
    fld "verification_url" (opt_str 500)
  ].

Definition ExtractionMetadataSchema : ftype :=
  TModel (u "ExtractionMetadataSchema") [
    fld "extractor_version" (true, TStr None);
    fld "extraction_timestamp" (true, TDatetime);
    fld "processing_time_ms" opt_int;
    fld "confidence_score" (false, TFloat);
    fld "source_file_hash" opt_str_any;
    fld "file_size_bytes" opt_int;
    fld "file_type" opt_str_any;
    fld "sections_detected" opt_strs;
    fld "language_detected" (opt_str 10);
    fld "character_count" opt_int;
    fld "structure_score" opt_float;
    fld "completeness_score" opt_float
  ].

(* ^\d+\.\d+\.\d+$ *)
Definition re_semver : regex :=
  Seqs [Bol; Plus digit; Chr (ch "."); Plus digit; Chr (ch ".");
        Plus digit; Eol].

Definition validate_schema_version (v : pyval) : option pystr :=
  match v with
  | VStr s =>
      if full_match re_semver s then None
      else Some (u "Schema version must follow semantic versioning (x.y.z)")
  | _ => None
  end.

(** [validate_contact_privacy] inspects the fields of the validated
    contact model, which are exactly the allowed ones: it never raises. *)
Definition validate_contact_privacy (v : pyval) : option pystr := None.

Definition profile_fields : list (pystr * (bool * ftype)) := [
  fld "schema_version" (false, TChecked (TStr None) validate_schema_version);
  fld "generated_at" (false, TDatetime);
  fld "extraction_method" (true, TStr None);
  fld "source_file" (true, TStr None);
  fld "contact"
      (false, TChecked (TOptional ContactInfoSchema) validate_contact_privacy);
  fld "summary" (false, TOptional SummarySchema);
  fld "experience" (false, TList ExperienceEntrySchema);
  fld "education" (false, TList EducationEntrySchema);
  fld "skills" (false, TList SkillEntrySchema);
  fld "projects" (false, TList ProjectEntrySchema);
  fld "achievements" (false, TList AchievementEntrySchema);
  fld "additional_sections" (false, TOptional (TDict TAny));
  fld "metadata" (true, ExtractionMetadataSchema);
  fld "warnings" (false, TList (TStr None));
  fld "errors" (false, TList (TStr None))
].

Definition ProfileJSONSchema : ftype :=
  TModel (u "ProfileJSONSchema") profile_fields.

(** The errors of the field stage of [ProfileJSONSchema(data)]. *)
Definition field_errors (data : dict pyval) : list verror :=
  validate ProfileJSONSchema (VDict data).

(** The defaults of the fields that have one; [now] is the value of
    [datetime.now()]. *)
Definition defaults (now : Z) : dict pyval := [
  (u "schema_version", VStr PROFILE_SCHEMA_VERSION);
  (u "generated_at", VDatetime now);
  (u "contact", VNone);
  (u "summary", VNone);
  (u "experience", VList []);
  (u "education", VList []);
  (u "skills", VList []);
  (u "projects", VList []);
  (u "achievements", VList []);
  (u "additional_sections", VDict []);
  (u "warnings", VList []);
  (u "errors", VList [])
].

(** A model instance: the value of every declared field, the given one or
    the default. *)
Definition instance (now : Z) (data : dict pyval) : dict pyval :=
  flat_map (fun f =>
              match dict_get (fst f) data with
              | Some v => [(fst f, v)]
              | None =>
                  match dict_get (fst f) (defaults now) with
                  | Some v => [(fst f, v)]
                  | None => []
                  end
              end) profile_fields.

Definition prohibited_fields : list pystr :=
  map u ["age"; "gender"; "race"; "nationality"; "marital_status"].

Definition is_prohibited (key : pystr) : bool :=
  existsb (streq (lower key)) prohibited_fields.

(** [check_dict_for_prohibited(d, path)] for the dictionary [v]: the
    path named by the [ValueError] it raises, if it raises. *)
Fixpoint check_dict_for_prohibited (v : pyval) (path : pystr)
  : option pystr :=
  match v with
  | VDict d =>
      (fix items (d : list (pystr * pyval)) : option pystr :=
         match d with
         | [] => None
         | (key, value) :: d' =>
             let full_path :=
               if nonempty path then path ++ u "." ++ key else key in
             if is_prohibited key then Some full_path
             else
               match
                 match value with
                 | VDict _ => check_dict_for_prohibited value full_path
                 | _ => None
                 end
               with
               | Some p => Some p
               | None => items d'
               end
         end) d
  | _ => None
  end.

(** [privacy_compliance_check]: the message of the [ValueError], if any. *)
Definition privacy_compliance_check (self : dict pyval) : option pystr :=
  let additional_sections :=
    match dict_get (u "additional_sections") self with
    | Some v => py_or v (VDict [])
    | None => VDict []
    end in
  if truthy additional_sections
  then match check_dict_for_prohibited additional_sections
                                       (u "additional_sections") with
       | Some full_path =>
           Some (u "Prohibited derived PII field detected: " ++ full_path)
       | None => None
       end
  else None.

(** The outcome of [ProfileJSONSchema(data)]: the instance or the
    errors of the [ValidationError]. *)
Definition construct (now : Z) (data : dict pyval)
  : dict pyval + list verror :=
  match field_errors data with
  | [] =>
      let self := instance now data in
      match privacy_compliance_check self with
      | Some m => inr [{| loc := []; msg := u "Value error, " ++ m |}]
      | None => inl self
      end
  | errs => inr errs
  end.

(** [get_schema_version] *)
Definition get_schema_version : pystr := PROFILE_SCHEMA_VERSION.

(** [int(x)] for a string: blanks around, a sign, digits with single
    underscores between them. *)
(* [+-]?\d+(_\d+)* *)
Definition re_py_int : regex :=
  Seqs [Bol; Opt (Cls false [Ch (ch "+"); Ch (ch "-")]); Plus digit;
        Star (Seq (Chr (ch "_")) (Plus digit)); Eol].
Definition digits_value (s : pystr) : Z :=
  fold_left (fun acc c => if is_digit c then (acc * 10 + Z.of_N (c - 48))%Z
                          else acc) s 0%Z.
Definition py_int (x : pystr) : option Z :=
  let s := strip x in
  if full_match re_py_int s
  then Some (if startswith (u "-") s then (- digits_value s)%Z
             else digits_value s)
  else None.

(** [[int(x) for x in v.split('.')]], [None] for a [ValueError]. *)
Fixpoint all_ints (l : list pystr) : option (list Z) :=
  match l with
  | [] => Some []
  | x :: l' =>
      match py_int x, all_ints l' with
      | Some z, Some zs => Some (z :: zs)
      | _, _ => None
      end
  end.
Definition version_parts (v : pystr) : option (list Z) :=
  all_ints (PyStr.split (u ".") v).

Definition is_schema_compatible (profile_version current_version : pystr)
  : bool :=
  match version_parts profile_version, version_parts current_version with
  | Some profile_parts, Some current_parts =>
      match nth_error profile_parts 0, nth_error current_parts 0 with
      | Some p0, Some c0 =>
          if negb (p0 =? c0)%Z then false      (* major version must match *)
          else
            match nth_error profile_parts 1, nth_error current_parts 1 with
            | Some p1, Some c1 =>
                if (c1 <? p1)%Z then false     (* minor must be <= current *)
                else true
            | _, _ => false                    (* IndexError *)
            end
      | _, _ => false                          (* IndexError *)
      end
  | _, _ => false                              (* ValueError *)
  end.

End Schema.

(* ================================================================== *)
(** * profile_validator.py *)
(* ================================================================== *)

Module Validator.

Import Schema.

(** [ProfileValidationResult] *)
Record ProfileValidationResult := {
  is_valid : bool;
  profile : option (dict pyval);
  errors : list pystr;
  warnings : list pystr
}.

(** [type(v).__name__] *)
Definition type_name (v : pyval) : pystr :=
  match v with
  | VNone => u "NoneType"
  | VBool _ => u "bool"
  | VInt _ => u "int"
  | VFloat _ => u "float"
  | VStr _ => u "str"
  | VDatetime _ => u "datetime.datetime"
  | VList _ => u "list"
  | VDict _ => u "dict"
  end.

Definition AttributeError (v : pyval) (attr : string) : exn :=
  {| exn_kind := u "AttributeError";
     exn_msg := u "'" ++ type_name v ++ u "' object has no attribute '"
                ++ u attr ++ u "'" |}.
Definition TypeError (m : pystr) : exn :=
  {| exn_kind := u "TypeError"; exn_msg := m |}.
Definition ValueError (m : pystr) : exn :=
  {| exn_kind := u "ValueError"; exn_msg := m |}.

(** [v.get(k, default)] *)
Definition get_or (k : string) (dflt : pyval) (v : pyval) : result pyval :=
  match v with
  | VDict d => Ok (match dict_get (u k) d with Some x => x | None => dflt end)
  | _ => Raise (AttributeError v "get")
  end.
Definition get (k : string) (v : pyval) : result pyval := get_or k VNone v.

(** [a.get(k1) or a.get(k2)] *)
Definition get2 (k1 k2 : string) (v : pyval) : result pyval :=
  a <- get k1 v ;; b <- get k2 v ;; Ok (py_or a b).

Definition is_str (s : string) (v : pyval) : bool :=
  match v with VStr t => streq t (u s) | _ => false end.

(** [s in v] for a one-character string [s]. *)
Definition py_in (s : string) (v : pyval) : result bool :=
  match v with
  | VStr t => Ok (contains (u s) t)
  | VList l => Ok (existsb (is_str s) l)
  | VDict d => Ok (dict_mem (u s) d)
  | _ => Raise (TypeError (u "argument of type '" ++ type_name v
                           ++ u "' is not iterable"))
  end.

(** [os.path.basename] *)
Definition basename (v : pyval) : result pyval :=
  match v with
  | VStr s => Ok (VStr (last (PyStr.split (u "/") s) []))
  | _ => Raise (TypeError (u "expected str, bytes or os.PathLike object, not "
                           ++ type_name v))
  end.

Section Environment.

(** The reading of the clock ([datetime.now()]), its [isoformat()], and
    the text [str(v)] of a value. *)
Variable now : Z.
Variable now_isoformat : pystr.
Variable py_str : pyval -> pystr.

(** [migrate_profile_schema(profile_data)] of profile_schema.py, with the
    default target version. *)
Definition migrate_profile_schema (profile_data : dict pyval)
  : result (dict pyval) :=
  let target_version := PROFILE_SCHEMA_VERSION in
  let current_version :=
    match dict_get (u "schema_version") profile_data with
    | Some v => v
    | None => VNone
    end in
  if negb (truthy current_version) then
    let profile_data :=
      dict_set (u "schema_version") (VStr target_version) profile_data in
    Ok (if dict_mem (u "generated_at") profile_data then profile_data
        else dict_set (u "generated_at") (VStr now_isoformat) profile_data)
  else
    match current_version with
    | VStr v =>
        if streq v target_version then Ok profile_data
        else if negb (is_schema_compatible v target_version)
        then Raise (ValueError (u "Cannot migrate from schema version " ++ v
                                ++ u " to " ++ target_version))
        else Ok (dict_set (u "schema_version") (VStr target_version)
                          profile_data)
    | other => Raise (AttributeError other "split")
    end.

(** The state after the version block of [validate_profile]. *)
Inductive version_outcome :=
| Proceed (profile_data : dict pyval) (errors warnings : list pystr)
| Rejected (errors warnings : list pystr)      (* the return under [strict] *)
| Crashed (e : exn).                           (* an exception escaped *)

Definition no_version_warning : pystr :=
  u "No schema version found, assuming " ++ PROFILE_SCHEMA_VERSION.
Definition migrated_warning (v : pystr) : pystr :=
  u "Migrated schema from " ++ v ++ u " to " ++ PROFILE_SCHEMA_VERSION.
Definition incompatible_error (v : pystr) : pystr :=
  u "Incompatible schema version: " ++ v ++ u " (current: "
  ++ PROFILE_SCHEMA_VERSION ++ u ")".

Definition check_version (profile_data : dict pyval) (strict : bool)
  : version_outcome :=
  let current_version :=
    match dict_get (u "schema_version") profile_data with
    | Some v => v
    | None => VNone
    end in
  if negb (truthy current_version) then
    Proceed (dict_set (u "schema_version") (VStr PROFILE_SCHEMA_VERSION)
                      profile_data)
            [] [no_version_warning]
  else
    match current_version with
    | VStr v =>
        if streq v PROFILE_SCHEMA_VERSION then Proceed profile_data [] []
        else if is_schema_compatible v PROFILE_SCHEMA_VERSION then
          match migrate_profile_schema profile_data with
          | Ok profile_data => Proceed profile_data [] [migrated_warning v]
          | Raise e => Crashed e
          end
        else if strict then Rejected [incompatible_error v] []
        else Proceed profile_data [incompatible_error v] []
    | other => Crashed (AttributeError other "split")
    end.

(** [str(x)] of an element of a [loc]. *)
Definition str_loc (i : loc_item) : pystr :=
  match i with
  | LKey k => k
  | LIdx n => str_of_nat n
  end.

(** [f"Field '{field_path}': {error['msg']}"] *)
Definition error_msg (e : verror) : pystr :=
  u "Field '" ++ join (u " -> ") (map str_loc (loc e)) ++ u "': " ++ msg e.

(** [str(e)] for a [ValidationError]: the count line, then location and
    message of each error (the bracketed input echo that pydantic adds
    to each message is left out). *)
Definition str_validation_error (es : list verror) : pystr :=
  str_of_nat (length es)
  ++ (if length es =? 1 then u " validation error for ProfileJSONSchema"
      else u " validation errors for ProfileJSONSchema")
  ++ flat_map (fun e => nl ++ join (u ".") (map str_loc (loc e))
                        ++ nl ++ u "  " ++ msg e) es.

Definition _clean_invalid_fields (profile_data : dict pyval)
           (validation_errors : list verror) : dict pyval :=
  fold_left (fun cleaned_data error =>
               match loc error with
               | [LKey field_name] => dict_del field_name cleaned_data
               | _ => cleaned_data
               end) validation_errors profile_data.

Definition removed_warning (err : pystr) : pystr :=
  u "Removed invalid field: " ++ err.

Definition validate_profile (profile_data : dict pyval) (strict : bool)
  : ProfileValidationResult :=
  match check_version profile_data strict with
  | Rejected errors warnings =>
      {| is_valid := false; profile := None;
         errors := errors; warnings := warnings |}
  | Crashed e =>
      {| is_valid := false; profile := None;
         errors := [u "Unexpected validation error: " ++ exn_msg e];
         warnings := [] |}
  | Proceed profile_data errors warnings =>
      match construct now profile_data with
      | inl profile =>
          {| is_valid := true; profile := Some profile;
             errors := []; warnings := warnings |}
      | inr e_errors =>
          let errors := errors ++ map error_msg e_errors in
          if negb strict then
            let cleaned_data := _clean_invalid_fields profile_data e_errors in
            match construct now cleaned_data with
            | inl profile =>
                {| is_valid := true; profile := Some profile;
                   errors := [];
                   warnings := warnings ++ map removed_warning errors |}
            | inr clean_error =>
                {| is_valid := false; profile := None;
                   errors := errors
                             ++ [u "Failed to clean invalid fields: "
                                 ++ str_validation_error clean_error];
                   warnings := warnings |}
            end
          else
            {| is_valid := false; profile := None;
               errors := errors; warnings := warnings |}
      end
  end.

(** ** The transformation of the parser output *)

Definition entry_of {A : Type} (k : string) (v : A) : pystr * A := (u k, v).

Definition _extract_contact_section (contact_data : pyval) : result pyval :=
  if negb (truthy contact_data) then Ok VNone
  else
    full_name <- get2 "name" "full_name" contact_data ;;
    email <- get "email" contact_data ;;
    phone <- get "phone" contact_data ;;
    location <- get "location" contact_data ;;
    website <- get "website" contact_data ;;
    linkedin <- get "linkedin" contact_data ;;
    github <- get "github" contact_data ;;
    address <- get "address" contact_data ;;
    social_profiles <- get_or "social_profiles" (VDict []) contact_data ;;
    Ok (VDict [entry_of "full_name" full_name; entry_of "email" email;
               entry_of "phone" phone; entry_of "location" location;
               entry_of "website" website; entry_of "linkedin" linkedin;
               entry_of "github" github; entry_of "address" address;
               entry_of "social_profiles" social_profiles]).

Definition _extract_summary_section (summary_data : pyval) : result pyval :=
  if negb (truthy summary_data) then Ok VNone
  else
    match summary_data with
    | VStr _ =>
        Ok (VDict [entry_of "text" summary_data; entry_of "objective" VNone;
                   entry_of "keywords" (VList [])])
    | VDict _ =>
        text <- get "text" summary_data ;;
        objective <- get "objective" summary_data ;;
        keywords <- get_or "keywords" (VList []) summary_data ;;
        Ok (VDict [entry_of "text" text; entry_of "objective" objective;
                   entry_of "keywords" keywords])
    | _ => Ok VNone
    end.

Definition _extract_date_range (date_data : pyval) : result pyval :=
  if negb (truthy date_data) then Ok VNone
  else
    match date_data with
    | VDict _ =>
        start_date <- get2 "start_date" "start" date_data ;;
        end_date <- get2 "end_date" "end" date_data ;;
        is_current <- get_or "is_current" (VBool false) date_data ;;
        raw_date_text <- get2 "raw_date_text" "raw" date_data ;;
        Ok (VDict [entry_of "start_date" start_date;
                   entry_of "end_date" end_date;
                   entry_of "is_current" is_current;
                   entry_of "raw_date_text" raw_date_text])
    | _ => Ok VNone
    end.

(** The loops of the list sections: the items that are dictionaries are
    transformed, the others skipped. *)
Fixpoint map_dicts (f : pyval -> result pyval) (l : list pyval)
  : result (list pyval) :=
  match l with
  | [] => Ok []
  | x :: l' =>
      match x with
      | VDict _ => y <- f x ;; ys <- map_dicts f l' ;; Ok (y :: ys)
      | _ => map_dicts f l'
      end
  end.

Definition list_section (f : pyval -> result pyval) (data : pyval)
  : result pyval :=
  match data with
  | VList l => ys <- map_dicts f l ;; Ok (VList ys)
  | _ => Ok (VList [])
  end.

Definition experience_item (exp : pyval) : result pyval :=
  company <- get "company" exp ;;
  position <- get2 "position" "title" exp ;;
  location <- get "location" exp ;;
  dates_in <- get "dates" exp ;;
  dates <- _extract_date_range dates_in ;;
  description <- get "description" exp ;;
  responsibilities <- get_or "responsibilities" (VList []) exp ;;
  technologies <- get_or "technologies" (VList []) exp ;;
  confidence_score <- get_or "confidence_score" (VFloat 0) exp ;;
  warnings <- get_or "warnings" (VList []) exp ;;
  Ok (VDict [entry_of "company" company; entry_of "position" position;
             entry_of "location" location; entry_of "dates" dates;
             entry_of "description" description;
             entry_of "responsibilities" responsibilities;
             entry_of "technologies" technologies;
             entry_of "confidence_score" confidence_score;
             entry_of "warnings" warnings]).
Definition _extract_experience_section : pyval -> result pyval :=
  list_section experience_item.

Definition education_item (edu : pyval) : result pyval :=
  institution <- get2 "institution" "school" edu ;;
  degree <- get "degree" edu ;;
  field_of_study <- get2 "field_of_study" "major" edu ;;
  location <- get "location" edu ;;
  dates_in <- get "dates" edu ;;
  dates <- _extract_date_range dates_in ;;
  gpa <- get "gpa" edu ;;
  honors <- get_or "honors" (VList []) edu ;;
  relevant_coursework <- get_or "relevant_coursework" (VList []) edu ;;
  confidence_score <- get_or "confidence_score" (VFloat 0) edu ;;
  warnings <- get_or "warnings" (VList []) edu ;;
  Ok (VDict [entry_of "institution" institution; entry_of "degree" degree;
             entry_of "field_of_study" field_of_study;
             entry_of "location" location; entry_of "dates" dates;
             entry_of "gpa" gpa; entry_of "honors" honors;
             entry_of "relevant_coursework" relevant_coursework;
             entry_of "confidence_score" confidence_score;
             entry_of "warnings" warnings]).
Definition _extract_education_section : pyval -> result pyval :=
  list_section education_item.

Definition skill_item (skill : pyval) : result pyval :=
  n <- get "name" skill ;;
  category <- get "category" skill ;;
  proficiency_level <- get "proficiency_level" skill ;;
  years_experience <- get "years_experience" skill ;;
  canonical_name <- get "canonical_name" skill ;;
  aliases <- get_or "aliases" (VList []) skill ;;
  context <- get "context" skill ;;
  confidence_score <- get_or "confidence_score" (VFloat 1) skill ;;
  Ok (VDict [entry_of "name" (py_or n (VStr (py_str skill)));
             entry_of "category" category;
             entry_of "proficiency_level" proficiency_level;
             entry_of "years_experience" years_experience;
             entry_of "canonical_name" canonical_name;
             entry_of "aliases" aliases; entry_of "context" context;
             entry_of "confidence_score" confidence_score]).

Fixpoint skills_loop (l : list pyval) : result (list pyval) :=
  match l with
  | [] => Ok []
  | skill :: l' =>
      match skill with
      | VStr _ =>
          ys <- skills_loop l' ;;
          Ok (VDict [entry_of "name" skill; entry_of "category" VNone;
                     entry_of "proficiency_level" VNone;
                     entry_of "confidence_score" (VFloat 1)] :: ys)
      | VDict _ => y <- skill_item skill ;; ys <- skills_loop l' ;; Ok (y :: ys)
      | _ => skills_loop l'
      end
  end.
Definition _extract_skills_section (skills_data : pyval) : result pyval :=
  match skills_data with
  | VList l => ys <- skills_loop l ;; Ok (VList ys)
  | _ => Ok (VList [])
  end.

Definition project_item (project : pyval) : result pyval :=
  n <- get "name" project ;;
  t <- get_or "title" (VStr (u "Unnamed Project")) project ;;
  description <- get "description" project ;;
  url <- get2 "url" "link" project ;;
  dates_in <- get "dates" project ;;
  dates <- _extract_date_range dates_in ;;
  technologies <- get_or "technologies" (VList []) project ;;
  role <- get "role" project ;;
  team_size <- get "team_size" project ;;
  confidence_score <- get_or "confidence_score" (VFloat 0) project ;;
  Ok (VDict [entry_of "name" (py_or n t);
             entry_of "description" description; entry_of "url" url;
             entry_of "dates" dates; entry_of "technologies" technologies;
             entry_of "role" role; entry_of "team_size" team_size;
             entry_of "confidence_score" confidence_score]).
Definition _extract_projects_section : pyval -> result pyval :=
  list_section project_item.

Definition achievement_item (achievement : pyval) : result pyval :=
  t <- get "title" achievement ;;
  n <- get_or "name" (VStr (u "Achievement")) achievement ;;
  organization <- get2 "organization" "issuer" achievement ;;
  date_received <- get2 "date_received" "date" achievement ;;
  description <- get "description" achievement ;;
  type <- get "type" achievement ;;
  expiration_date <- get "expiration_date" achievement ;;
  credential_id <- get "credential_id" achievement ;;
  verification_url <- get "verification_url" achievement ;;
  Ok (VDict [entry_of "title" (py_or t n);
             entry_of "organization" organization;
             entry_of "date_received" date_received;
             entry_of "description" description; entry_of "type" type;
             entry_of "expiration_date" expiration_date;
             entry_of "credential_id" credential_id;
             entry_of "verification_url" verification_url]).
Definition _extract_achievements_section : pyval -> result pyval :=
  list_section achievement_item.

(** [_detect_file_type(filename)] *)
Definition _detect_file_type (filename : pyval) : result pystr :=
  if negb (truthy filename) then Ok (u "unknown")
  else
    has_dot <- py_in "." filename ;;
    extension <-
      (if has_dot
       then match filename with
            | VStr s => Ok (last (PyStr.split (u ".") (lower s)) [])
            | other => Raise (AttributeError other "lower")
            end
       else Ok []) ;;
    Ok (if streq extension (u "docx") || streq extension (u "doc")
        then u "docx"
        else if streq extension (u "pdf") then u "pdf"
        else if streq extension (u "txt") || streq extension (u "text")
        then u "txt"
        else u "unknown").

Definition _transform_parser_output (parser_result : dict pyval)
  : result (dict pyval) :=
  let pr := VDict parser_result in
  source_file <- get_or "file_path" (VStr (u "unknown.docx")) pr ;;
  source_file <-
    (if truthy source_file
     then has_slash <- py_in "/" source_file ;;
          if has_slash then basename source_file else Ok source_file
     else Ok source_file) ;;
  extraction_method <- get_or "extraction_method" (VStr (u "unknown")) pr ;;
  sections <- get_or "sections" (VDict []) pr ;;
  contact_in <- get_or "contact" (VDict []) sections ;;
  contact <- _extract_contact_section contact_in ;;
  summary_in <- get "summary" sections ;;
  summary <- _extract_summary_section summary_in ;;
  experience_in <- get_or "experience" (VList []) sections ;;
  experience <- _extract_experience_section experience_in ;;
  education_in <- get_or "education" (VList []) sections ;;
  education <- _extract_education_section education_in ;;
  skills_in <- get_or "skills" (VList []) sections ;;
  skills <- _extract_skills_section skills_in ;;
  projects_in <- get_or "projects" (VList []) sections ;;
  projects <- _extract_projects_section projects_in ;;
  achievements_in <- get_or "achievements" (VList []) sections ;;
  achievements <- _extract_achievements_section achievements_in ;;
  metadata <- get_or "metadata" (VDict []) pr ;;
  extractor_version <- get_or "extractor_version" (VStr (u "0.1.0")) metadata ;;
  confidence_score <- get_or "confidence_score" (VFloat 0) metadata ;;
  file_type <- _detect_file_type source_file ;;
  sections_detected <-
    match sections with
    | VDict d => Ok (VList (map VStr (dict_keys d)))
    | other => Raise (AttributeError other "keys")
    end ;;
  warnings <- get_or "warnings" (VList []) pr ;;
  Ok [entry_of "schema_version" (VStr get_schema_version);
      entry_of "generated_at" (VDatetime now);
      entry_of "extraction_method" extraction_method;
      entry_of "source_file" source_file;
      entry_of "contact" contact;
      entry_of "summary" summary;
      entry_of "experience" experience;
      entry_of "education" education;
      entry_of "skills" skills;
      entry_of "projects" projects;
      entry_of "achievements" achievements;
      entry_of "metadata"
        (VDict [entry_of "extractor_version" extractor_version;
                entry_of "extraction_timestamp" (VDatetime now);
                entry_of "confidence_score" confidence_score;
                entry_of "source_file_hash" VNone;
                entry_of "file_type" (VStr file_type);
                entry_of "sections_detected" sections_detected]);
      entry_of "warnings" warnings;
      entry_of "errors" (VList [])].

(** [validate_parser_output] *)
Definition validate_parser_output (parser_result : dict pyval)
  : ProfileValidationResult :=
  match parser_result with
  | [] =>
      {| is_valid := false; profile := None;
         errors := [u "Parser result is empty"]; warnings := [] |}
  | _ =>
      match _transform_parser_output parser_result with
      | Ok profile_data => validate_profile profile_data false
      | Raise e =>
          {| is_valid := false; profile := None;
             errors := [u "Parser output transformation failed: "
                        ++ exn_msg e];
             warnings := [] |}
      end
  end.

End Environment.

End Validator.

(* ================================================================== *)
(** * core/metrics.py and parser_service.py *)
(* ================================================================== *)

Module Parser.

Import Schema Validator.

(** [MetricType] *)
Inductive MetricType :=
| PARSE_DURATION | PARSE_SUCCESS | PARSE_FAILURE | VALIDATION_WARNING
| UPLOAD_SIZE | SECTIONS_EXTRACTED | SKILLS_EXTRACTED.

(** [MetricEvent] *)
Record MetricEvent := {
  metric_type : MetricType;
  value : pyval;
  labels : dict pystr;
  metadata : dict pyval
}.

(** The [events] list of the [MetricsCollector]. *)
Definition collector := list MetricEvent.

Definition record_event (c : collector) (t : MetricType) (v : pyval)
           (l : dict pystr) (m : dict pyval) : collector :=
  c ++ [{| metric_type := t; value := v; labels := l; metadata := m |}].

(** [record_parse_start]; [time_s] is [int(time.time())]. *)
Definition record_parse_start (c : collector) (time_s : nat)
           (resume_id file_format : pystr) (file_size_bytes : nat)
  : pystr * collector :=
  let trace_id := u "parse_" ++ resume_id ++ u "_" ++ str_of_nat time_s in
  (trace_id,
   record_event c UPLOAD_SIZE (VInt (Z.of_nat file_size_bytes))
     [(u "resume_id", resume_id); (u "format", file_format);
      (u "trace_id", trace_id)] []).

Definition record_parse_success (c : collector) (trace_id : pystr)
           (duration_ms : float) (sections_count skills_count
            warnings_count : nat) : collector :=
  let c := record_event c PARSE_SUCCESS (VFloat 1) [(u "trace_id", trace_id)]
             [(u "duration_ms", VFloat duration_ms);
              (u "sections_count", VInt (Z.of_nat sections_count));
              (u "skills_count", VInt (Z.of_nat skills_count));
              (u "warnings_count", VInt (Z.of_nat warnings_count))] in
  let c := record_event c PARSE_DURATION (VFloat duration_ms)
             [(u "trace_id", trace_id)] [] in
  let c := record_event c SECTIONS_EXTRACTED (VInt (Z.of_nat sections_count))
             [(u "trace_id", trace_id)] [] in
  let c := record_event c SKILLS_EXTRACTED (VInt (Z.of_nat skills_count))
             [(u "trace_id", trace_id)] [] in
  if 0 <? warnings_count
  then record_event c VALIDATION_WARNING (VInt (Z.of_nat warnings_count))
         [(u "trace_id", trace_id)] []
  else c.

Definition record_parse_failure (c : collector) (trace_id : pystr)
           (duration_ms : float) (error_type : pystr) : collector :=
  let c := record_event c PARSE_FAILURE (VFloat 1)
             [(u "trace_id", trace_id); (u "error_type", error_type)]
             [(u "duration_ms", VFloat duration_ms)] in
  record_event c PARSE_DURATION (VFloat duration_ms)
    [(u "trace_id", trace_id)] [].

(** What [parse_resume] obtains from its collaborators: the database,
    the file system, the MIME table, the two extractors and the clock. *)
Record world := {
  generate_job_id : pystr;
  get_resume_file_path : pystr -> result (option pystr);
  exists_ : pystr -> bool;
  st_size : pystr -> nat;
  guess_type : pystr -> option pystr;
  docx_extract : pystr -> pystr -> result (dict pyval);
  pdf_extract : pystr -> pystr -> result (dict pyval);
  start_time : Z;          (* datetime.now() on entry *)
  start_time_ms : float;   (* time.time() * 1000 on entry *)
  end_time_ms : float;     (* time.time() * 1000 at the end *)
  completed_at_time : Z;   (* datetime.now() at the end *)
  time_s : nat;            (* int(time.time()) in record_parse_start *)
  isoformat_now : pystr;   (* datetime.now().isoformat() *)
  str_of : pyval -> pystr  (* str(v) *)
}.

(** [ParsingJobResponse] of models/schemas.py *)
Record ParsingJobResponse := {
  job_id : pystr;
  status : pystr;
  result_ : option (dict pyval);
  error : option pystr;
  started_at : Z;
  completed_at : option Z;
  processing_time_ms : option Z
}.

(** [Path.suffix] of the final component of a path. *)
Fixpoint rfind_dot (i : nat) (s : pystr) : option nat :=
  match s with
  | [] => None
  | c :: s' =>
      match rfind_dot (S i) s' with
      | Some j => Some j
      | None => if (c =? 46)%N then Some i else None
      end
  end.
Definition suffix (path : pystr) : pystr :=
  let name := last (PyStr.split (u "/") path) [] in
  match rfind_dot 0 name with
  | Some i => if (0 <? i) && (i <? length name - 1) then skipn i name else []
  | None => []
  end.

Definition _detect_file_type (w : world) (file_path : pystr) : pystr :=
  (* First check by extension *)
  let extension := lower (suffix file_path) in
  if streq extension (u ".docx") then u "docx"
  else if streq extension (u ".pdf") then u "pdf"
  else if streq extension (u ".txt") || streq extension (u ".text")
  then u "txt"
  else
    (* Fallback to MIME type detection *)
    match guess_type w file_path with
    | Some mime_type =>
        if nonempty mime_type then
          if contains (u "openxmlformats") mime_type
             || contains (u "wordprocessingml") mime_type then u "docx"
          else if contains (u "pdf") mime_type then u "pdf"
          else if contains (u "text") mime_type then u "txt"
          else u "unknown"
        else u "unknown"
    | None => u "unknown"
    end.

Definition failed (w : world) (job : pystr) (e : pystr) : ParsingJobResponse :=
  {| job_id := job; status := u "failed"; result_ := None; error := Some e;
     started_at := start_time w; completed_at := Some (completed_at_time w);
     processing_time_ms := None |}.

(** [len(v)] *)
Definition py_len (v : pyval) : result nat :=
  match v with
  | VStr s => Ok (length s)
  | VList l => Ok (length l)
  | VDict d => Ok (length d)
  | _ => Raise (TypeError (u "object of type '" ++ type_name v
                           ++ u "' has no len()"))
  end.

(** [s in v] for a key or element [s]. *)
Definition py_has (s : string) (v : pyval) : result bool :=
  match v with
  | VStr t => Ok (contains (u s) t)
  | VList l => Ok (existsb (is_str s) l)
  | VDict d => Ok (dict_mem (u s) d)
  | _ => Raise (TypeError (u "argument of type '" ++ type_name v
                           ++ u "' is not iterable"))
  end.

(** [v[key]] for a string key. *)
Definition py_item (key : string) (v : pyval) : result pyval :=
  match v with
  | VDict d =>
      match dict_get (u key) d with
      | Some x => Ok x
      | None => Raise {| exn_kind := u "KeyError"; exn_msg := u key |}
      end
  | VStr _ => Raise (TypeError (u "string indices must be integers"))
  | VList _ => Raise (TypeError (u "list indices must be integers or slices, not str"))
  | _ => Raise (TypeError (u "'" ++ type_name v
                           ++ u "' object is not subscriptable"))
  end.

(** The mock result for text files. *)
Definition txt_result (w : world) : dict pyval := [
  (u "extraction_method", VStr (u "txt_simple"));
  (u "sections",
   VDict [(u "contact", VDict [(u "full_name", VStr (u "Test User"))]);
          (u "summary", VStr (u "Simple text file content"));
          (u "experience", VList []);
          (u "education", VList []);
          (u "skills", VList [VStr (u "Text Processing")]);
          (u "projects", VList []);
          (u "achievements", VList [])]);
  (u "warnings", VList [VStr (u "TXT files have limited parsing capabilities")]);
  (u "metadata",
   VDict [(u "extractor_version", VStr (u "1.0.0"));
          (u "extraction_timestamp", VStr (isoformat_now w));
          (u "confidence_score", VFloat 0.5)])
].

(** The number of skills counted for the metrics. *)
Definition count_skills (result : dict pyval) : Py.result nat :=
  match dict_get (u "sections") result with
  | None => Ok 0
  | Some sections =>
      has <- py_has "skills" sections ;;
      if has then
        skills_section <- py_item "skills" sections ;;
        match skills_section with
        | VList l => Ok (length l)
        | VDict d =>
            Ok (list_sum (map (fun kv => match snd kv with
                                         | VList l => length l
                                         | _ => 0
                                         end) d))
        | _ => Ok 0
        end
      else Ok 0
  end.

(** The part of the [try] block after the extractor has returned:
    validation, schema metadata and the counts for the metrics. *)
Definition finish (w : world) (result : dict pyval)
  : Py.result (dict pyval * (nat * nat * nat)) :=
  let validation_result :=
    validate_parser_output (start_time w) (isoformat_now w) (str_of w) result in
  result <-
    (if negb (is_valid validation_result) then
       match (match dict_get (u "warnings") result with
              | Some v => v
              | None => VList []
              end) with
       | VList ws =>
           Ok (dict_set (u "warnings")
                 (VList (ws ++ map (fun err => VStr (u "Schema validation: "
                                                     ++ err))
                                   (errors validation_result)))
                 result)
       | other =>
           Raise (TypeError (u "unsupported operand type(s) for +: '"
                             ++ type_name other ++ u "' and 'list'"))
       end
     else Ok result) ;;
  let result :=
    dict_set (u "schema_version") (VStr get_schema_version) result in
  let result :=
    dict_set (u "schema_validated") (VBool (is_valid validation_result))
             result in
  sections_count <-
    py_len (match dict_get (u "sections") result with
            | Some v => v
            | None => VDict []
            end) ;;
  warnings_count <-
    py_len (match dict_get (u "warnings") result with
            | Some v => v
            | None => VList []
            end) ;;
  skills_count <- count_skills result ;;
  Ok (result, (sections_count, skills_count, warnings_count)).

(** The handler of [except Exception]; [trace_id] is present when the
    name was bound before the exception. *)
Definition handle (w : world) (job : pystr) (trace_id : option pystr)
           (e : exn) (c : collector) : ParsingJobResponse * collector :=
  let duration_ms := (end_time_ms w - start_time_ms w)%float in
  let error_type := exn_kind e in
  let c :=
    match trace_id with
    | Some t => record_parse_failure c t duration_ms error_type
    | None => c
    end in
  (failed w job (error_type ++ u ": " ++ exn_msg e), c).

(** The outcome of the routing step. *)
Inductive routed :=
| Extracted (result : dict pyval)
| Unsupported.

Definition route (w : world) (file_type resolved_path job : pystr)
  : Py.result routed :=
  if streq file_type (u "docx") then
    r <- docx_extract w resolved_path job ;; Ok (Extracted r)
  else if streq file_type (u "pdf") then
    r <- pdf_extract w resolved_path job ;; Ok (Extracted r)
  else if streq file_type (u "txt") then Ok (Extracted (txt_result w))
  else Ok Unsupported.

Definition some_nonempty (o : option pystr) : option pystr :=
  match o with
  | Some s => if nonempty s then Some s else None
  | None => None
  end.

(** [if not job_id: job_id = cls.generate_job_id()] *)
Definition job_of (w : world) (job : option pystr) : pystr :=
  match some_nonempty job with
  | Some j => j
  | None => generate_job_id w
  end.

(** The first step of the [try] block: the path given, or the one the
    database has for the resume; [None] when the database has none. *)
Definition resolve_path (w : world) (resume_id file_path : option pystr)
  : Py.result (option pystr) :=
  match some_nonempty file_path with
  | Some p => Ok (Some p)
  | None =>
      match some_nonempty resume_id with
      | Some rid =>
          from_db <- get_resume_file_path w rid ;;
          Ok (some_nonempty from_db)
      | None =>
          Raise (ValueError
                   (u "Either resume_id or file_path must be provided"))
      end
  end.

(** [resume_id or "direct_file"] *)
Definition resume_label (resume_id : option pystr) : pystr :=
  match some_nonempty resume_id with
  | Some r => r
  | None => u "direct_file"
  end.

(** [parse_resume]: the response, or the exception that escapes, and
    the collector afterwards. *)
Definition parse_resume (w : world) (resume_id file_path job : option pystr)
           (c : collector) : Py.result ParsingJobResponse * collector :=
  let job := job_of w job in
  match resolve_path w resume_id file_path with
  | Raise e => let '(r, c) := handle w job None e c in (Ok r, c)
  | Ok None =>
      (Ok (failed w job
             (u "Resume with ID "
              ++ match resume_id with Some r => r | None => [] end
              ++ u " not found")), c)
  | Ok (Some resolved_path) =>
      if negb (exists_ w resolved_path)
      then (Ok (failed w job (u "File not found")), c)
      else
        let file_type := _detect_file_type w resolved_path in
        let file_size_bytes := st_size w resolved_path in
        let '(trace_id, c) :=
          record_parse_start c (time_s w) (resume_label resume_id)
                             file_type file_size_bytes in
        match route w file_type resolved_path job with
        | Raise e =>
            let '(r, c) := handle w job (Some trace_id) e c in (Ok r, c)
        | Ok Unsupported =>
            (Ok (failed w job (u "Unsupported file type: " ++ file_type)), c)
        | Ok (Extracted result) =>
            match finish w result with
            | Raise e =>
                let '(r, c) := handle w job (Some trace_id) e c in (Ok r, c)
            | Ok (result, (sections_count, skills_count, warnings_count)) =>
                let duration_ms := (end_time_ms w - start_time_ms w)%float in
                let c := record_parse_success c trace_id duration_ms
                           sections_count skills_count warnings_count in
                (Ok {| job_id := job; status := u "completed";
                       result_ := Some result; error := None;
                       started_at := start_time w;
                       completed_at := Some (completed_at_time w);
                       processing_time_ms :=
                         Some ((completed_at_time w - start_time w) * 1000)%Z
                    |}, c)
            end
        end
  end.

End Parser.

(* ================================================================== *)
(** * Further functions of the sources *)
(* ================================================================== *)

(* ================================================================== *)
(** * skills_normalizer.py: suggestions and statistics *)
(* ================================================================== *)

Module SkillsTools.

Import Re Skills.





End SkillsTools.

(* ================================================================== *)
(** * skills_normalizer.py: the objects of a normalizer *)
(* ================================================================== *)

Module SkillsStore.

Import Re Skills.

(** The [skill_info] dictionaries are objects: one dictionary is the
    value of several keys of [_alias_to_canonical] and of one key of
    [_canonical_to_info], and [add_custom_alias] appends to its list of
    aliases in place.  A store holds the dictionaries by address and the
    two tables hold addresses. *)
Record store := {
  infos : list skill_info;
  alias_ref : dict nat;
  canonical_ref : dict nat
}.

Definition no_info : skill_info :=
  {| canonical := []; aliases := []; category := OTHER |}.

(** The dictionary at an address. *)
Definition deref (st : store) (r : nat) : skill_info :=
  nth r (infos st) no_info.

Fixpoint set_nth {A : Type} (n : nat) (x : A) (l : list A) : list A :=
  match l, n with
  | [], _ => []
  | _ :: l', O => x :: l'
  | y :: l', S n' => y :: set_nth n' x l'
  end.

(** What the methods that only read see: the two tables with the
    dictionaries in place of their addresses. *)
Definition view (st : store) : SkillsNormalizer :=
  {| _alias_to_canonical :=
       map (fun kv => (fst kv, deref st (snd kv))) (alias_ref st);
     _canonical_to_info :=
       map (fun kv => (fst kv, deref st (snd kv))) (canonical_ref st) |}.

(** [_build_lookup_tables], one entry of [SKILL_ALIASES] at a time: the
    dictionary of the entry is one object. *)
Definition add_entry_ref (st : store) (info : skill_info) : store :=
  let r := length (infos st) in
  let a2c := dict_set (lower (canonical info)) r (alias_ref st) in
  {| infos := infos st ++ [info];
     alias_ref :=
       fold_left (fun d al => dict_set (lower al) r d) (aliases info) a2c;
     canonical_ref := dict_set (lower (canonical info)) r (canonical_ref st) |}.

(** [SkillsNormalizer()] *)
Definition new_store : store :=
  fold_left (fun st kv => add_entry_ref st (snd kv)) SKILL_ALIASES
            {| infos := []; alias_ref := []; canonical_ref := [] |}.

(** [add_custom_alias(canonical_name, alias, category)] *)
Definition add_custom_alias (self : store) (canonical_name alias : pystr)
           (category : SkillCategoryEnum) : store :=
  let canonical_lower := lower canonical_name in
  match dict_get canonical_lower (canonical_ref self) with
  | Some r =>
      (* Update or create skill info: the known skill *)
      let skill_info := deref self r in
      {| infos :=
           if existsb (streq (lower alias)) (map lower (aliases skill_info))
           then infos self
           else set_nth r
                  {| canonical := canonical skill_info;
                     aliases := aliases skill_info ++ [alias];
                     category := Skills.category skill_info |}
                  (infos self);
         (* Update alias lookup *)
         alias_ref := dict_set (lower alias) r (alias_ref self);
         canonical_ref := canonical_ref self |}
  | None =>
      let r := length (infos self) in
      {| infos := infos self
                  ++ [{| canonical := canonical_name; aliases := [alias];
                         category := category |}];
         alias_ref := dict_set (lower alias) r (alias_ref self);
         canonical_ref := dict_set canonical_lower r (canonical_ref self) |}
  end.

End SkillsStore.

(* ================================================================== *)
(** * Specification vocabulary

    The predicates in which the properties of the pipeline are stated,
    and the auxiliary functions of their proofs. *)
(* ================================================================== *)

Module Spec.

Import Re Skills.

(** ** Regular expressions *)

(** A pattern every match of which takes at least one character. *)
Fixpoint consuming (r : regex) : bool :=
  match r with
  | Chr _ | Cls _ _ | Dot => true
  | Seq a b => consuming a || consuming b
  | Alt a b => consuming a && consuming b
  | Grp _ a => consuming a
  | _ => false
  end.

(** The loops of the two repetitions of [rx], named. *)
Definition star_loop
           (step : option N -> pystr -> caps -> K -> option (pystr * caps))
           (k : K) : nat -> option N -> pystr -> caps -> option (pystr * caps) :=
  fix loop (n : nat) (prev : option N) (s : pystr) (cs : caps) :=
    match n with
    | O => k prev s cs
    | S n' =>
        match step prev s cs
                   (fun p' s' cs' =>
                      if length s' <? length s then loop n' p' s' cs'
                      else None) with
        | Some x => Some x
        | None => k prev s cs
        end
    end.
Definition lazy_loop
           (step : option N -> pystr -> caps -> K -> option (pystr * caps))
           (k : K) : nat -> option N -> pystr -> caps -> option (pystr * caps) :=
  fix loop (n : nat) (prev : option N) (s : pystr) (cs : caps) :=
    match n with
    | O => k prev s cs
    | S n' =>
        match k prev s cs with
        | Some x => Some x
        | None =>
            step prev s cs
                 (fun p' s' cs' =>
                    if length s' <? length s then loop n' p' s' cs'
                    else None)
        end
    end.

(** The result [res] was produced by the continuation [k], called on a
    rest of at most [bound] characters. *)
Definition reaches (k : K) (res : pystr * caps) (bound : nat) : Prop :=
  exists p' s' cs', k p' s' cs' = Some res /\ length s' <= bound.

(** ** The order of the sort *)

(** The order [<=] on sort keys: first components first. *)
Definition key_le (k1 k2 : pystr * pystr) : Prop :=
  str_ltb (fst k1) (fst k2) = true
  \/ (fst k1 = fst k2
      /\ (str_ltb (snd k1) (snd k2) = true \/ snd k1 = snd k2)).

Definition le_by {A : Type} (key : A -> pystr * pystr) (a b : A) : Prop :=
  key_le (key a) (key b).

(** ** The skills canonicaliser *)

(** The alias index of a fresh normalizer. *)
Definition alias_index : dict skill_info := _alias_to_canonical init.

(** The deduplication key of an entry. *)
Definition dedup_key (e : SkillEntrySchema) : pystr := lower (canonical_name e).

(** The entries of the non-blank raw skills, in order. *)
Fixpoint normalize_all (self : SkillsNormalizer) (ctx : pystr)
         (l : list pystr) : result (list SkillEntrySchema) :=
  match l with
  | [] => Ok []
  | s :: l' =>
      if is_blank s then normalize_all self ctx l'
      else e <- normalize_skill self s ctx ;;
           es <- normalize_all self ctx l' ;;
           Ok (e :: es)
  end.

(** The entries whose key is new, in order. *)
Fixpoint dedup_from (seen : list pystr) (es : list SkillEntrySchema)
  : list SkillEntrySchema :=
  match es with
  | [] => []
  | e :: es' =>
      if existsb (streq (dedup_key e)) seen then dedup_from seen es'
      else e :: dedup_from (dedup_key e :: seen) es'
  end.

(** The two lists hold the same non-empty raw strings. *)
Definition same_raw_set (l1 l2 : list pystr) : Prop :=
  forall s, s <> [] -> (In s l1 <-> In s l2).

(** Order of the output: category first, canonical name second. *)
Definition skill_le (a b : SkillEntrySchema) : Prop :=
  key_le (sort_key a) (sort_key b).

(** Every output entry comes from the first raw string with its key. *)
Definition first_wins (ctx : pystr) (l : list pystr)
           (o : list SkillEntrySchema) : Prop :=
  forall e, In e o ->
    exists l1 s l2,
      l = l1 ++ s :: l2 /\ is_blank s = false
      /\ normalize_skill init s ctx = Ok e
      /\ forall t e', In t l1 -> is_blank t = false ->
                      normalize_skill init t ctx = Ok e' ->
                      dedup_key e' <> dedup_key e.

(** Every non-blank raw string is represented by an entry with its key. *)
Definition all_covered (ctx : pystr) (l : list pystr)
           (o : list SkillEntrySchema) : Prop :=
  forall s e, In s l -> is_blank s = false ->
              normalize_skill init s ctx = Ok e ->
              exists e', In e' o /\ dedup_key e' = dedup_key e.

(** The output for the input [l]: sorted, without duplicate keys, first
    occurrences kept, nothing lost. *)
Definition output_ok (ctx : pystr) (l : list pystr)
           (o : list SkillEntrySchema) : Prop :=
  StronglySorted skill_le o
  /\ NoDup (map dedup_key o)
  /\ first_wins ctx l o
  /\ all_covered ctx l o.

(** Both calls fail, or both return, with the same canonical names and
    well-formed outputs. *)
Definition order_independent (ctx : pystr) (l1 l2 : list pystr) : Prop :=
  match normalize_skills_list init l1 ctx,
        normalize_skills_list init l2 ctx with
  | Ok o1, Ok o2 =>
      (forall c, In c (map canonical_name o1) <-> In c (map canonical_name o2))
      /\ output_ok ctx l1 o1 /\ output_ok ctx l2 o2
  | Raise _, Raise _ => True
  | _, _ => False
  end.

(** Two raw skills that hit the same entry of the index get the same
    canonical name and category. *)
Definition same_entry (ctx s1 s2 : pystr) : Prop :=
  forall info,
    dict_get (lower (_clean_skill_name s1)) alias_index = Some info ->
    dict_get (lower (_clean_skill_name s2)) alias_index = Some info ->
    exists e1 e2,
      normalize_skill init s1 ctx = Ok e1
      /\ normalize_skill init s2 ctx = Ok e2
      /\ canonical_name e1 = canonical_name e2
      /\ skill_category e1 = skill_category e2.

(** A hit: the entry of the index, confidence 0.95. *)
Definition known_skill (ctx s : pystr) : Prop :=
  forall info,
    dict_get (lower (_clean_skill_name s)) alias_index = Some info ->
    exists e,
      normalize_skill init s ctx = Ok e
      /\ confidence_score e = 0.95%float
      /\ canonical_name e = canonical info
      /\ skill_category e = Some (category info)
      /\ skill_aliases e = aliases info.

(** A miss: the title-cased cleaned string, confidence 0.7. *)
Definition unknown_skill (ctx s : pystr) : Prop :=
  dict_get (lower (_clean_skill_name s)) alias_index = None ->
  exists e,
    normalize_skill init s ctx = Ok e
    /\ confidence_score e = 0.7%float
    /\ canonical_name e = title (_clean_skill_name s)
    /\ skill_category e = _infer_skill_category (_clean_skill_name s)
    /\ skill_aliases e = [].

(** A raw skill whose cleaned form is in the index and whose stripped
    form has 104 characters. *)
Definition long_python : pystr := u "python (" ++ repeat 120%N 95 ++ u ")".

Definition raw_a : list pystr :=
  map u ["Python3"; "py"; "ReactJS"; "Unknown Widget Tool"].
Definition raw_b : list pystr :=
  map u ["Unknown Widget Tool"; "ReactJS"; "py"; ""; "Python3"; "py"].

(** ** Confidence scores *)

(** The sum, from zero and in the order of the list, of the weights whose
    item is present. *)
Definition weighted_sum (items : list (bool * float)) : float :=
  fold_left (fun (score : float) (it : bool * float) =>
               if fst it then (score + snd it)%float else score)
            items 0.0%float.

(** Presence of the five scored items, in the order the code inspects
    them: e-mail, summary, experience, education, skills. *)
Definition presence (e : extracted) : list bool :=
  [has_email e; nonempty (summary e); nonempty (experience e);
   nonempty (education e); nonempty (skills e)].

Definition docx_weights : list float :=
  [0.2%float; 0.1%float; 0.3%float; 0.2%float; 0.2%float].
Definition pdf_weights : list float :=
  [0.15%float; 0.1%float; 0.2%float; 0.15%float; 0.1%float].

(** ** The extractors *)

(** The unit [i] is in the list of section [sec]. *)
Definition assigned (sections : dict (list nat)) (sec : pystr) (i : nat)
  : Prop :=
  exists l, dict_get sec sections = Some l /\ In i l.

(** The cursor of a scan names an open section; without cursor the map
    is empty. *)
Definition cursor_ok (st : dict (list nat) * option pystr) : Prop :=
  match snd st with
  | Some cur => dict_mem cur (fst st) = true
  | None => fst st = []
  end.

(** A document of three units: a header and two content lines. *)
Definition three_lines : list pystr := map u ["Skills"; "Python"; "Java"].
Definition three_paragraphs : list Docx.para :=
  map (fun it =>
         {| Docx.index := fst (fst it); Docx.text := u (snd (fst it));
            Docx.is_header := snd it; Docx.style := None; Docx.runs := [];
            Docx.is_bold := snd it; Docx.font_size := None |})
      [((0, "Skills"), true); ((1, "Python"), false); ((2, "Java"), false)].

Definition c8_lines : list pystr :=
  map u ["Senior Engineer | Acme Corp"; "2020 - 2023"; "- Led migration";
         "- Mentored team"].

(** The caps of the PDF extractor on the lists of an [extracted]. *)
Definition capped (e : extracted) : Prop :=
  length (experience e) <= 10 /\ length (education e) <= 5
  /\ length (skills e) <= 20 /\ length (projects e) <= 5.

(** Inputs with more candidates than the caps. *)
Definition paragraph_of (n : nat) : pystr :=
  u "Project number " ++ str_of_nat n ++ u " at Acme".
Definition many_paragraphs (n : nat) : pystr :=
  join (nl ++ nl) (map paragraph_of (seq 0 n)).
Definition many_schools (n : nat) : pystr :=
  join nl (map (fun i => u "University " ++ str_of_nat i) (seq 0 n)).
Definition many_skills (n : nat) : pystr :=
  join (u ", ") (map (fun i => u "skill" ++ str_of_nat i) (seq 0 n)).

(** ** The extraction router *)

Import Parser.

(** The type named by the extension of a path, if it is a known one. *)
Definition by_extension (file_path : pystr) : option pystr :=
  let extension := lower (suffix file_path) in
  if streq extension (u ".docx") then Some (u "docx")
  else if streq extension (u ".pdf") then Some (u "pdf")
  else if streq extension (u ".txt") || streq extension (u ".text")
  then Some (u "txt")
  else None.

(** The type named by a guessed MIME type. *)
Definition by_mime (guess : option pystr) : pystr :=
  match guess with
  | Some mime_type =>
      if contains (u "openxmlformats") mime_type
         || contains (u "wordprocessingml") mime_type then u "docx"
      else if contains (u "pdf") mime_type then u "pdf"
      else if contains (u "text") mime_type then u "txt"
      else u "unknown"
  | None => u "unknown"
  end.

Definition supported (file_type : pystr) : bool :=
  streq file_type (u "docx") || streq file_type (u "pdf")
  || streq file_type (u "txt").

(** The collector after a failure reported for the job that was started
    on [c]. *)
Definition failure_reported (w : world) (resume_id : option pystr)
           (p : pystr) (e : exn) (c : collector) : collector :=
  let started :=
    record_parse_start c (time_s w) (resume_label resume_id)
                       (_detect_file_type w p) (st_size w p) in
  record_parse_failure (snd started) (fst started)
                       (end_time_ms w - start_time_ms w)%float (exn_kind e).

(** The extractor chosen for the path raises [e]. *)
Definition extractor_raises (w : world) (p job : pystr) (e : exn) : Prop :=
  (_detect_file_type w p = u "docx" /\ docx_extract w p job = Raise e)
  \/ (_detect_file_type w p = u "pdf" /\ pdf_extract w p job = Raise e).

(** A world in which the PDF extractor raises. *)
Definition failing_world : world :=
  {| generate_job_id := u "job_1_abcdef12";
     get_resume_file_path := fun _ => Ok None;
     exists_ := fun _ => true;
     st_size := fun _ => 2048;
     guess_type := fun _ => None;
     docx_extract := fun _ _ => Ok [];
     pdf_extract := fun _ _ =>
       Raise {| exn_kind := u "PDFSyntaxError"; exn_msg := u "No /Root object" |};
     start_time := 1000; start_time_ms := 1000000; end_time_ms := 1000250;
     completed_at_time := 1001; time_s := 1000;
     isoformat_now := u "1970-01-01T00:16:40";
     str_of := fun _ => [] |}.

(** ** The profile validator *)

Import Schema Validator.

(** The errors of one field of a model, for the dictionary [d]. *)
Definition field_errs (d : dict pyval) (fname : pystr) (required : bool)
           (ft : ftype) : list verror :=
  match dict_get fname d with
  | Some x => under (LKey fname) (validate ft x)
  | None =>
      if required
      then [{| loc := [LKey fname]; msg := u "Field required" |}]
      else []
  end.

(** The loop of [validate] over the fields of a model, by name. *)
Definition model_errors (d : dict pyval)
  : list (pystr * (bool * ftype)) -> list verror :=
  fix go (fs : list (pystr * (bool * ftype))) : list verror :=
    match fs with
    | [] => []
    | (fname, (required, ft)) :: fs' =>
        match dict_get fname d with
        | Some x => under (LKey fname) (validate ft x)
        | None =>
            if required
            then [{| loc := [LKey fname]; msg := u "Field required" |}]
            else []
        end ++ go fs'
    end.

(** A prohibited key that is reached through dictionaries only. *)
Inductive prohibited_in : pyval -> Prop :=
| prohibited_here (d : dict pyval) (k : pystr) (v : pyval) :
    In (k, v) d -> is_prohibited k = true -> prohibited_in (VDict d)
| prohibited_deeper (d : dict pyval) (k : pystr) (v : pyval) :
    In (k, v) d -> prohibited_in v -> prohibited_in (VDict d).

(** A prohibited key at any depth, through dictionaries and lists. *)
Fixpoint has_prohibited_key (v : pyval) : bool :=
  match v with
  | VDict d =>
      (fix go (d : list (pystr * pyval)) : bool :=
         match d with
         | [] => false
         | (k, x) :: d' => is_prohibited k || has_prohibited_key x || go d'
         end) d
  | VList l =>
      (fix go (l : list pyval) : bool :=
         match l with
         | [] => false
         | x :: l' => has_prohibited_key x || go l'
         end) l
  | _ => false
  end.

(** An error text that reports the privacy violation. *)
Definition mentions_privacy (m : pystr) : bool :=
  contains (u "Prohibited derived PII field detected") m.

(** The error of the model validator for the path [p]. *)
Definition privacy_error (p : pystr) : verror :=
  {| loc := [];
     msg := u "Value error, "
            ++ (u "Prohibited derived PII field detected: " ++ p) |}.

(** A warning about the schema version. *)
Definition is_versioning_warning (w : pystr) : bool :=
  startswith (u "No schema version found") w
  || startswith (u "Migrated schema from") w.

(** A version whose major component differs from the current one, or
    whose minor component exceeds it. *)
Definition version_refused (v : pystr) : Prop :=
  exists major minor rest,
    version_parts v = Some (major :: minor :: rest)
    /\ (major <> 1 \/ 0 < minor)%Z.

(** The fields of [ProfileJSONSchema] that have no default. *)
Definition required_field (f : pystr) : bool :=
  existsb (streq f) (map u ["extraction_method"; "source_file"; "metadata"]).

(** Example profiles. *)
Definition with_field (k : string) (v : pyval) (d : dict pyval) : dict pyval :=
  dict_set (u k) v d.

Definition minimal_profile : dict pyval := [
  (u "extraction_method", VStr (u "docx_deterministic"));
  (u "source_file", VStr (u "resume.docx"));
  (u "metadata",
   VDict [(u "extractor_version", VStr (u "1.0.0"));
          (u "extraction_timestamp", VDatetime 0)])
].

Definition current_profile : dict pyval :=
  with_field "schema_version" (VStr (u "1.0.0")) minimal_profile.
Definition future_profile : dict pyval :=
  with_field "schema_version" (VStr (u "2.0.0")) minimal_profile.
Definition older_profile : dict pyval :=
  with_field "schema_version" (VStr (u "1.0.7")) minimal_profile.

Definition with_additional (a : dict pyval) (d : dict pyval) : dict pyval :=
  with_field "additional_sections" (VDict a) d.

(** {"personal": {"Age": 30}}, {"references": [{"age": 30}]} and
    {"age": 30}. *)
Definition nested_age : dict pyval :=
  [(u "personal", VDict [(u "Age", VInt 30)])].
Definition listed_age : dict pyval :=
  [(u "references", VList [VDict [(u "age", VInt 30)]])].
Definition top_age : dict pyval := [(u "age", VInt 30)].

(** A field of the wrong type: an optional one and a required one. *)
Definition wrong_summary : dict pyval :=
  with_field "summary" (VInt 3) current_profile.
Definition wrong_method : dict pyval :=
  with_field "extraction_method" (VInt 123) current_profile.
Definition summary_error : verror :=
  {| loc := [LKey (u "summary")];
     msg := u "Input should be a valid dictionary or instance of SummarySchema" |}.
Definition method_error : verror :=
  {| loc := [LKey (u "extraction_method")];
     msg := u "Input should be a valid string" |}.

(** The error that a value rejected as a whole leaves at the top-level
    field [f]. *)
Definition field_error (f : pystr) (e0 : verror) : verror :=
  {| loc := [LKey f]; msg := msg e0 |}.

(** Profiles whose [schema_version] is the integer 5 and the integer 0. *)
Definition version_five : dict pyval :=
  with_field "schema_version" (VInt 5) minimal_profile.
Definition version_zero : dict pyval :=
  with_field "schema_version" (VInt 0) minimal_profile.

(** ** Vocabulary of the further properties *)




Import Skills SkillsTools.





Import SkillsStore.

(** A normalizer to which the alias "fb" of a new skill "FooBar" was
    added, and one with a new skill whose name has 101 characters. *)
Definition foobar_normalizer : SkillsNormalizer :=
  view (add_custom_alias new_store (u "FooBar") (u "fb") OTHER).
Definition long_name : pystr := repeat 120%N 101.
Definition long_name_normalizer : SkillsNormalizer :=
  view (add_custom_alias new_store long_name (u "xx") OTHER).

End Spec.
Import Spec.

(* ================================================================== *)
(** * Facts about strings *)
(* ================================================================== *)

Section SkillsFacts.

Import Re Skills.

Lemma streq_iff (a b : pystr) : streq a b = true <-> a = b.
Proof.
  revert b. induction a as [|x a IH]; intros [|y b]; simpl;
    try (split; [discriminate|discriminate]); [tauto|].
  rewrite andb_true_iff, N.eqb_eq, IH. split.
  - intros [-> ->]. reflexivity.
  - intro H. inversion H. auto.
Qed.

Lemma streq_refl (a : pystr) : streq a a = true.
Proof. now apply streq_iff. Qed.

(** Case mapping, character by character. *)
Ltac chars :=
  unfold lower_c, upper_c, is_cased, is_upper, is_lower in *;
  repeat (match goal with
          | |- context [(?a <=? ?b)%N] => destruct (N.leb_spec a b)
          | H : context [(?a <=? ?b)%N] |- _ => destruct (N.leb_spec a b)
          end; simpl in *);
  try reflexivity; try discriminate; try lia.

Lemma lower_c_idem c : lower_c (lower_c c) = lower_c c.
Proof. chars. Qed.

Lemma is_cased_lower_c c : is_cased (lower_c c) = is_cased c.
Proof. chars. Qed.

Lemma upper_c_lower_c c : upper_c (lower_c c) = upper_c c.
Proof. chars. Qed.

Lemma lower_c_upper_c c : lower_c (upper_c c) = lower_c c.
Proof. chars. Qed.

Lemma lower_c_uncased c : is_cased c = false -> lower_c c = c.
Proof. chars. Qed.

Lemma title_from_lower b s : title_from b (lower s) = title_from b s.
Proof.
  revert b. induction s as [|c s IH]; intro b; simpl; [reflexivity|].
  rewrite is_cased_lower_c, lower_c_idem, upper_c_lower_c.
  destruct (is_cased c) eqn:E; rewrite IH; [reflexivity|].
  now rewrite lower_c_uncased.
Qed.

Lemma lower_title_from b s : lower (title_from b s) = lower s.
Proof.
  revert b. induction s as [|c s IH]; intro b; simpl; [reflexivity|].
  destruct (is_cased c); simpl; rewrite IH; f_equal.
  destruct b; [apply lower_c_idem | apply lower_c_upper_c].
Qed.

Lemma length_title_from b s : length (title_from b s) = length s.
Proof.
  revert b. induction s as [|c s IH]; intro b; simpl; [reflexivity|].
  destruct (is_cased c); simpl; now rewrite IH.
Qed.

Lemma title_of_lower s : title (lower s) = title s.
Proof. apply title_from_lower. Qed.
Lemma lower_of_title s : lower (title s) = lower s.
Proof. apply lower_title_from. Qed.

Lemma title_eq_of_lower_eq a b : lower (title a) = lower (title b) -> title a = title b.
Proof.
  rewrite !lower_of_title. intro H.
  rewrite <- (title_of_lower a), <- (title_of_lower b). now rewrite H.
Qed.


(* ================================================================== *)
(** * Facts about the matcher *)
(* ================================================================== *)

Lemma rx_star fl a prev s cs k :
  rx fl (Star a) prev s cs k = star_loop (rx fl a) k (S (length s)) prev s cs.
Proof. reflexivity. Qed.
Lemma rx_lazy fl a prev s cs k :
  rx fl (LazyStar a) prev s cs k
  = lazy_loop (rx fl a) k (S (length s)) prev s cs.
Proof. reflexivity. Qed.

Lemma reaches_le k res n m : reaches k res n -> n <= m -> reaches k res m.
Proof. intros (p & s & cs & H & L) Hle. exists p, s, cs. split; [assumption|lia]. Qed.

Lemma rx_reaches fl r : forall prev s cs k res,
  rx fl r prev s cs k = Some res -> reaches k res (length s).
Proof.
  induction r as [ | c | neg items | | a IHa b IHb | a IHa b IHb | a IHa | a IHa
                 | i a IHa | | | | a IHa ]; intros prev s cs k res H;
    [ simpl in H | simpl in H | simpl in H | simpl in H | simpl in H
    | simpl in H | rewrite rx_star in H | rewrite rx_lazy in H | simpl in H
    | simpl in H | simpl in H | simpl in H | simpl in H ].
  - exists prev, s, cs. auto.
  - destruct s as [|x s']; [discriminate|].
    destruct (chr_eq fl c x); [|discriminate].
    exists (Some x), s', cs. simpl. auto.
  - destruct s as [|x s']; [discriminate|].
    destruct (xorb neg (cls_mem fl items x)); [|discriminate].
    exists (Some x), s', cs. simpl. auto.
  - destruct s as [|x s']; [discriminate|].
    destruct (x =? 10)%N; [discriminate|].
    exists (Some x), s', cs. simpl. auto.
  - apply IHa in H. destruct H as (p1 & s1 & cs1 & H & L).
    apply IHb in H. eapply reaches_le; eauto.
  - destruct (rx fl a prev s cs k) eqn:E.
    + inversion H; subst. eapply IHa; eauto.
    + eapply IHb; eauto.
  - remember (S (length s)) as m eqn:Hm. clear Hm.
    revert prev s cs H. induction m as [|n IHn]; intros prev s cs H;
      simpl in H.
    + exists prev, s, cs. auto.
    + match type of H with
      | match ?X with _ => _ end = _ => destruct X eqn:E
      end.
      * inversion H; subst. apply IHa in E.
        destruct E as (p1 & s1 & cs1 & E & L).
        destruct (length s1 <? length s) eqn:Lt; [|discriminate].
        apply IHn in E. eapply reaches_le; eauto.
      * exists prev, s, cs. auto.
  - remember (S (length s)) as m eqn:Hm. clear Hm.
    revert prev s cs H. induction m as [|n IHn]; intros prev s cs H;
      simpl in H.
    + exists prev, s, cs. auto.
    + destruct (k prev s cs) eqn:E.
      * inversion H; subst. exists prev, s, cs. auto.
      * apply IHa in H. destruct H as (p1 & s1 & cs1 & H & L).
        destruct (length s1 <? length s) eqn:Lt; [|discriminate].
        apply IHn in H. eapply reaches_le; eauto.
  - apply IHa in H. destruct H as (p1 & s1 & cs1 & H & L).
    exists p1, s1, ((i, firstn (length s - length s1) s) :: cs1). auto.
  - destruct (at_bol fl prev); [|discriminate]. exists prev, s, cs. auto.
  - destruct (at_eol fl s); [|discriminate]. exists prev, s, cs. auto.
  - destruct (xorb _ _); [|discriminate]. exists prev, s, cs. auto.
  - destruct (rx fl a prev s cs _) as [[? cs']|]; [|discriminate].
    exists prev, s, cs'. auto.
Qed.

Lemma rx_consumes fl r : consuming r = true -> forall prev s cs k res,
  rx fl r prev s cs k = Some res ->
  exists n, S n <= length s /\ reaches k res n.
Proof.
  induction r as [ | c | neg items | | a IHa b IHb | a IHa b IHb | a IHa | a IHa
                 | i a IHa | | | | a IHa ]; intros C prev s cs k res H;
    simpl in C; try discriminate; simpl in H.
  - destruct s as [|x s']; [discriminate|].
    destruct (chr_eq fl c x); [|discriminate].
    exists (length s'). split; [simpl; lia|]. exists (Some x), s', cs. auto.
  - destruct s as [|x s']; [discriminate|].
    destruct (xorb neg (cls_mem fl items x)); [|discriminate].
    exists (length s'). split; [simpl; lia|]. exists (Some x), s', cs. auto.
  - destruct s as [|x s']; [discriminate|].
    destruct (x =? 10)%N; [discriminate|].
    exists (length s'). split; [simpl; lia|]. exists (Some x), s', cs. auto.
  - destruct (consuming a) eqn:Ca.
    + apply (IHa eq_refl) in H. destruct H as (n & Hn & p1 & s1 & cs1 & H & L).
      apply rx_reaches in H. exists n. split; [assumption|].
      eapply reaches_le; eauto.
    + simpl in C. apply rx_reaches in H. destruct H as (p1 & s1 & cs1 & H & L).
      apply (IHb C) in H. destruct H as (n & Hn & R).
      exists n. split; [lia|assumption].
  - apply andb_true_iff in C. destruct C as [Ca Cb].
    destruct (rx fl a prev s cs k) eqn:E.
    + inversion H; subst. eapply IHa; eauto.
    + eapply IHb; eauto.
  - apply (IHa C) in H. destruct H as (n & Hn & p1 & s1 & cs1 & H & L).
    exists n. split; [assumption|].
    exists p1, s1, ((i, firstn (length s - length s1) s) :: cs1). auto.
Qed.

Lemma match_here_length fl r ae prev s m :
  match_here fl r ae prev s = Some m -> length (m_text m) <= length s.
Proof.
  unfold match_here. destruct (rx _ _ _ _ _ _) as [[s' cs]|]; [|discriminate].
  intro H. inversion H; subst; simpl. rewrite length_firstn. lia.
Qed.

Lemma match_here_nonempty fl r ae prev s m :
  consuming r = true ->
  match_here fl r ae prev s = Some m -> 0 < length (m_text m).
Proof.
  unfold match_here. intros C.
  destruct (rx _ _ _ _ _ _) as [[s' cs]|] eqn:E; [|discriminate].
  intro H. inversion H; subst; simpl.
  eapply rx_consumes in E; [|exact C].
  destruct E as (n & Hn & p1 & s1 & cs1 & E & L).
  destruct (ae || _); [|discriminate]. inversion E; subst.
  rewrite length_firstn. lia.
Qed.

Lemma sub_go_length fl r repl :
  consuming r = true -> length repl <= 1 ->
  forall s prev skip, length (sub_go fl r repl prev skip s) <= length s.
Proof.
  intros C R. induction s as [|c s IH]; intros prev skip.
  - destruct skip; simpl; [|lia].
    destruct (match_here fl r true prev []) eqn:E; [|simpl; lia].
    pose proof E as L. apply match_here_length in L.
    pose proof E as P. apply match_here_nonempty in P; [|exact C].
    simpl in L. lia.
  - destruct skip; simpl.
    + destruct (match_here fl r true prev (c :: s)) eqn:E.
      * pose proof E as P. apply match_here_nonempty in P; [|exact C].
        destruct (length (m_text m)) eqn:Lm; [lia|].
        rewrite length_app. specialize (IH (Some c) n). lia.
      * simpl. specialize (IH (Some c) 0). lia.
    + specialize (IH (Some c) skip). lia.
Qed.

Lemma sub_length fl r repl s :
  consuming r = true -> length repl <= 1 ->
  length (sub fl r repl s) <= length s.
Proof. intros. now apply sub_go_length. Qed.

Lemma length_lstrip s : length (lstrip s) <= length s.
Proof.
  induction s as [|c s IH]; simpl; [lia|].
  destruct (is_space c); simpl; lia.
Qed.

Lemma length_strip s : length (strip s) <= length s.
Proof.
  unfold strip, rstrip. rewrite length_rev.
  etransitivity; [apply length_lstrip|]. rewrite length_rev. apply length_lstrip.
Qed.

Lemma length_clean s : length (_clean_skill_name s) <= length (strip s).
Proof.
  unfold _clean_skill_name. destruct s as [|c s]; [simpl; lia|].
  remember (c :: s) as raw. clear Heqraw.
  etransitivity; [apply sub_length; [reflexivity | simpl; lia]|].
  etransitivity; [apply length_strip|].
  do 5 (etransitivity; [apply sub_length; [reflexivity | simpl; lia]|]).
  apply sub_length; [reflexivity | simpl; lia].
Qed.


(* ================================================================== *)
(** * The order of keys and the stable sort *)
(* ================================================================== *)

(** ** The order on strings and keys *)

Lemma str_ltb_irrefl a : str_ltb a a = false.
Proof.
  induction a as [|x a IH]; simpl; [reflexivity|].
  now rewrite N.ltb_irrefl.
Qed.

Lemma str_ltb_trans a : forall b c,
  str_ltb a b = true -> str_ltb b c = true -> str_ltb a c = true.
Proof.
  induction a as [|x a IH]; intros [|y b] [|z c]; simpl; try discriminate; auto.
  destruct (N.ltb_spec x y), (N.ltb_spec y x), (N.ltb_spec y z),
    (N.ltb_spec z y), (N.ltb_spec x z), (N.ltb_spec z x);
    try discriminate; try lia; auto.
  apply IH.
Qed.

Lemma str_ltb_total a : forall b,
  str_ltb a b = true \/ a = b \/ str_ltb b a = true.
Proof.
  induction a as [|x a IH]; intros [|y b]; simpl; auto.
  destruct (N.ltb_spec x y), (N.ltb_spec y x); try lia; auto.
  assert (x = y) as -> by lia.
  destruct (IH b) as [T|[T|T]]; auto. subst; auto.
Qed.

Lemma str_ltb_asym a b : str_ltb a b = true -> str_ltb b a = false.
Proof.
  intro H. destruct (str_ltb b a) eqn:E; [|reflexivity].
  pose proof (str_ltb_trans _ _ _ H E) as T. now rewrite str_ltb_irrefl in T.
Qed.

Lemma key_ltb_false_iff k1 k2 : key_ltb k2 k1 = false <-> key_le k1 k2.
Proof.
  destruct k1 as [a1 b1], k2 as [a2 b2]. unfold key_ltb, key_le; simpl.
  rewrite orb_false_iff, andb_false_iff. split.
  - intros [H1 H2].
    destruct (str_ltb_total a1 a2) as [T|[T|T]]; [auto| |congruence].
    subst. right. split; [reflexivity|].
    destruct H2 as [H2|H2]; [now rewrite streq_refl in H2|].
    destruct (str_ltb_total b1 b2) as [U|[U|U]]; auto. congruence.
  - intros [H|[-> [H| ->]]].
    + split; [now apply str_ltb_asym|]. left.
      destruct (streq a2 a1) eqn:E; [|reflexivity].
      apply streq_iff in E. subst. now rewrite str_ltb_irrefl in H.
    + split; [apply str_ltb_irrefl|]. right. now apply str_ltb_asym.
    + split; [apply str_ltb_irrefl|]. right. apply str_ltb_irrefl.
Qed.

Lemma key_le_trans k1 k2 k3 : key_le k1 k2 -> key_le k2 k3 -> key_le k1 k3.
Proof.
  destruct k1 as [a1 b1], k2 as [a2 b2], k3 as [a3 b3].
  unfold key_le; simpl.
  intros [H|[-> H]] [G|[-> G]]; auto.
  - left. eapply str_ltb_trans; eauto.
  - right. split; [reflexivity|].
    destruct H as [H| ->], G as [G| ->]; auto.
    left. eapply str_ltb_trans; eauto.
Qed.

Lemma key_le_of_ltb k1 k2 : key_ltb k1 k2 = true -> key_le k1 k2.
Proof.
  destruct k1 as [a1 b1], k2 as [a2 b2]. unfold key_ltb, key_le; simpl.
  rewrite orb_true_iff, andb_true_iff. intros [H|[E H]]; auto.
  apply streq_iff in E. auto.
Qed.

(** ** The stable sort *)

Section Sorting.
Variable A : Type.
Variable key : A -> pystr * pystr.

Lemma insert_by_perm x l : Permutation (insert_by key x l) (x :: l).
Proof.
  induction l as [|y l IH]; simpl; [reflexivity|].
  destruct (key_ltb (key y) (key x)); [|reflexivity].
  rewrite IH. apply perm_swap.
Qed.

Lemma sort_by_perm l : Permutation (sort_by key l) l.
Proof.
  induction l as [|x l IH]; simpl; [reflexivity|].
  rewrite insert_by_perm. now constructor.
Qed.

Lemma insert_by_sorted x l :
  StronglySorted (le_by key) l ->
  StronglySorted (le_by key) (insert_by key x l).
Proof.
  induction l as [|y l IH]; intro S; simpl.
  - repeat constructor.
  - inversion S as [|? ? S' F]; subst.
    destruct (key_ltb (key y) (key x)) eqn:E.
    + constructor; [auto|].
      eapply Permutation_Forall; [symmetry; apply insert_by_perm|].
      constructor; [|assumption]. now apply key_le_of_ltb.
    + apply key_ltb_false_iff in E.
      constructor; [assumption|]. constructor; [assumption|].
      eapply Forall_impl; [|exact F]. intros z Hz.
      eapply key_le_trans; eauto.
Qed.

Lemma sort_by_sorted l : StronglySorted (le_by key) (sort_by key l).
Proof.
  induction l as [|x l IH]; simpl; [constructor|].
  now apply insert_by_sorted.
Qed.

End Sorting.


(* ================================================================== *)
(** * The skills canonicaliser *)
(* ================================================================== *)

Lemma existsb_streq k seen : existsb (streq k) seen = true <-> In k seen.
Proof.
  rewrite existsb_exists. split.
  - intros (x & Hx & E). apply streq_iff in E. now subst.
  - intro H. exists k. split; [assumption|apply streq_refl].
Qed.

Lemma normalize_loop_eq self ctx l : forall seen acc,
  normalize_loop self ctx seen acc l
  = (es <- normalize_all self ctx l ;; Ok (rev acc ++ dedup_from seen es)).
Proof.
  induction l as [|s l IH]; intros seen acc; simpl.
  - now rewrite app_nil_r.
  - destruct (is_blank s); [apply IH|].
    destruct (normalize_skill self s ctx) as [e|x]; simpl; [|reflexivity].
    fold (dedup_key e).
    destruct (existsb (streq (dedup_key e)) seen) eqn:E; rewrite IH.
    + destruct (normalize_all self ctx l); simpl; [|reflexivity].
      now rewrite E.
    + destruct (normalize_all self ctx l); simpl; [|reflexivity].
      rewrite E. now rewrite <- app_assoc.
Qed.

Lemma dedup_from_in seen es e :
  In e (dedup_from seen es) -> In e es /\ ~ In (dedup_key e) seen.
Proof.
  revert seen. induction es as [|x es IH]; intros seen H; simpl in H;
    [contradiction|].
  destruct (existsb (streq (dedup_key x)) seen) eqn:E.
  - apply IH in H. destruct H; split; [now right|assumption].
  - destruct H as [->|H].
    + split; [now left|]. intro I. apply existsb_streq in I. congruence.
    + apply IH in H. destruct H as [H1 H2]. split; [now right|].
      intro I. apply H2. now right.
Qed.

Lemma dedup_from_covers seen es x :
  In x es ->
  In (dedup_key x) seen
  \/ exists e, In e (dedup_from seen es) /\ dedup_key e = dedup_key x.
Proof.
  revert seen. induction es as [|y es IH]; intros seen H; [contradiction|].
  simpl. destruct (existsb (streq (dedup_key y)) seen) eqn:E.
  - destruct H as [->|H]; [left; now apply existsb_streq|].
    destruct (IH seen H) as [I|(e & I & K)]; [now left|].
    right. exists e. auto.
  - destruct H as [->|H]; [right; exists x; split; [now left|reflexivity]|].
    destruct (IH (dedup_key y :: seen) H) as [[I|I]|(e & I & K)].
    + right. exists y. split; [now left|assumption].
    + now left.
    + right. exists e. split; [now right|assumption].
Qed.

Lemma dedup_from_nodup seen es : NoDup (map dedup_key (dedup_from seen es)).
Proof.
  revert seen. induction es as [|x es IH]; intros seen; simpl; [constructor|].
  destruct (existsb (streq (dedup_key x)) seen); [apply IH|].
  simpl. constructor; [|apply IH].
  intro I. apply in_map_iff in I. destruct I as (e & K & I).
  apply dedup_from_in in I. destruct I as [_ I]. apply I. left. now symmetry.
Qed.

Lemma dedup_from_first seen es e :
  In e (dedup_from seen es) ->
  exists l1 l2, es = l1 ++ e :: l2
                /\ forall t, In t l1 -> dedup_key t <> dedup_key e.
Proof.
  revert seen. induction es as [|x es IH]; intros seen H; simpl in H;
    [contradiction|].
  destruct (existsb (streq (dedup_key x)) seen) eqn:E.
  - pose proof (dedup_from_in _ _ _ H) as [_ NI].
    apply IH in H. destruct H as (l1 & l2 & -> & F).
    exists (x :: l1), l2. split; [reflexivity|].
    intros t [->|I]; [|now apply F].
    intro K. apply NI. rewrite <- K. now apply existsb_streq.
  - destruct H as [->|H].
    + exists [], es. split; [reflexivity|]. intros t [].
    + pose proof (dedup_from_in _ _ _ H) as [_ NI].
      apply IH in H. destruct H as (l1 & l2 & -> & F).
      exists (x :: l1), l2. split; [reflexivity|].
      intros t [->|I]; [|now apply F].
      intro K. apply NI. left. assumption.
Qed.

(** [normalize_all] against the raw list. *)
Lemma normalize_all_in self ctx l es e :
  normalize_all self ctx l = Ok es ->
  (In e es <-> exists s, In s l /\ is_blank s = false
                         /\ normalize_skill self s ctx = Ok e).
Proof.
  revert es. induction l as [|s l IH]; intros es H; simpl in H.
  - inversion H; subst. split; [intros []|intros (s & [] & _)].
  - destruct (is_blank s) eqn:B.
    + rewrite (IH _ H). split; intros (t & I & R).
      * exists t. split; [now right|assumption].
      * destruct I as [->|I]; [destruct R; congruence|]. exists t. auto.
    + destruct (normalize_skill self s ctx) as [x|] eqn:Nx; [|discriminate].
      simpl in H. destruct (normalize_all self ctx l) as [xs|]; [|discriminate].
      simpl in H. inversion H; subst. simpl. rewrite (IH _ eq_refl). split.
      * intros [->|(t & I & R)]; [exists s; auto with datatypes|].
        exists t. split; [now right|assumption].
      * intros (t & [->|I] & Bt & R); [left; congruence|].
        right. exists t. auto.
Qed.

Lemma normalize_all_raise self ctx l :
  (exists x, normalize_all self ctx l = Raise x)
  <-> exists s x, In s l /\ is_blank s = false
                  /\ normalize_skill self s ctx = Raise x.
Proof.
  induction l as [|s l IH]; simpl.
  - split; [intros (x & H); discriminate|intros (s & x & [] & _)].
  - destruct (is_blank s) eqn:B.
    + rewrite IH. split; intros (t & x & I & R).
      * exists t, x. split; [now right|assumption].
      * destruct I as [->|I]; [destruct R; congruence|]. exists t, x. auto.
    + destruct (normalize_skill self s ctx) as [e|x0] eqn:Nx; simpl.
      * destruct (normalize_all self ctx l) as [xs|x1]; simpl.
        -- split; [intros (x & H); discriminate|].
           intros (t & x & [->|I] & Bt & R); [congruence|].
           destruct IH as [_ IH]. destruct IH as (y & Hy); [|discriminate].
           exists t, x. auto.
        -- split; [|intros _; eauto].
           intros _. destruct IH as [IH _].
           destruct IH as (t & x & I & R); [eauto|].
           exists t, x. split; [now right|assumption].
      * split; [|intros _; eauto].
        intros _. exists s, x0. auto with datatypes.
Qed.

Lemma normalize_all_split self ctx l : forall es1 e es2,
  normalize_all self ctx l = Ok (es1 ++ e :: es2) ->
  exists l1 s l2,
    l = l1 ++ s :: l2 /\ is_blank s = false
    /\ normalize_skill self s ctx = Ok e
    /\ normalize_all self ctx l1 = Ok es1.
Proof.
  induction l as [|s l IH]; intros es1 e es2 H; simpl in H.
  - inversion H. destruct es1; discriminate.
  - destruct (is_blank s) eqn:B.
    + apply IH in H. destruct H as (l1 & t & l2 & -> & Bt & R & A).
      exists (s :: l1), t, l2. simpl. rewrite B. auto.
    + destruct (normalize_skill self s ctx) as [x|] eqn:Nx; [|discriminate].
      simpl in H. destruct (normalize_all self ctx l) as [xs|] eqn:Nl;
        [|discriminate].
      simpl in H. inversion H as [E]. destruct es1 as [|y es1]; simpl in E.
      * inversion E; subst. exists [], s, l. auto.
      * inversion E; subst.
        destruct (IH _ _ _ eq_refl) as (l1 & t & l2 & -> & Bt & R & A).
        exists (s :: l1), t, l2. simpl. rewrite B, Nx, A. auto.
Qed.


(** ** Specification predicates for the canonicaliser *)

(** ** Facts about the alias index, by evaluation *)

Lemma dict_get_in (V : Type) (k : pystr) (d : dict V) (v : V) :
  dict_get k d = Some v -> In v (map snd d).
Proof.
  induction d as [|[k' v'] d IH]; simpl; [discriminate|].
  destruct (streq k k'); [intro H; inversion H; now left|].
  intro H. right. auto.
Qed.

Lemma index_closed info :
  In info (map snd alias_index) ->
  dict_mem (lower (canonical info)) alias_index = true.
Proof.
  revert info. apply forallb_forall. vm_compute. reflexivity.
Qed.

Lemma index_short info :
  In info (map snd alias_index) -> length (canonical info) <= 100.
Proof.
  intro H. apply Nat.leb_le. revert info H. apply forallb_forall.
  vm_compute. reflexivity.
Qed.

Lemma index_canonical_inj i1 i2 :
  In i1 (map snd alias_index) -> In i2 (map snd alias_index) ->
  lower (canonical i1) = lower (canonical i2) -> canonical i1 = canonical i2.
Proof.
  intros H1 H2 E.
  assert (forallb (fun a => forallb (fun b =>
            implb (streq (lower (canonical a)) (lower (canonical b)))
                  (streq (canonical a) (canonical b)))
            (map snd alias_index)) (map snd alias_index) = true) as F
    by (vm_compute; reflexivity).
  rewrite forallb_forall in F. specialize (F _ H1).
  rewrite forallb_forall in F. specialize (F _ H2).
  apply streq_iff in E. rewrite E in F. simpl in F. now apply streq_iff.
Qed.

(** ** [normalize_skill] *)

Lemma context_fits ctx :
  match context_arg ctx with Some c => 500 <? length c | None => false end
  = false.
Proof.
  unfold context_arg. destruct ctx as [|c ctx]; [reflexivity|].
  apply Nat.ltb_ge. apply firstn_le_length.
Qed.

Lemma new_entry_ok e :
  length (name e) <= 100 -> length (canonical_name e) <= 100 ->
  (exists ctx, context e = context_arg ctx) ->
  new_SkillEntrySchema e = Ok e.
Proof.
  intros H1 H2 (ctx & H3). unfold new_SkillEntrySchema.
  apply Nat.ltb_ge in H1, H2. rewrite H1, H2, H3, context_fits. reflexivity.
Qed.

Lemma new_entry_inv e e' :
  new_SkillEntrySchema e = Ok e' -> e' = e /\ length (name e) <= 100.
Proof.
  unfold new_SkillEntrySchema.
  destruct (100 <? length (name e)) eqn:E1; [discriminate|].
  destruct (100 <? length (canonical_name e)); [discriminate|].
  destruct (match context e with Some _ => _ | None => _ end); [discriminate|].
  intro H. inversion H; subst. split; [reflexivity|].
  apply Nat.ltb_ge. exact E1.
Qed.

Lemma new_entry_long e :
  100 < length (name e) -> exists x, new_SkillEntrySchema e = Raise x.
Proof.
  intro H. unfold new_SkillEntrySchema. apply Nat.ltb_lt in H. rewrite H. eauto.
Qed.

(** A hit in the index. *)
Lemma normalize_skill_hit raw ctx info :
  length (strip raw) <= 100 ->
  dict_get (lower (_clean_skill_name raw)) alias_index = Some info ->
  normalize_skill init raw ctx
  = Ok {| name := strip raw; canonical_name := canonical info;
          skill_aliases := aliases info;
          skill_category := Some (category info);
          context := context_arg ctx; confidence_score := 0.95 |}.
Proof.
  intros L H. unfold normalize_skill. fold alias_index. rewrite H.
  apply new_entry_ok; simpl; [assumption| |eauto].
  apply index_short. eapply dict_get_in; eauto.
Qed.

(** A miss. *)
Lemma normalize_skill_miss raw ctx :
  length (strip raw) <= 100 ->
  dict_get (lower (_clean_skill_name raw)) alias_index = None ->
  normalize_skill init raw ctx
  = Ok {| name := strip raw; canonical_name := title (_clean_skill_name raw);
          skill_aliases := [];
          skill_category := _infer_skill_category (_clean_skill_name raw);
          context := context_arg ctx; confidence_score := 0.7 |}.
Proof.
  intros L H. unfold normalize_skill. fold alias_index. rewrite H.
  apply new_entry_ok; simpl; [assumption| |eauto].
  unfold title. rewrite length_title_from.
  etransitivity; [apply length_clean|assumption].
Qed.

Lemma normalize_skill_long raw ctx :
  100 < length (strip raw) -> exists x, normalize_skill init raw ctx = Raise x.
Proof.
  intro L. unfold normalize_skill.
  destruct (dict_get _ _); apply new_entry_long; assumption.
Qed.

Lemma normalize_skill_fits raw ctx e :
  normalize_skill init raw ctx = Ok e -> length (strip raw) <= 100.
Proof.
  unfold normalize_skill.
  destruct (dict_get _ _); intro H; apply new_entry_inv in H; now destruct H.
Qed.

(** The key of an entry determines its canonical name. *)
Lemma key_determines_name ctx s t e1 e2 :
  normalize_skill init s ctx = Ok e1 ->
  normalize_skill init t ctx = Ok e2 ->
  dedup_key e1 = dedup_key e2 -> canonical_name e1 = canonical_name e2.
Proof.
  intros H1 H2.
  pose proof (normalize_skill_fits _ _ H1) as L1.
  pose proof (normalize_skill_fits _ _ H2) as L2.
  destruct (dict_get (lower (_clean_skill_name s)) alias_index) as [i1|] eqn:D1;
  destruct (dict_get (lower (_clean_skill_name t)) alias_index) as [i2|] eqn:D2.
  - rewrite normalize_skill_hit with (info := i1) in H1 by assumption.
    rewrite normalize_skill_hit with (info := i2) in H2 by assumption.
    inversion H1; inversion H2; subst; unfold dedup_key; simpl.
    apply index_canonical_inj; eapply dict_get_in; eauto.
  - rewrite normalize_skill_hit with (info := i1) in H1 by assumption.
    rewrite normalize_skill_miss in H2 by assumption.
    inversion H1; inversion H2; subst; unfold dedup_key; simpl.
    rewrite lower_of_title. intro E.
    assert (dict_mem (lower (canonical i1)) alias_index = true) as C
      by (apply index_closed; eapply dict_get_in; eauto).
    unfold dict_mem in C. rewrite E, D2 in C. discriminate.
  - rewrite normalize_skill_miss in H1 by assumption.
    rewrite normalize_skill_hit with (info := i2) in H2 by assumption.
    inversion H1; inversion H2; subst; unfold dedup_key; simpl.
    rewrite lower_of_title. intro E.
    assert (dict_mem (lower (canonical i2)) alias_index = true) as C
      by (apply index_closed; eapply dict_get_in; eauto).
    unfold dict_mem in C. rewrite <- E, D1 in C. discriminate.
  - rewrite normalize_skill_miss in H1 by assumption.
    rewrite normalize_skill_miss in H2 by assumption.
    inversion H1; inversion H2; subst; unfold dedup_key; simpl.
    apply title_eq_of_lower_eq.
Qed.

(** ** [normalize_skills_list] *)

Lemma normalize_skills_list_eq l ctx :
  normalize_skills_list init l ctx
  = (es <- normalize_all init ctx l ;;
     Ok (sort_by sort_key (dedup_from [] es))).
Proof.
  unfold normalize_skills_list. rewrite normalize_loop_eq. simpl.
  destruct (normalize_all init ctx l); reflexivity.
Qed.

Lemma blank_nil s : is_blank s = false -> s <> [].
Proof. intros H ->. discriminate. Qed.

Lemma output_ok_of_all ctx l es :
  normalize_all init ctx l = Ok es ->
  output_ok ctx l (sort_by sort_key (dedup_from [] es)).
Proof.
  intro A.
  pose proof (sort_by_perm sort_key (dedup_from [] es)) as P.
  repeat split.
  - apply sort_by_sorted.
  - eapply Permutation_NoDup; [symmetry; apply Permutation_map; exact P|].
    apply dedup_from_nodup.
  - intros e I. eapply Permutation_in in I; [|exact P].
    apply dedup_from_first in I. destruct I as (es1 & es2 & -> & F).
    destruct (normalize_all_split _ _ _ _ _ _ A)
      as (l1 & s & l2 & -> & B & R & A1).
    exists l1, s, l2. repeat split; try assumption.
    intros t e' I Bt Rt. apply F.
    apply (normalize_all_in _ _ _ e' A1). exists t. auto.
  - intros s e I B R.
    assert (In e es) as Ie by (apply (normalize_all_in _ _ _ e A); eauto).
    destruct (dedup_from_covers [] _ _ Ie) as [[]|(e' & I' & K)].
    exists e'. split; [|assumption].
    eapply Permutation_in; [symmetry; exact P|assumption].
Qed.

Lemma names_included ctx l1 l2 es1 es2 c :
  (forall s, s <> [] -> In s l1 -> In s l2) ->
  normalize_all init ctx l1 = Ok es1 ->
  normalize_all init ctx l2 = Ok es2 ->
  In c (map canonical_name (sort_by sort_key (dedup_from [] es1))) ->
  In c (map canonical_name (sort_by sort_key (dedup_from [] es2))).
Proof.
  intros Sub A1 A2 I.
  apply in_map_iff in I. destruct I as (e & <- & I).
  eapply Permutation_in in I; [|apply sort_by_perm].
  apply dedup_from_in in I. destruct I as [I _].
  apply (normalize_all_in _ _ _ e A1) in I. destruct I as (s & I & B & R).
  assert (In e es2) as I2.
  { apply (normalize_all_in _ _ _ e A2). exists s.
    repeat split; try assumption. apply Sub; [now apply blank_nil|assumption]. }
  destruct (dedup_from_covers [] _ _ I2) as [[]|(e' & I' & K)].
  pose proof I' as J. apply dedup_from_in in J. destruct J as [J _].
  apply (normalize_all_in _ _ _ e' A2) in J. destruct J as (s' & _ & _ & R').
  rewrite <- (key_determines_name _ _ _ R' R K).
  apply in_map. eapply Permutation_in; [symmetry; apply sort_by_perm|assumption].
Qed.

Lemma raise_transfers ctx l1 l2 :
  (forall s, s <> [] -> In s l1 -> In s l2) ->
  (exists x, normalize_all init ctx l1 = Raise x) ->
  exists x, normalize_all init ctx l2 = Raise x.
Proof.
  intros Sub H. apply normalize_all_raise in H.
  destruct H as (s & x & I & B & R). apply normalize_all_raise.
  exists s, x. repeat split; try assumption.
  apply Sub; [now apply blank_nil|assumption].
Qed.

Lemma no_category_last (a b : SkillEntrySchema) :
  skill_category a <> None -> skill_category b = None ->
  str_ltb (fst (sort_key a)) (fst (sort_key b)) = true.
Proof.
  unfold sort_key. intros Ha ->. simpl.
  destruct (skill_category a) as [[]|]; [reflexivity..|congruence].
Qed.

Lemma normalize_skills_list_total ctx l :
  (forall s, In s l -> length (strip s) <= 100) ->
  exists o, normalize_skills_list init l ctx = Ok o.
Proof.
  intro F. rewrite normalize_skills_list_eq.
  destruct (normalize_all init ctx l) as [es|x] eqn:A; simpl; [eauto|].
  assert (exists x, normalize_all init ctx l = Raise x) as R by eauto.
  apply normalize_all_raise in R. destruct R as (s & y & I & _ & R).
  apply F in I.
  destruct (dict_get (lower (_clean_skill_name s)) alias_index) eqn:D.
  - rewrite normalize_skill_hit with (info := s0) in R by assumption.
    discriminate.
  - rewrite normalize_skill_miss in R by assumption. discriminate.
Qed.

(** C3, for a freshly constructed normalizer, ASCII raw strings and the
    length limit of the schema.  Two input lists with the same set of
    non-empty raw skill strings (any order, any multiplicity), all of
    them ASCII, make [normalize_skills_list] fail on both or return on
    both.  When every raw string has at most 100 characters once
    stripped, both calls return, and the two outputs have the same set of
    canonical names; each output is sorted by category first (an entry
    without category after every category) and canonical name second,
    holds no two entries with the same lower-cased canonical name, and
    keeps for each key the entry of its first occurrence. *)
Theorem C3_normalize_skills_list (ctx : pystr) (l1 l2 : list pystr) :
  same_raw_set l1 l2 ->
  (forall s, In s l1 -> is_ascii s = true) ->
  order_independent ctx l1 l2
  /\ (forall a b, skill_category a <> None -> skill_category b = None ->
                  str_ltb (fst (sort_key a)) (fst (sort_key b)) = true)
  /\ ((forall s, In s l1 -> length (strip s) <= 100) ->
      exists o1 o2,
        normalize_skills_list init l1 ctx = Ok o1
        /\ normalize_skills_list init l2 ctx = Ok o2
        /\ (forall c, In c (map canonical_name o1)
                      <-> In c (map canonical_name o2))
        /\ output_ok ctx l1 o1 /\ output_ok ctx l2 o2).
Proof.
  intros Same _.
  assert (forall s, s <> [] -> In s l1 -> In s l2) as S12
    by (intros s N; apply Same; assumption).
  assert (forall s, s <> [] -> In s l2 -> In s l1) as S21
    by (intros s N; apply Same; assumption).
  assert (order_independent ctx l1 l2) as O.
  { unfold order_independent. rewrite !normalize_skills_list_eq.
    destruct (normalize_all init ctx l1) as [es1|x1] eqn:A1;
    destruct (normalize_all init ctx l2) as [es2|x2] eqn:A2; simpl.
    - split; [|split; now apply output_ok_of_all].
      intro c. split.
      + eapply names_included with (l1 := l1) (l2 := l2); eauto.
      + eapply names_included with (l1 := l2) (l2 := l1); eauto.
    - destruct (@raise_transfers ctx l2 l1 S21) as (x & R); [eauto|].
      congruence.
    - destruct (@raise_transfers ctx l1 l2 S12) as (x & R); [eauto|].
      congruence.
    - exact I. }
  split; [exact O|]. split; [apply no_category_last|].
  intro L1.
  assert (forall s, In s l2 -> length (strip s) <= 100) as L2.
  { intros s I. destruct s as [|c s]; [simpl; lia|].
    apply L1. apply S21; [discriminate|exact I]. }
  destruct (normalize_skills_list_total ctx l1 L1) as [o1 E1].
  destruct (normalize_skills_list_total ctx l2 L2) as [o2 E2].
  exists o1, o2. unfold order_independent in O. rewrite E1, E2 in O.
  tauto.
Qed.

(** C4, for a freshly constructed normalizer, ASCII raw skills and the
    length limit of the schema: for ASCII raw skills of at most 100
    characters once stripped, two strings whose cleaned forms hit the
    same entry of the alias index get the same canonical name and
    category; a hit returns the canonical name, aliases and category of
    the entry with confidence 0.95; a miss returns the title-cased cleaned
    string with the inferred category and confidence 0.7. *)
Theorem C4_normalize_skill (ctx s1 s2 : pystr) :
  is_ascii s1 = true -> is_ascii s2 = true ->
  length (strip s1) <= 100 -> length (strip s2) <= 100 ->
  same_entry ctx s1 s2 /\ known_skill ctx s1 /\ unknown_skill ctx s1.
Proof.
  intros _ _ L1 L2. repeat split.
  - intros info D1 D2.
    rewrite normalize_skill_hit with (info := info) by assumption.
    rewrite normalize_skill_hit with (info := info) by assumption.
    eauto 7.
  - intros info D.
    rewrite normalize_skill_hit with (info := info) by assumption.
    eexists. repeat split.
  - intros D. rewrite normalize_skill_miss by assumption.
    eexists. repeat split.
Qed.

(** The hypotheses of C4 hold for "ReactJS" and "react.js". *)
Lemma C4_witness :
  (is_ascii (u "ReactJS") = true /\ is_ascii (u "react.js") = true)
  /\ (length (strip (u "ReactJS")) <= 100
      /\ length (strip (u "react.js")) <= 100)
  /\ same_entry [] (u "ReactJS") (u "react.js")
  /\ known_skill [] (u "ReactJS") /\ unknown_skill [] (u "ReactJS").
Proof.
  assert (is_ascii (u "ReactJS") = true) as A1 by reflexivity.
  assert (is_ascii (u "react.js") = true) as A2 by reflexivity.
  assert (length (strip (u "ReactJS")) <= 100) as L1 by (vm_compute; lia).
  assert (length (strip (u "react.js")) <= 100) as L2 by (vm_compute; lia).
  split; [split; assumption|]. split; [split; assumption|].
  exact (C4_normalize_skill [] (u "ReactJS") (u "react.js") A1 A2 L1 L2).
Defined.

(** C4 as stated fails on a long raw skill: its cleaned form, "python",
    is in the alias index, and [normalize_skill] raises the schema's
    [ValidationError] instead of returning an entry.  It fails as well
    once a skill with a name of 101 characters was added with
    [add_custom_alias]: its alias "xx" is in the alias index and
    [normalize_skill] raises on it. *)
Lemma C4_counterexample :
  (dict_mem (lower (_clean_skill_name long_python)) alias_index = true
   /\ normalize_skill init long_python []
      = Raise (ValidationError
                 "name: String should have at most 100 characters"))
  /\ (dict_mem (lower (_clean_skill_name (u "xx")))
               (_alias_to_canonical long_name_normalizer) = true
      /\ normalize_skill long_name_normalizer (u "xx") []
         = Raise (ValidationError
              "canonical_name: String should have at most 100 characters")).
Proof. repeat split; vm_compute; reflexivity. Qed.

(** "ReactJS" and "react.js" are both React, a framework. *)
Example react_aliases :
  exists e1 e2,
    normalize_skill init (u "ReactJS") [] = Ok e1
    /\ normalize_skill init (u "react.js") [] = Ok e2
    /\ canonical_name e1 = u "React" /\ canonical_name e2 = u "React"
    /\ skill_category e1 = Some FRAMEWORKS
    /\ skill_category e2 = Some FRAMEWORKS.
Proof. do 2 eexists. repeat split; vm_compute; reflexivity. Qed.

(** The hypotheses of C3 hold for two orderings of the same skills. *)
Lemma C3_witness :
  same_raw_set raw_a raw_b
  /\ Forall (fun s => is_ascii s = true) raw_a
  /\ Forall (fun s => length (strip s) <= 100) raw_a
  /\ order_independent [] raw_a raw_b
  /\ exists o1 o2,
       normalize_skills_list init raw_a [] = Ok o1
       /\ normalize_skills_list init raw_b [] = Ok o2
       /\ (forall c, In c (map canonical_name o1)
                     <-> In c (map canonical_name o2))
       /\ output_ok [] raw_a o1 /\ output_ok [] raw_b o2.
Proof.
  assert (same_raw_set raw_a raw_b) as S.
  { intros s N. unfold raw_a, raw_b. simpl.
    split; intros H; repeat destruct H as [H|H]; subst; auto 10; try easy. }
  assert (Forall (fun s => is_ascii s = true) raw_a) as A
    by (repeat constructor).
  assert (Forall (fun s => length (strip s) <= 100) raw_a) as F
    by (repeat constructor; vm_compute; lia).
  split; [exact S|]. split; [exact A|]. split; [exact F|].
  destruct (C3_normalize_skills_list [] S (proj1 (Forall_forall _ _) A))
    as (O & _ & T).
  split; [exact O|]. apply T. apply Forall_forall. exact F.
Defined.

(** C3 as stated fails in two ways.  On a list with a long raw skill the
    call raises the schema's [ValidationError] and produces no output.
    And once the alias "fb" of a new skill "FooBar" was added with
    [add_custom_alias], the lists ["fb", "foobar"] and ["foobar", "fb"]
    give the canonical names ["FooBar"] and ["Foobar"]. *)
Lemma C3_counterexample :
  (same_raw_set [long_python] [long_python]
   /\ normalize_skills_list init [long_python] []
      = Raise (ValidationError
                 "name: String should have at most 100 characters"))
  /\ (same_raw_set (map u ["fb"; "foobar"]) (map u ["foobar"; "fb"])
      /\ exists o1 o2,
           normalize_skills_list foobar_normalizer
                                 (map u ["fb"; "foobar"]) [] = Ok o1
           /\ normalize_skills_list foobar_normalizer
                                    (map u ["foobar"; "fb"]) [] = Ok o2
           /\ map canonical_name o1 = [u "FooBar"]
           /\ map canonical_name o2 = [u "Foobar"]).
Proof.
  split; [split; [intros s _; tauto|vm_compute; reflexivity]|].
  split.
  - intros s _. simpl. tauto.
  - do 2 eexists. repeat split; vm_compute; reflexivity.
Qed.

(** ["Python3", "py", "ReactJS", "Unknown Widget Tool"] gives React and
    Python with confidence 0.95 and the unknown skill with 0.7. *)
Example skills_end_to_end :
  option_map (map (fun e => (canonical_name e, confidence_score e)))
             (match normalize_skills_list init raw_a [] with
              | Ok o => Some o | Raise _ => None end)
  = Some [(u "React", 0.95%float); (u "Unknown Widget Tool", 0.7%float);
          (u "Python", 0.95%float)].
Proof. vm_compute. reflexivity. Qed.

End SkillsFacts.

(* ================================================================== *)
(** * The confidence scores *)
(* ================================================================== *)

Lemma docx_score_of_presence (e : extracted) :
  Docx._calculate_confidence_score e
  = fmin (weighted_sum (combine (presence e) docx_weights)) 1.0.
Proof. reflexivity. Qed.

Lemma pdf_score_of_presence (e : extracted) :
  Pdf._calculate_confidence_score e
  = fmin (weighted_sum (combine (presence e) pdf_weights) * 0.8)%float 0.8.
Proof. reflexivity. Qed.

(** The presence pattern is a list of five booleans. *)
Lemma presence_cases (e : extracted) :
  exists a b c d f, presence e = [a; b; c; d; f].
Proof. unfold presence; eauto 6. Qed.

(** C9: the DOCX score is the sum of the weights 0.2, 0.1, 0.3, 0.2, 0.2
    of the present items (e-mail, summary, experience, education, skills)
    capped at 1.0; the PDF score is 0.8 times the PDF extractor's own
    weighted sum (weights 0.15, 0.1, 0.2, 0.15, 0.1), capped at 0.8, and
    always strictly below 1.0. *)
Theorem C9_confidence_scores (e : extracted) :
  Docx._calculate_confidence_score e
    = fmin (weighted_sum (combine (presence e) docx_weights)) 1.0
  /\ PrimFloat.leb (Docx._calculate_confidence_score e) 1.0 = true
  /\ Pdf._calculate_confidence_score e
    = fmin (weighted_sum (combine (presence e) pdf_weights) * 0.8)%float 0.8
  /\ PrimFloat.leb (Pdf._calculate_confidence_score e) 0.8 = true
  /\ PrimFloat.ltb (Pdf._calculate_confidence_score e) 1.0 = true.
Proof.
  rewrite docx_score_of_presence, pdf_score_of_presence.
  destruct (presence_cases e) as (a & b & c & d & f & ->).
  destruct a, b, c, d, f; vm_compute; repeat split; reflexivity.
Qed.

(* ================================================================== *)
(** * The extractors *)
(* ================================================================== *)

Section ExtractFacts.

Lemma dict_get_set_same (V : Type) k (v : V) d :
  dict_get k (dict_set k v d) = Some v.
Proof.
  induction d as [|[k' v'] d IH]; simpl.
  - now rewrite streq_refl.
  - destruct (streq k k') eqn:E; simpl; rewrite ?streq_refl, ?E; auto.
Qed.

Lemma dict_get_set_other (V : Type) k k' (v : V) d :
  k' <> k -> dict_get k' (dict_set k v d) = dict_get k' d.
Proof.
  intro N. induction d as [|[k2 v2] d IH]; simpl.
  - destruct (streq k' k) eqn:E; [apply streq_iff in E; congruence|reflexivity].
  - destruct (streq k k2) eqn:E; simpl.
    + apply streq_iff in E. subst.
      destruct (streq k' k2) eqn:E2; [apply streq_iff in E2; congruence|].
      reflexivity.
    + destruct (streq k' k2); auto.
Qed.

Lemma dict_mem_set (V : Type) k k' (v : V) d :
  dict_mem k' d = true -> dict_mem k' (dict_set k v d) = true.
Proof.
  unfold dict_mem. intro H.
  destruct (list_eq_dec N.eq_dec k' k) as [->|N].
  - now rewrite dict_get_set_same.
  - now rewrite dict_get_set_other.
Qed.

Lemma assigned_append sections cur i sec j :
  assigned sections sec j -> assigned (Docx.append_to sections cur i) sec j.
Proof.
  intros (l & G & I). unfold Docx.append_to.
  destruct (dict_get cur sections) as [l'|] eqn:C; [|exists l; auto].
  destruct (list_eq_dec N.eq_dec sec cur) as [->|N].
  - exists (l' ++ [i]). rewrite dict_get_set_same. split; [reflexivity|].
    apply in_or_app. left. congruence.
  - exists l. now rewrite dict_get_set_other.
Qed.

Lemma assigned_append_here sections cur i :
  dict_mem cur sections = true ->
  assigned (Docx.append_to sections cur i) cur i.
Proof.
  unfold dict_mem, Docx.append_to.
  destruct (dict_get cur sections) as [l|]; [|discriminate]. intros _.
  exists (l ++ [i]). rewrite dict_get_set_same. split; [reflexivity|].
  apply in_or_app. right. now left.
Qed.

Lemma assigned_open sections cur sec j :
  assigned sections sec j -> assigned (Docx.open_section sections cur) sec j.
Proof.
  intros (l & G & I). unfold Docx.open_section.
  destruct (dict_mem cur sections) eqn:M; [exists l; auto|].
  exists l. split; [|assumption].
  rewrite dict_get_set_other; [assumption|].
  intros ->. unfold dict_mem in M. now rewrite G in M.
Qed.

Lemma mem_open sections cur :
  dict_mem cur (Docx.open_section sections cur) = true.
Proof.
  unfold Docx.open_section. destruct (dict_mem cur sections) eqn:M;
    [assumption|].
  unfold dict_mem. now rewrite dict_get_set_same.
Qed.

Lemma mem_append sections cur i k :
  dict_mem k sections = true ->
  dict_mem k (Docx.append_to sections cur i) = true.
Proof.
  intro M. unfold Docx.append_to.
  destruct (dict_get cur sections); [now apply dict_mem_set|assumption].
Qed.

(** *** The DOCX scan *)

Lemma docx_step_ok st p : cursor_ok st -> cursor_ok (Docx.scan_step st p).
Proof.
  destruct st as [sections [cur|]]; unfold cursor_ok, Docx.scan_step; simpl;
    intro H; destruct (Docx.header_of p); simpl;
    auto using mem_open, mem_append.
Qed.

Lemma docx_fold_ok l : forall st,
  cursor_ok st -> cursor_ok (fold_left Docx.scan_step l st).
Proof.
  induction l as [|p l IH]; intros st H; simpl; [assumption|].
  apply IH. now apply docx_step_ok.
Qed.

Lemma docx_step_keeps st p sec j :
  assigned (fst st) sec j -> assigned (fst (Docx.scan_step st p)) sec j.
Proof.
  destruct st as [sections [cur|]]; unfold Docx.scan_step; simpl;
    intro H; destruct (Docx.header_of p); simpl;
    auto using assigned_open, assigned_append.
Qed.

Lemma docx_fold_keeps l sec j : forall st,
  assigned (fst st) sec j -> assigned (fst (fold_left Docx.scan_step l st)) sec j.
Proof.
  induction l as [|p l IH]; intros st H; simpl; [assumption|].
  apply IH. now apply docx_step_keeps.
Qed.

(** Units before the first header belong to no section. *)
Lemma docx_before_first_header l :
  (forall p, In p l -> Docx.header_of p = None) ->
  fold_left Docx.scan_step l ([], None) = ([], None).
Proof.
  induction l as [|p l IH]; intro H; simpl; [reflexivity|].
  rewrite (H p) by now left.
  apply IH. intros q I. apply H. now right.
Qed.

(** Once a section is open, every non-header unit is appended to it,
    the last unit of the document included. *)
Lemma docx_scan_appends l1 p l2 sections cur :
  fold_left Docx.scan_step l1 ([], None) = (sections, Some cur) ->
  Docx.header_of p = None ->
  assigned (Docx._detect_sections (l1 ++ p :: l2)) cur (Docx.index p).
Proof.
  intros F H. unfold Docx._detect_sections.
  rewrite fold_left_app, F. simpl.
  apply docx_fold_keeps. unfold Docx.scan_step. rewrite H. simpl.
  apply assigned_append_here.
  pose proof (docx_fold_ok l1 ([], None) eq_refl) as O.
  rewrite F in O. exact O.
Qed.

(** *** The PDF scan *)

Lemma combine_seq_snoc (A : Type) (l : list A) (x : A) : forall a,
  combine (seq a (length (l ++ [x]))) (l ++ [x])
  = combine (seq a (length l)) l ++ [(a + length l, x)].
Proof.
  induction l as [|y l IH]; intro a; simpl.
  - now rewrite Nat.add_0_r.
  - rewrite IH. now rewrite Nat.add_succ_r.
Qed.

Lemma enumerate_snoc (A : Type) (l : list A) (x : A) :
  Pdf.enumerate (l ++ [x]) = Pdf.enumerate l ++ [(length l, x)].
Proof. unfold Pdf.enumerate. now rewrite combine_seq_snoc. Qed.

(** The last line of the text, when it is no header, leaves the section
    map as it was: it is assigned to no section. *)
Lemma pdf_last_line_dropped l x :
  Pdf.header_of x = None ->
  Pdf._detect_sections_heuristic (l ++ [x])
  = fst (fold_left (Pdf.scan_step (length l + 1)) (Pdf.enumerate l) ([], None)).
Proof.
  intro H. unfold Pdf._detect_sections_heuristic.
  rewrite enumerate_snoc, fold_left_app, length_app. simpl.
  destruct (fold_left _ _ _) as [sections [cur|]];
    unfold Pdf.scan_step; rewrite H; [|reflexivity].
  replace (length l <? length l + 1 - 1) with false; [reflexivity|].
  symmetry. apply Nat.ltb_ge. lia.
Qed.

(** C6: on a header followed by two content lines the PDF scan assigns
    only the first content line to the section, while the DOCX scan of
    the same three units assigns both: the PDF scan leaves out the last
    unit of the document. *)
Theorem C6_pdf_scan_drops_last_unit :
  Pdf._detect_sections_heuristic three_lines = [(u "skills", [1])]
  /\ Docx._detect_sections three_paragraphs = [(u "skills", [1; 2])].
Proof. split; vm_compute; reflexivity. Qed.

(** C8: the experience lines of the example parse into one entry with
    title "Senior Engineer", company "Acme Corp", a duration holding
    "2020" and "2023", and the two responsibilities without their
    bullets. *)
Theorem C8_experience_entry :
  exists e,
    Docx._extract_experience (join nl c8_lines) = [e]
    /\ Docx._parse_experience_entry (join nl c8_lines) = Some e
    /\ exp_title e = u "Senior Engineer"
    /\ exp_company e = u "Acme Corp"
    /\ contains (u "2020") (exp_duration e) = true
    /\ (contains (u "2023") (exp_duration e) = true
        \/ contains (u "present") (exp_duration e) = true)
    /\ exp_responsibilities e = map u ["Led migration"; "Mentored team"].
Proof.
  eexists. split; [vm_compute; reflexivity|].
  repeat split; try (vm_compute; reflexivity). left. vm_compute. reflexivity.
Qed.

Import Pdf.

Lemma capped_empty : capped empty_extracted.
Proof. unfold capped; simpl; lia. Qed.

Lemma capped_add_warning e w : capped e -> capped (add_warning e w).
Proof. auto. Qed.

Lemma capped_set_contact e c : capped e -> capped (set_contact e c).
Proof. auto. Qed.

Lemma capped_process_section lines e kv :
  capped e -> capped (process_section lines e kv).
Proof.
  intros (H1 & H2 & H3 & H4). destruct kv as [section_name line_indices].
  unfold process_section, capped.
  repeat match goal with
         | |- context [if ?c then _ else _] => destruct c
         end; simpl; repeat split; try assumption;
    apply firstn_le_length.
Qed.

Lemma capped_fold lines sections : forall e,
  capped e -> capped (fold_left (process_section lines) sections e).
Proof.
  induction sections as [|kv sections IH]; intros e H; simpl; [assumption|].
  apply IH. now apply capped_process_section.
Qed.

Lemma capped_set_skills e x :
  capped e -> length x <= 20 -> capped (set_skills e x).
Proof. intros (H1 & H2 & H3 & H4) L. repeat split; assumption. Qed.

Lemma capped_full_text t e : capped e -> capped (_extract_from_full_text t e).
Proof.
  intros H. unfold _extract_from_full_text. cbv zeta.
  apply capped_add_warning.
  match goal with
  | |- capped (match skills ?x with _ => _ end) =>
      assert (capped x) as H1
        by (destruct (contact e); [apply capped_set_contact|]; exact H);
      generalize dependent x; intros e1 H1
  end.
  destruct (skills e1); [|exact H1].
  apply capped_set_skills; [exact H1|].
  etransitivity; [apply firstn_le_length|lia].
Qed.

Lemma capped_process_text t : capped (_process_text_content t).
Proof.
  unfold _process_text_content. destruct (strip t).
  - apply capped_add_warning, capped_empty.
  - match goal with
    | |- capped (if ?c then _ else _) => destruct c
    end.
    + apply capped_fold, capped_set_contact, capped_empty.
    + apply capped_full_text, capped_add_warning, capped_fold,
        capped_set_contact, capped_empty.
Qed.

(** C10: for every text the PDF extractor returns at most 10 experience
    entries, 5 education entries, 20 skills and 5 projects, from the
    section extractors and from the whole pipeline; each cap is met by an
    input with more candidates. *)
Theorem C10_pdf_caps (t : pystr) :
  (length (_extract_experience_heuristic t) <= 10
   /\ length (_extract_education_heuristic t) <= 5
   /\ length (_extract_skills_heuristic t) <= 20
   /\ length (_extract_projects_heuristic t) <= 5)
  /\ capped (_process_text_content t)
  /\ (length (_extract_experience_heuristic (many_paragraphs 12)) = 10
      /\ length (_extract_education_heuristic (many_schools 7)) = 5
      /\ length (_extract_skills_heuristic (many_skills 25)) = 20
      /\ length (_extract_projects_heuristic (many_paragraphs 12)) = 5).
Proof.
  split; [|split].
  - repeat split; apply firstn_le_length.
  - apply capped_process_text.
  - repeat split; vm_compute; reflexivity.
Qed.

End ExtractFacts.

(* ================================================================== *)
(** * The extraction router *)
(* ================================================================== *)

Section ParserFacts.

Import Parser.

Lemma detect_file_type_eq w p :
  _detect_file_type w p
  = match by_extension p with
    | Some t => t
    | None => by_mime (guess_type w p)
    end.
Proof.
  unfold _detect_file_type, by_extension, by_mime.
  destruct (streq _ (u ".docx")); [reflexivity|].
  destruct (streq _ (u ".pdf")); [reflexivity|].
  destruct (streq _ (u ".txt") || streq _ (u ".text")); [reflexivity|].
  destruct (guess_type w p) as [m|]; [|reflexivity].
  destruct m; simpl; reflexivity.
Qed.

Lemma route_raises w p job e :
  route w (_detect_file_type w p) p job = Raise e <-> extractor_raises w p job e.
Proof.
  unfold route, extractor_raises. split.
  - destruct (streq (_detect_file_type w p) (u "docx")) eqn:D.
    + apply streq_iff in D.
      destruct (docx_extract w p job); simpl; [discriminate|].
      intro H. inversion H. auto.
    + destruct (streq (_detect_file_type w p) (u "pdf")) eqn:P.
      * apply streq_iff in P.
        destruct (pdf_extract w p job); simpl; [discriminate|].
        intro H. inversion H. auto.
      * destruct (streq _ (u "txt")); discriminate.
  - intros [[T R]|[T R]]; rewrite T; simpl; rewrite R; reflexivity.
Qed.

Lemma route_unsupported w t p job :
  supported t = false -> route w t p job = Ok Unsupported.
Proof.
  unfold supported, route. intro H.
  apply orb_false_iff in H. destruct H as [H T].
  apply orb_false_iff in H. destruct H as [D P].
  now rewrite D, P, T.
Qed.

(** C7: [parse_resume] always returns a response; an unsupported file
    type gives a failed response; when the chosen extractor raises, the
    exception is caught, the failure is recorded in the metrics with the
    kind of the exception and the elapsed time, and a failed response
    carrying kind and text is returned; the file type is the one of the
    extension when it is known and the one of the guessed MIME type
    otherwise. *)
Theorem C7_parse_resume (w : world) (resume_id file_path job : option pystr)
        (c : collector) :
  let out := parse_resume w resume_id file_path job c in
  (exists r, fst out = Ok r)
  /\ (forall p,
        resolve_path w resume_id file_path = Ok (Some p) ->
        exists_ w p = true ->
        supported (_detect_file_type w p) = false ->
        exists r, fst out = Ok r /\ status r = u "failed"
                  /\ error r = Some (u "Unsupported file type: "
                                     ++ _detect_file_type w p))
  /\ (forall p e,
        resolve_path w resume_id file_path = Ok (Some p) ->
        exists_ w p = true ->
        extractor_raises w p (job_of w job) e ->
        exists r, out = (Ok r, failure_reported w resume_id p e c)
                  /\ status r = u "failed"
                  /\ error r = Some (exn_kind e ++ u ": " ++ exn_msg e))
  /\ (forall p, _detect_file_type w p
                = match by_extension p with
                  | Some t => t
                  | None => by_mime (guess_type w p)
                  end).
Proof.
  cbv zeta. split; [|split; [|split]].
  - unfold parse_resume.
    destruct (resolve_path w resume_id file_path) as [[p|]|e]; simpl; eauto.
    destruct (exists_ w p); simpl; eauto.
    destruct (route w _ p _) as [[r|]|e]; simpl; eauto.
    destruct (finish w r) as [[r' [[a b] d]]|e]; simpl; eauto.
  - intros p R E U. unfold parse_resume. rewrite R, E. simpl.
    rewrite route_unsupported by exact U. simpl. eauto.
  - intros p e R E X. apply route_raises in X.
    unfold parse_resume. rewrite R, E. simpl. rewrite X. simpl.
    eexists. split; [reflexivity|]. split; reflexivity.
  - apply detect_file_type_eq.
Qed.

(** The hypotheses of C7 hold in a world whose PDF extractor raises, for
    a PDF file and for a file of unknown type. *)
Lemma C7_witness :
  (exists r,
      fst (parse_resume failing_world None (Some (u "/data/cv.pdf")) None [])
      = Ok r
      /\ status r = u "failed"
      /\ error r = Some (u "PDFSyntaxError: No /Root object"))
  /\ (exists r,
         fst (parse_resume failing_world None (Some (u "/data/cv.xyz")) None [])
         = Ok r
         /\ status r = u "failed"
         /\ error r = Some (u "Unsupported file type: unknown")).
Proof.
  split.
  - pose proof (C7_parse_resume failing_world None (Some (u "/data/cv.pdf"))
                                None []) as H.
    cbv zeta in H. destruct H as (_ & _ & F & _).
    destruct (F (u "/data/cv.pdf")
                {| exn_kind := u "PDFSyntaxError";
                   exn_msg := u "No /Root object" |})
      as (r & E & S & M).
    + reflexivity.
    + reflexivity.
    + right. split; vm_compute; reflexivity.
    + exists r. rewrite E. repeat split; assumption.
  - pose proof (C7_parse_resume failing_world None (Some (u "/data/cv.xyz"))
                                None []) as H.
    cbv zeta in H. destruct H as (_ & U & _).
    destruct (U (u "/data/cv.xyz")) as (r & E & S & M).
    + reflexivity.
    + reflexivity.
    + vm_compute. reflexivity.
    + exists r. repeat split; assumption.
Defined.

(** In a world whose PDF extractor raises, the job fails with the kind
    and text of the exception and the failure is in the metrics. *)
Example parse_resume_extractor_failure :
  let out := parse_resume failing_world None (Some (u "/data/cv.pdf")) None [] in
  option_map status (match fst out with Ok r => Some r | Raise _ => None end)
  = Some (u "failed")
  /\ option_map error (match fst out with Ok r => Some r | Raise _ => None end)
     = Some (Some (u "PDFSyntaxError: No /Root object"))
  /\ map metric_type (snd out) = [UPLOAD_SIZE; PARSE_FAILURE; PARSE_DURATION]
  /\ map (fun ev => dict_get (u "error_type") (labels ev)) (snd out)
     = [None; Some (u "PDFSyntaxError"); None]
  /\ map value (snd out) = [VInt 2048; VFloat 1; VFloat 250].
Proof. cbv zeta. repeat split; vm_compute; reflexivity. Qed.

End ParserFacts.

(* ================================================================== *)
(** * The profile validator: privacy, versions, lenient mode *)
(* ================================================================== *)

Section ValidatorFacts.

Import Schema Validator.

(** [validate] on a model is the named loop. *)
Lemma validate_model name fields d :
  validate (TModel name fields) (VDict d) = model_errors d fields.
Proof. reflexivity. Qed.

Lemma model_errors_cons d fname required ft fs :
  model_errors d ((fname, (required, ft)) :: fs)
  = field_errs d fname required ft ++ model_errors d fs.
Proof. reflexivity. Qed.

(** An error of a model comes from one of its fields. *)
Lemma model_errors_in d fs e :
  In e (model_errors d fs) <->
  exists fname required ft,
    In (fname, (required, ft)) fs /\ In e (field_errs d fname required ft).
Proof.
  induction fs as [|[fname [required ft]] fs IH].
  - simpl. split; [intros []|intros (? & ? & ? & [] & _)].
  - rewrite model_errors_cons, in_app_iff, IH. split.
    + intros [H|(f & r & t & I & H)].
      * exists fname, required, ft. split; [now left|assumption].
      * exists f, r, t. split; [now right|assumption].
    + intros (f & r & t & [E|I] & H).
      * inversion E; subst. now left.
      * right. exists f, r, t. auto.
Qed.

(** The errors of a field are located under its name. *)
Lemma under_loc i es e : In e (under i es) -> exists rest, loc e = i :: rest.
Proof.
  unfold under. rewrite in_map_iff. intros (x & <- & _). simpl. eauto.
Qed.

Lemma field_errs_loc d fname required ft e :
  In e (field_errs d fname required ft) -> exists rest, loc e = LKey fname :: rest.
Proof.
  unfold field_errs. destruct (dict_get fname d).
  - apply under_loc.
  - destruct required; [|intros []]. intros [<-|[]]. simpl. eauto.
Qed.

(** Deleting a key leaves the other keys alone. *)
Lemma dict_get_del_other (V : Type) k f (d : dict V) :
  k <> f -> dict_get k (dict_del f d) = dict_get k d.
Proof.
  intro N. unfold dict_del. induction d as [|[k' v] d IH]; simpl; [reflexivity|].
  destruct (streq f k') eqn:E; simpl.
  - apply streq_iff in E. subst.
    destruct (streq k k') eqn:E2; [apply streq_iff in E2; congruence|].
    assumption.
  - destruct (streq k k'); [reflexivity|assumption].
Qed.

Lemma dict_get_del_same (V : Type) f (d : dict V) :
  dict_get f (dict_del f d) = None.
Proof.
  unfold dict_del. induction d as [|[k' v] d IH]; simpl; [reflexivity|].
  destruct (streq f k') eqn:E; simpl; [assumption|]. now rewrite E.
Qed.

(** ** The instance *)

(** The value of a field of the instance: the given one, else the default. *)
Lemma instance_get_gen now d k fs :
  dict_get k
    (flat_map (fun f : pystr * (bool * ftype) =>
                 match dict_get (fst f) d with
                 | Some v => [(fst f, v)]
                 | None =>
                     match dict_get (fst f) (defaults now) with
                     | Some v => [(fst f, v)]
                     | None => []
                     end
                 end) fs)
  = if existsb (fun f => streq k (fst f)) fs
    then match dict_get k d with
         | Some v => Some v
         | None => dict_get k (defaults now)
         end
    else None.
Proof.
  induction fs as [|f fs IH]; [reflexivity|].
  cbn [flat_map existsb].
  destruct (streq k (fst f)) eqn:E.
  - apply streq_iff in E. subst k. cbn [orb].
    destruct (dict_get (fst f) d) as [v|] eqn:G.
    + cbn. now rewrite streq_refl.
    + destruct (dict_get (fst f) (defaults now)) as [v|] eqn:D.
      * cbn. now rewrite streq_refl.
      * cbn [app]. rewrite IH. now destruct (existsb _ fs).
  - cbn [orb].
    destruct (dict_get (fst f) d) as [v|].
    + cbn. now rewrite E.
    + destruct (dict_get (fst f) (defaults now)) as [v|].
      * cbn. now rewrite E.
      * exact IH.
Qed.

Lemma instance_additional now d a :
  dict_get (u "additional_sections") d = Some a ->
  dict_get (u "additional_sections") (instance now d) = Some a.
Proof.
  intro H. unfold instance. rewrite instance_get_gen, H. reflexivity.
Qed.

Lemma instance_additional_none now d :
  dict_get (u "additional_sections") d = None ->
  dict_get (u "additional_sections") (instance now d) = Some (VDict []).
Proof.
  intro H. unfold instance. rewrite instance_get_gen, H. reflexivity.
Qed.

Lemma instance_version now d v :
  dict_get (u "schema_version") d = Some v ->
  dict_get (u "schema_version") (instance now d) = Some v.
Proof.
  intro H. unfold instance. rewrite instance_get_gen, H. reflexivity.
Qed.

(** ** The privacy scan *)

(** The scan finds a prohibited key, or one below a dictionary value. *)
Lemma check_items_found path d :
  (exists k v, In (k, v) d
     /\ (is_prohibited k = true
         \/ forall p, check_dict_for_prohibited v p <> None)) ->
  check_dict_for_prohibited (VDict d) path <> None.
Proof.
  induction d as [|[key value] d IH]; intros (k & v & I & H).
  - destruct I.
  - cbn [check_dict_for_prohibited].
    destruct (is_prohibited key) eqn:P; [discriminate|].
    destruct I as [E|I].
    + inversion E; subst. destruct H as [H|H]; [congruence|].
      destruct v; try (exfalso; apply (H []); reflexivity).
      match goal with
      | |- context [check_dict_for_prohibited (VDict ?x) ?p] =>
          specialize (H p); destruct (check_dict_for_prohibited (VDict x) p)
      end; [discriminate|congruence].
    + assert (check_dict_for_prohibited (VDict d) path <> None) as R
        by (apply IH; eauto).
      cbn [check_dict_for_prohibited] in R.
      destruct value; try exact R.
      match goal with
      | |- context [check_dict_for_prohibited (VDict ?x) ?p] =>
          destruct (check_dict_for_prohibited (VDict x) p)
      end; [discriminate|exact R].
Qed.

(** The scan raises on every key reached through dictionaries. *)
Lemma prohibited_found v :
  prohibited_in v -> forall path, check_dict_for_prohibited v path <> None.
Proof.
  induction 1 as [d k v I P|d k v I H IH]; intro path;
    apply check_items_found; eauto.
Qed.

(** A key reached through dictionaries is a key at some depth. *)
Lemma has_key_item d k v :
  In (k, v) d ->
  is_prohibited k = true \/ has_prohibited_key v = true ->
  has_prohibited_key (VDict d) = true.
Proof.
  induction d as [|[k' v'] d IH]; intros I H; [destruct I|].
  cbn [has_prohibited_key]. destruct I as [E|I].
  - inversion E; subst. destruct H as [-> | ->];
      rewrite ?orb_true_r; reflexivity.
  - apply IH in I; [|exact H]. cbn [has_prohibited_key] in I.
    rewrite I. apply orb_true_r.
Qed.

Lemma prohibited_in_has_key v :
  prohibited_in v -> has_prohibited_key v = true.
Proof.
  induction 1 as [d k v I P|d k v I H IH];
    eapply has_key_item; eauto.
Qed.

(** The scan does not look into a list. *)
Lemma scan_skips_lists k l path :
  is_prohibited k = false ->
  check_dict_for_prohibited (VDict [(k, VList l)]) path = None.
Proof. intro H. cbn [check_dict_for_prohibited]. now rewrite H. Qed.

(** ** The field stage *)

(** The errors of the field stage, field by field. *)
Lemma field_errors_in d e :
  In e (field_errors d) <->
  exists fname required ft,
    In (fname, (required, ft)) profile_fields
    /\ In e (field_errs d fname required ft).
Proof. unfold field_errors, ProfileJSONSchema. rewrite validate_model.
  apply model_errors_in. Qed.

Ltac field_cases H :=
  unfold profile_fields, fld in H; simpl In in H;
  repeat destruct H as [H|H]; try contradiction.

(** The declared type of [additional_sections]. *)
Lemma additional_field required ft :
  In (u "additional_sections", (required, ft)) profile_fields ->
  ft = TOptional (TDict TAny).
Proof.
  intro H. field_cases H;
    first [ exfalso; apply (f_equal fst) in H; vm_compute in H; discriminate H
          | injection H as _ <-; reflexivity ].
Qed.

(** Only the three fields without default are required. *)
Lemma optional_field f required ft :
  In (f, (required, ft)) profile_fields ->
  required_field f = false -> required = false.
Proof.
  intros H R. field_cases H;
    injection H as <- <- _; first [reflexivity | vm_compute in R; discriminate R].
Qed.

(** A dictionary is always a valid [Optional[Dict[str, Any]]]. *)
Lemma validate_any_dict a : validate (TOptional (TDict TAny)) (VDict a) = [].
Proof.
  simpl. induction a as [|kv a IH]; [reflexivity|]. simpl. exact IH.
Qed.

(** No field error is located at a dictionary [additional_sections]. *)
Lemma additional_no_error d a e :
  dict_get (u "additional_sections") d = Some (VDict a) ->
  In e (field_errors d) -> loc e <> [LKey (u "additional_sections")].
Proof.
  intros G I E. apply field_errors_in in I.
  destruct I as (fname & required & ft & F & I).
  destruct (field_errs_loc _ _ _ _ _ I) as [rest L].
  rewrite E in L. injection L as L _. subst fname.
  apply additional_field in F. subst ft.
  unfold field_errs in I. rewrite G, validate_any_dict in I. exact I.
Qed.

(** ** Cleaning *)

(** Cleaning keeps the fields that no error is located at. *)
Lemma clean_keeps k es d :
  (forall e, In e es -> loc e <> [LKey k]) ->
  dict_get k (_clean_invalid_fields d es) = dict_get k d.
Proof.
  unfold _clean_invalid_fields. revert d.
  induction es as [|e es IH]; intros d H; [reflexivity|].
  cbn [fold_left]. rewrite IH by (intros; apply H; now right).
  assert (loc e <> [LKey k]) as N by (apply H; now left).
  destruct (loc e) as [|[f|n] [|]]; try reflexivity.
  apply dict_get_del_other. congruence.
Qed.

Lemma dict_get_del_cases (V : Type) k f (d : dict V) :
  dict_get k (dict_del f d) = dict_get k d \/ dict_get k (dict_del f d) = None.
Proof.
  unfold dict_del. induction d as [|[k' v] d IH]; simpl; [now left|].
  destruct (streq f k') eqn:E; simpl.
  - destruct IH as [IH|IH]; [|now right].
    destruct (streq k k') eqn:E2; [|now left].
    apply streq_iff in E. apply streq_iff in E2. subst.
    right. apply dict_get_del_same.
  - destruct (streq k k'); [now left|exact IH].
Qed.

(** Cleaning keeps a field or removes it. *)
Lemma clean_get_cases k es d :
  dict_get k (_clean_invalid_fields d es) = dict_get k d
  \/ dict_get k (_clean_invalid_fields d es) = None.
Proof.
  unfold _clean_invalid_fields. revert d.
  induction es as [|e es IH]; intros d; [now left|].
  cbn [fold_left].
  destruct (loc e) as [|[f|n] [|]]; try apply IH.
  destruct (IH (dict_del f d)) as [-> | ->]; [|now right].
  apply dict_get_del_cases.
Qed.

(** ** The constructor *)

(** The model validator raises on a prohibited key. *)
Lemma privacy_check_found now d a :
  dict_get (u "additional_sections") d = Some (VDict a) ->
  prohibited_in (VDict a) ->
  exists p, privacy_compliance_check (instance now d)
            = Some (u "Prohibited derived PII field detected: " ++ p).
Proof.
  intros G P. unfold privacy_compliance_check.
  rewrite (instance_additional now _ G).
  assert (truthy (VDict a) = true) as T
    by (inversion P as [d' k v I _|d' k v I _]; subst;
        (destruct a; [destruct I|reflexivity])).
  assert (py_or (VDict a) (VDict []) = VDict a) as ->
    by (unfold py_or; now rewrite T).
  rewrite T.
  pose proof (prohibited_found P (u "additional_sections")) as F.
  destruct (check_dict_for_prohibited _ _) as [p|]; [eauto|congruence].
Qed.

(** The constructor fails on a prohibited key, and with the privacy error
    when the fields validate. *)
Lemma construct_rejects now d a :
  dict_get (u "additional_sections") d = Some (VDict a) ->
  prohibited_in (VDict a) ->
  exists es, construct now d = inr es
    /\ (forall e, In e es -> loc e <> [LKey (u "additional_sections")])
    /\ (field_errors d = [] -> exists p, es = [privacy_error p]).
Proof.
  intros G P. unfold construct.
  destruct (field_errors d) as [|e es] eqn:F.
  - destruct (privacy_check_found now _ G P) as [p ->].
    eexists. split; [reflexivity|]. split.
    + intros e [<-|[]]. discriminate.
    + intros _. exists p. reflexivity.
  - eexists. split; [reflexivity|]. split.
    + intros e' I. apply additional_no_error with (d := d) (a := a); [exact G|].
      now rewrite F.
    + discriminate.
Qed.

(** ** Texts *)

Lemma startswith_app p s : startswith p (p ++ s) = true.
Proof.
  induction p as [|c p IH]; [reflexivity|]. simpl. now rewrite N.eqb_refl.
Qed.

Lemma contains_app p a b : contains p (a ++ p ++ b) = true.
Proof.
  induction a as [|c a IH]; simpl.
  - destruct (p ++ b) eqn:E; simpl; rewrite <- E, startswith_app; reflexivity.
  - rewrite IH. apply orb_true_r.
Qed.

(** The error text of the privacy error names the violation. *)
Lemma privacy_error_mentioned p :
  mentions_privacy (error_msg (privacy_error p)) = true.
Proof.
  unfold mentions_privacy.
  assert (error_msg (privacy_error p)
          = u "Field '': Value error, "
            ++ u "Prohibited derived PII field detected" ++ (u ": " ++ p))
    as -> by reflexivity.
  apply contains_app.
Qed.

(** ** The version stage *)

(** The version stage touches [schema_version] only. *)
Lemma check_version_keeps iso d strict d' es ws k :
  k <> u "schema_version" ->
  check_version iso d strict = Proceed d' es ws ->
  dict_get k d' = dict_get k d.
Proof.
  intros N. unfold check_version, migrate_profile_schema.
  destruct (dict_get (u "schema_version") d) as [cv|] eqn:G.
  - destruct (truthy cv) eqn:T; cbn [negb].
    + destruct cv; try discriminate.
      destruct (streq s PROFILE_SCHEMA_VERSION); [congruence|].
      destruct (is_schema_compatible s PROFILE_SCHEMA_VERSION).
      * cbn [negb]. intros [= <- _ _].
        now apply dict_get_set_other.
      * destruct strict; [discriminate|congruence].
    + intros [= <- _ _]. now apply dict_get_set_other.
  - cbn [truthy negb]. intros [= <- _ _]. now apply dict_get_set_other.
Qed.

(** The result is invalid when the constructor fails on the data and on
    the cleaned data. *)
Lemma validate_profile_invalid now iso d strict :
  (forall d' es ws, check_version iso d strict = Proceed d' es ws ->
     exists errs, construct now d' = inr errs
       /\ exists errs', construct now (_clean_invalid_fields d' errs)
                        = inr errs') ->
  is_valid (validate_profile now iso d strict) = false
  /\ profile (validate_profile now iso d strict) = None.
Proof.
  intro H. unfold validate_profile.
  destruct (check_version iso d strict) as [d' es ws| |]; [|split; reflexivity..].
  destruct (H d' es ws eq_refl) as (errs & -> & errs' & ->).
  destruct strict; split; reflexivity.
Qed.

Lemma additional_kept iso d strict d' es ws v :
  check_version iso d strict = Proceed d' es ws ->
  dict_get (u "additional_sections") d = Some v ->
  dict_get (u "additional_sections") d' = Some v.
Proof.
  intros V G. rewrite <- G. eapply check_version_keeps; [|exact V].
  discriminate.
Qed.

(** A successful [bind] comes from two successes. *)
Lemma bind_ok (A B : Type) (m : result A) (f : A -> result B) y :
  bind m f = Ok y -> exists x, m = Ok x /\ f x = Ok y.
Proof. destruct m; simpl; [eauto|discriminate]. Qed.

(** The transformation writes no [additional_sections]. *)
Lemma transform_no_additional now py_str pr out :
  _transform_parser_output now py_str pr = Ok out ->
  dict_get (u "additional_sections") out = None.
Proof.
  unfold _transform_parser_output. intro H.
  repeat (apply bind_ok in H; destruct H as (? & _ & H)).
  injection H as <-. reflexivity.
Qed.

(** C1, privacy invariant, for prohibited keys reached through nested
    dictionaries.  For every profile dictionary whose [additional_sections]
    is a dictionary holding a key named age, gender, race, nationality or
    marital_status (in any letter case) at any depth of nested
    dictionaries, [validate_profile] returns an invalid result without
    profile, in strict and in lenient mode; when the version stage lets
    the data through and the fields validate, one of the reported errors
    names the privacy violation; and every dictionary produced by
    [_transform_parser_output] has no [additional_sections] entry at all,
    so that the privacy check of its instance finds nothing. *)
Theorem C1_privacy_invariant (now : Z) (iso : pystr) (d a : dict pyval)
        (strict : bool) :
  dict_get (u "additional_sections") d = Some (VDict a) ->
  prohibited_in (VDict a) ->
  let r := validate_profile now iso d strict in
  (is_valid r = false /\ profile r = None)
  /\ (forall d' es ws,
        check_version iso d strict = Proceed d' es ws ->
        field_errors d' = [] ->
        existsb mentions_privacy (errors r) = true)
  /\ (forall py_str pr out,
        _transform_parser_output now py_str pr = Ok out ->
        dict_get (u "additional_sections") out = None
        /\ privacy_compliance_check (instance now out) = None).
Proof.
  intros G P r. split; [|split].
  - apply validate_profile_invalid. intros d' es ws V.
    assert (dict_get (u "additional_sections") d' = Some (VDict a)) as G'
      by (eapply additional_kept; eassumption).
    destruct (construct_rejects now _ G' P) as (errs & C & L & _).
    exists errs. split; [exact C|].
    assert (dict_get (u "additional_sections") (_clean_invalid_fields d' errs)
            = Some (VDict a)) as G2
      by (rewrite clean_keeps by exact L; exact G').
    destruct (construct_rejects now _ G2 P) as (errs' & C' & _).
    eauto.
  - intros d' es ws V F. subst r. unfold validate_profile. rewrite V.
    assert (dict_get (u "additional_sections") d' = Some (VDict a)) as G'
      by (eapply additional_kept; eassumption).
    destruct (construct_rejects now _ G' P) as (errs & C & _ & E).
    destruct (E F) as [p ->]. rewrite C.
    assert (existsb mentions_privacy (es ++ map error_msg [privacy_error p])
            = true) as M.
    { rewrite existsb_app. cbn [map existsb].
      rewrite privacy_error_mentioned. apply orb_true_r. }
    destruct strict; cbn [negb].
    + exact M.
    + assert (dict_get (u "additional_sections")
                (_clean_invalid_fields d' [privacy_error p])
              = Some (VDict a)) as G3 by exact G'.
      destruct (construct_rejects now _ G3 P) as (e3 & -> & _).
      cbn [errors]. rewrite existsb_app, M. reflexivity.
  - intros py_str pr out T.
    pose proof (transform_no_additional _ _ _ T) as N.
    split; [exact N|].
    unfold privacy_compliance_check.
    now rewrite (instance_additional_none now _ N).
Qed.

(** The hypotheses of C1 hold for {"personal": {"Age": 30}} added to a
    valid profile: both modes reject it and report the violation. *)
Lemma C1_witness :
  let d := with_additional nested_age current_profile in
  (is_valid (validate_profile 0 [] d true) = false
   /\ profile (validate_profile 0 [] d true) = None
   /\ existsb mentions_privacy (errors (validate_profile 0 [] d true)) = true)
  /\ (is_valid (validate_profile 0 [] d false) = false
      /\ profile (validate_profile 0 [] d false) = None
      /\ existsb mentions_privacy (errors (validate_profile 0 [] d false))
         = true).
Proof.
  intro d.
  assert (dict_get (u "additional_sections") d = Some (VDict nested_age)) as G
    by reflexivity.
  assert (prohibited_in (VDict nested_age)) as P.
  { apply prohibited_deeper with (k := u "personal")
                                 (v := VDict [(u "Age", VInt 30)]).
    - now left.
    - apply prohibited_here with (k := u "Age") (v := VInt 30);
        [now left|reflexivity]. }
  split.
  - destruct (@C1_privacy_invariant 0 [] d nested_age true G P) as ((V & N) & E & _).
    split; [exact V|split; [exact N|]].
    apply (E d [] []); vm_compute; reflexivity.
  - destruct (@C1_privacy_invariant 0 [] d nested_age false G P) as ((V & N) & E & _).
    split; [exact V|split; [exact N|]].
    apply (E d [] []); vm_compute; reflexivity.
Defined.

(** C1 as stated fails in three ways.  A prohibited key inside a list,
    {"references": [{"age": 30}]}, is not found: the profile is valid in
    both modes.  Under [strict] a profile of version 2.0.0 with the key
    "age" is rejected for its version alone, and a profile with a field of
    the wrong type for that field alone: neither reports the privacy
    violation. *)
Lemma C1_counterexample :
  (has_prohibited_key (VDict listed_age) = true
   /\ is_valid (validate_profile 0 []
                  (with_additional listed_age current_profile) true) = true
   /\ is_valid (validate_profile 0 []
                  (with_additional listed_age current_profile) false) = true)
  /\ (has_prohibited_key (VDict top_age) = true
      /\ errors (validate_profile 0 []
                   (with_additional top_age future_profile) true)
         = [u "Incompatible schema version: 2.0.0 (current: 1.0.0)"])
  /\ (errors (validate_profile 0 []
                (with_additional top_age wrong_summary) true)
      = [u "Field 'summary': Input should be a valid dictionary or instance of SummarySchema"]).
Proof. repeat split; vm_compute; reflexivity. Qed.

(** ** Schema versions *)

Lemma version_parts_current :
  version_parts PROFILE_SCHEMA_VERSION = Some [1; 0; 0]%Z.
Proof. vm_compute. reflexivity. Qed.

Lemma version_parts_empty : version_parts [] = None.
Proof. vm_compute. reflexivity. Qed.

(** A refused version is not compatible with the current one. *)
Lemma refused_incompatible v :
  version_refused v -> is_schema_compatible v PROFILE_SCHEMA_VERSION = false.
Proof.
  intros (major & minor & rest & E & H).
  unfold is_schema_compatible. rewrite E, version_parts_current.
  cbn [nth_error].
  destruct (major =? 1)%Z eqn:M; cbn [negb]; [|reflexivity].
  apply Z.eqb_eq in M.
  destruct (0 <? minor)%Z eqn:L; [reflexivity|].
  apply Z.ltb_ge in L. lia.
Qed.

Lemma compatible_nonempty v :
  is_schema_compatible v PROFILE_SCHEMA_VERSION = true -> truthy (VStr v) = true.
Proof.
  destruct v; [|reflexivity]. unfold is_schema_compatible.
  now rewrite version_parts_empty.
Qed.

Lemma refused_nonempty v : version_refused v -> truthy (VStr v) = true.
Proof.
  intros (major & minor & rest & E & _). destruct v; [|reflexivity].
  rewrite version_parts_empty in E. discriminate.
Qed.

Lemma current_compatible :
  is_schema_compatible PROFILE_SCHEMA_VERSION PROFILE_SCHEMA_VERSION = true.
Proof. vm_compute. reflexivity. Qed.

(** The four outcomes of the version stage. *)
Lemma check_version_current iso d strict :
  dict_get (u "schema_version") d = Some (VStr PROFILE_SCHEMA_VERSION) ->
  check_version iso d strict = Proceed d [] [].
Proof. intro G. unfold check_version. rewrite G. reflexivity. Qed.

Lemma check_version_missing iso d strict :
  dict_get (u "schema_version") d = None ->
  check_version iso d strict
  = Proceed (dict_set (u "schema_version") (VStr PROFILE_SCHEMA_VERSION) d)
            [] [no_version_warning].
Proof. intro G. unfold check_version. rewrite G. reflexivity. Qed.

Lemma check_version_refused iso d strict v :
  dict_get (u "schema_version") d = Some (VStr v) ->
  version_refused v ->
  check_version iso d strict
  = if strict then Rejected [incompatible_error v] []
    else Proceed d [incompatible_error v] [].
Proof.
  intros G R. unfold check_version. rewrite G, (@refused_nonempty v R).
  cbn [negb]. rewrite (@refused_incompatible v R).
  destruct (streq v PROFILE_SCHEMA_VERSION) eqn:E; [|reflexivity].
  apply streq_iff in E. subst v.
  pose proof (@refused_incompatible _ R) as C.
  rewrite current_compatible in C. discriminate.
Qed.

Lemma check_version_migrated iso d strict v :
  dict_get (u "schema_version") d = Some (VStr v) ->
  v <> PROFILE_SCHEMA_VERSION ->
  is_schema_compatible v PROFILE_SCHEMA_VERSION = true ->
  check_version iso d strict
  = Proceed (dict_set (u "schema_version") (VStr PROFILE_SCHEMA_VERSION) d)
            [] [migrated_warning v].
Proof.
  intros G N C. unfold check_version, migrate_profile_schema.
  rewrite G, (@compatible_nonempty v C). cbn [negb].
  destruct (streq v PROFILE_SCHEMA_VERSION) eqn:E;
    [apply streq_iff in E; contradiction|].
  rewrite C. reflexivity.
Qed.

(** The warnings of the cleaning are not about the version. *)
Lemma removed_not_versioning es :
  filter is_versioning_warning (map removed_warning es) = [].
Proof. induction es as [|e es IH]; [reflexivity|exact IH]. Qed.

(** The versioning warnings of the result are those of the version stage. *)
Lemma versioning_warnings now iso d strict d' es ws :
  check_version iso d strict = Proceed d' es ws ->
  filter is_versioning_warning (warnings (validate_profile now iso d strict))
  = filter is_versioning_warning ws.
Proof.
  intro V. unfold validate_profile. rewrite V.
  destruct (construct now d') as [p|errs]; [reflexivity|].
  destruct strict; cbn [negb]; [reflexivity|].
  destruct (construct now _); cbn [warnings]; [|reflexivity].
  now rewrite filter_app, removed_not_versioning, app_nil_r.
Qed.

Lemma instance_version_current now d :
  dict_get (u "schema_version") d = Some (VStr PROFILE_SCHEMA_VERSION)
  \/ dict_get (u "schema_version") d = None ->
  dict_get (u "schema_version") (instance now d)
  = Some (VStr PROFILE_SCHEMA_VERSION).
Proof.
  intros H. unfold instance. rewrite instance_get_gen.
  destruct H as [-> | ->]; reflexivity.
Qed.

(** A returned profile has the version that the version stage assigned. *)
Lemma profile_version_current now iso d strict d' es ws p :
  check_version iso d strict = Proceed d' es ws ->
  dict_get (u "schema_version") d' = Some (VStr PROFILE_SCHEMA_VERSION) ->
  profile (validate_profile now iso d strict) = Some p ->
  dict_get (u "schema_version") p = Some (VStr PROFILE_SCHEMA_VERSION).
Proof.
  intros V G. unfold validate_profile, construct. rewrite V.
  destruct (field_errors d') as [|e errs].
  - destruct (privacy_compliance_check (instance now d')).
    + destruct strict; cbn [negb profile]; [discriminate|].
      destruct (field_errors _); [|discriminate].
      destruct (privacy_compliance_check _); [discriminate|].
      intros [= <-]. apply instance_version_current. now left.
    + intros [= <-]. apply instance_version_current. now left.
  - pose proof (clean_get_cases (u "schema_version") (e :: errs) d') as K.
    remember (_clean_invalid_fields d' (e :: errs)) as cleaned eqn:Q.
    clear Q.
    destruct strict; cbn [negb profile]; [discriminate|].
    destruct (field_errors cleaned); [|discriminate].
    destruct (privacy_compliance_check _); [discriminate|].
    intros [= <-]. apply instance_version_current.
    destruct K as [K|K]; rewrite K; [left; exact G|now right].
Qed.

(** C2, schema versions, the current version being "1.0.0".  A profile
    that carries "1.0.0" passes the version stage unchanged, and the
    result has no versioning warning.  A profile without [schema_version]
    is given "1.0.0" and the result has exactly one versioning warning.  A
    profile whose version differs in the major component, or exceeds the
    current one in the minor component, is rejected under [strict] with
    the incompatible-version error as only error; without [strict] the
    error is recorded and validation goes on.  Any other compatible
    version is rewritten to "1.0.0", with the migration warning as the one
    versioning warning. *)
Theorem C2_schema_versions (now : Z) (iso : pystr) (d : dict pyval)
        (strict : bool) (v : pystr) :
  let r := validate_profile now iso d strict in
  let assigned := dict_set (u "schema_version") (VStr (u "1.0.0")) d in
  (dict_get (u "schema_version") d = Some (VStr (u "1.0.0")) ->
     check_version iso d strict = Proceed d [] []
     /\ filter is_versioning_warning (warnings r) = [])
  /\ (dict_get (u "schema_version") d = None ->
      check_version iso d strict = Proceed assigned [] [no_version_warning]
      /\ filter is_versioning_warning (warnings r) = [no_version_warning]
      /\ forall p, profile r = Some p ->
                   dict_get (u "schema_version") p = Some (VStr (u "1.0.0")))
  /\ (dict_get (u "schema_version") d = Some (VStr v) ->
      version_refused v ->
      (strict = true ->
       r = {| is_valid := false; profile := None;
              errors := [incompatible_error v]; warnings := [] |})
      /\ (strict = false ->
          check_version iso d strict = Proceed d [incompatible_error v] []))
  /\ (dict_get (u "schema_version") d = Some (VStr v) ->
      v <> u "1.0.0" -> is_schema_compatible v (u "1.0.0") = true ->
      check_version iso d strict = Proceed assigned [] [migrated_warning v]
      /\ filter is_versioning_warning (warnings r) = [migrated_warning v]
      /\ forall p, profile r = Some p ->
                   dict_get (u "schema_version") p = Some (VStr (u "1.0.0"))).
Proof.
  intros r assigned. repeat apply conj.
  - intro G. pose proof (@check_version_current iso d strict G) as V.
    split; [exact V|]. subst r.
    now rewrite versioning_warnings with (d' := d) (es := []) (ws := []).
  - intro G. pose proof (@check_version_missing iso d strict G) as V.
    split; [exact V|]. split.
    + subst r. erewrite versioning_warnings by exact V. reflexivity.
    + intros p. eapply profile_version_current; [exact V|].
      apply dict_get_set_same.
  - intros G R. split; intros ->.
    + subst r. unfold validate_profile.
      now rewrite check_version_refused with (v := v).
    + now rewrite check_version_refused with (v := v).
  - intros G N C. pose proof (@check_version_migrated iso d strict v G N C) as V.
    split; [exact V|]. split.
    + subst r. erewrite versioning_warnings by exact V. reflexivity.
    + intros p. eapply profile_version_current; [exact V|].
      apply dict_get_set_same.
Qed.

(** The four cases of C2 on a minimal profile with the versions "1.0.0",
    none, "2.0.0" and "1.0.7". *)
Lemma C2_witness :
  filter is_versioning_warning
         (warnings (validate_profile 0 [] current_profile true)) = []
  /\ filter is_versioning_warning
            (warnings (validate_profile 0 [] minimal_profile true))
     = [u "No schema version found, assuming 1.0.0"]
  /\ validate_profile 0 [] future_profile true
     = {| is_valid := false; profile := None;
          errors := [u "Incompatible schema version: 2.0.0 (current: 1.0.0)"];
          warnings := [] |}
  /\ filter is_versioning_warning
            (warnings (validate_profile 0 [] older_profile true))
     = [u "Migrated schema from 1.0.7 to 1.0.0"].
Proof.
  assert (version_refused (u "2.0.0")) as R.
  { exists 2%Z, 0%Z, [0%Z]. split; [vm_compute; reflexivity|left; lia]. }
  repeat apply conj.
  - apply (C2_schema_versions 0 [] current_profile true []). reflexivity.
  - apply (C2_schema_versions 0 [] minimal_profile true []). reflexivity.
  - apply (C2_schema_versions 0 [] future_profile true (u "2.0.0"));
      [reflexivity|exact R|reflexivity].
  - apply (C2_schema_versions 0 [] older_profile true (u "1.0.7"));
      [reflexivity|discriminate|vm_compute; reflexivity].
Defined.

(** C2 as stated fails in lenient mode: a minimal profile of version
    "2.0.0" is valid, without error, and keeps its version. *)
Lemma C2_counterexample :
  version_refused (u "2.0.0")
  /\ is_valid (validate_profile 0 [] future_profile false) = true
  /\ errors (validate_profile 0 [] future_profile false) = []
  /\ exists p, profile (validate_profile 0 [] future_profile false) = Some p
               /\ dict_get (u "schema_version") p = Some (VStr (u "2.0.0")).
Proof.
  split.
  { exists 2%Z, 0%Z, [0%Z]. split; [vm_compute; reflexivity|left; lia]. }
  split; [vm_compute; reflexivity|]. split; [vm_compute; reflexivity|].
  eexists. split; vm_compute; reflexivity.
Qed.

(** ** Lenient and strict validation *)

Lemma errors_nil (l : list verror) (P : verror -> Prop) :
  (forall e, In e l -> P e) -> (forall e, In e l -> ~ P e) -> l = [].
Proof.
  destruct l as [|e l]; [reflexivity|]. intros A B.
  exfalso. apply (B e); [now left|]. apply A. now left.
Qed.

(** Removing the only field with errors leaves no error, unless the field
    is required. *)
Lemma model_errors_del d f fs :
  (forall e, In e (model_errors d fs) -> loc e = [LKey f]) ->
  (forall required ft, In (f, (required, ft)) fs -> required = false) ->
  model_errors (dict_del f d) fs = [].
Proof.
  induction fs as [|[fname [required ft]] fs IH]; intros L R; [reflexivity|].
  rewrite model_errors_cons in *.
  rewrite IH.
  2:{ intros e I. apply L. apply in_or_app. now right. }
  2:{ intros r t I. apply (R r t). now right. }
  rewrite app_nil_r. unfold field_errs.
  destruct (streq fname f) eqn:E.
  - apply streq_iff in E. subst fname.
    rewrite dict_get_del_same, (R required ft) by now left. reflexivity.
  - assert (fname <> f) as N by (intros ->; now rewrite streq_refl in E).
    rewrite dict_get_del_other by exact N.
    apply errors_nil with (P := fun e => loc e = [LKey f]).
    + intros e I. apply L. apply in_or_app. now left.
    + intros e I Q.
      destruct (field_errs_loc d fname required ft e I) as [rest Q'].
      congruence.
Qed.

Lemma field_errors_del d f e :
  field_errors d = [e] -> loc e = [LKey f] -> required_field f = false ->
  field_errors (dict_del f d) = [].
Proof.
  intros F L R. unfold field_errors, ProfileJSONSchema in *.
  rewrite validate_model in *. apply model_errors_del.
  - intros e' I. rewrite F in I. destruct I as [<-|[]]. exact L.
  - intros required ft I. eapply optional_field; eassumption.
Qed.

(** An error is located at a declared field. *)
Lemma error_field_declared d e f rest :
  In e (field_errors d) -> loc e = LKey f :: rest ->
  existsb (fun x : pystr * (bool * ftype) => streq f (fst x)) profile_fields
  = true.
Proof.
  intros I L. apply field_errors_in in I.
  destruct I as (fname & required & ft & F & I).
  destruct (field_errs_loc _ _ _ _ _ I) as [rest' L'].
  assert (fname = f) as -> by congruence.
  apply existsb_exists. eexists. split; [exact F|]. apply streq_refl.
Qed.

Lemma check_version_strict_proceeds iso d d' es ws :
  check_version iso d true = Proceed d' es ws ->
  check_version iso d false = Proceed d' es ws.
Proof.
  unfold check_version.
  destruct (dict_get (u "schema_version") d) as [cv|]; [|exact (fun H => H)].
  destruct (truthy cv); cbn [negb]; [|exact (fun H => H)].
  destruct cv; try exact (fun H => H).
  destruct (streq s PROFILE_SCHEMA_VERSION); [exact (fun H => H)|].
  destruct (is_schema_compatible s PROFILE_SCHEMA_VERSION);
    [exact (fun H => H)|discriminate].
Qed.

Lemma construct_inl now d p :
  construct now d = inl p ->
  field_errors d = [] /\ p = instance now d
  /\ privacy_compliance_check p = None.
Proof.
  unfold construct. destruct (field_errors d); [|discriminate].
  destruct (privacy_compliance_check (instance now d)) eqn:P; [discriminate|].
  intros [= <-]. auto.
Qed.

Lemma dict_del_set_comm (V : Type) f k (v : V) (d : dict V) :
  f <> k -> dict_del f (dict_set k v d) = dict_set k v (dict_del f d).
Proof.
  intro N. unfold dict_del. induction d as [|[k' v'] d IH]; cbn.
  - destruct (streq f k) eqn:E; [apply streq_iff in E; contradiction|].
    reflexivity.
  - destruct (streq k k') eqn:E; cbn.
    + apply streq_iff in E. subst k'.
      destruct (streq f k) eqn:E2; [apply streq_iff in E2; contradiction|].
      cbn. now rewrite streq_refl.
    + destruct (streq f k') eqn:E2; cbn; [exact IH|].
      rewrite E. now rewrite IH.
Qed.

(** The version stage does not look at the other fields. *)
Lemma check_version_del iso d f strict d0 es ws :
  f <> u "schema_version" ->
  check_version iso (dict_del f d) strict = Proceed d0 es ws ->
  exists d', check_version iso d strict = Proceed d' es ws
             /\ dict_del f d' = d0
             /\ dict_get f d' = dict_get f d.
Proof.
  intros N. unfold check_version, migrate_profile_schema.
  rewrite dict_get_del_other by congruence.
  destruct (dict_get (u "schema_version") d) as [cv|] eqn:G.
  - destruct (truthy cv) eqn:T; cbn [negb].
    + destruct cv; try discriminate.
      destruct (streq s PROFILE_SCHEMA_VERSION).
      * intros [= <- <- <-]. eauto.
      * destruct (is_schema_compatible s PROFILE_SCHEMA_VERSION).
        -- cbn [negb]. intros [= <- <- <-]. eexists. split; [reflexivity|].
           split; [now apply dict_del_set_comm|now apply dict_get_set_other].
        -- destruct strict; [discriminate|]. intros [= <- <- <-]. eauto.
    + intros [= <- <- <-]. eexists. split; [reflexivity|].
      split; [now apply dict_del_set_comm|now apply dict_get_set_other].
  - cbn [truthy negb]. intros [= <- <- <-]. eexists. split; [reflexivity|].
    split; [now apply dict_del_set_comm|now apply dict_get_set_other].
Qed.

Lemma strict_proceed_no_errors iso d d' es ws :
  check_version iso d true = Proceed d' es ws -> es = [].
Proof.
  unfold check_version.
  destruct (dict_get (u "schema_version") d) as [cv|];
    [|now intros [= _ <- _]].
  destruct (truthy cv); cbn [negb]; [|now intros [= _ <- _]].
  destruct cv; try discriminate.
  destruct (streq s PROFILE_SCHEMA_VERSION); [now intros [= _ <- _]|].
  destruct (is_schema_compatible s PROFILE_SCHEMA_VERSION); [|discriminate].
  destruct (migrate_profile_schema iso d); [now intros [= _ <- _]|discriminate].
Qed.

Lemma field_type_unique f r1 t1 r2 t2 :
  In (f, (r1, t1)) profile_fields -> In (f, (r2, t2)) profile_fields ->
  r1 = r2 /\ t1 = t2.
Proof.
  intros H1 H2. field_cases H1; injection H1 as <- <- <-;
    field_cases H2;
    first [ exfalso; apply (f_equal fst) in H2; vm_compute in H2;
            discriminate H2
          | injection H2 as <- <-; split; reflexivity ].
Qed.

Lemma model_errors_other d f fs :
  (forall e, In e fs -> fst e <> f) ->
  model_errors d fs = model_errors (dict_del f d) fs.
Proof.
  induction fs as [|[fname [required ft]] fs IH]; intro H; [reflexivity|].
  rewrite !model_errors_cons.
  assert (model_errors d fs = model_errors (dict_del f d) fs) as ->
    by (apply IH; intros e0 Ie; apply H; now right).
  unfold field_errs. rewrite dict_get_del_other; [reflexivity|].
  apply (H (fname, (required, ft))). now left.
Qed.

Lemma model_errors_at d f required ft x fs :
  NoDup (map fst fs) -> In (f, (required, ft)) fs ->
  dict_get f d = Some x ->
  model_errors (dict_del f d) fs = [] ->
  model_errors d fs = under (LKey f) (validate ft x).
Proof.
  intros N I G. induction fs as [|[fname [r t]] fs IH]; intro E;
    [destruct I|].
  rewrite model_errors_cons in *. apply app_eq_nil in E.
  destruct E as [E1 E2]. cbn [map fst] in N.
  inversion N as [|? ? X Y]; subst.
  destruct I as [I|I].
  - injection I as -> -> ->.
    rewrite (model_errors_other d (f := f)), E2, app_nil_r.
    + unfold field_errs. now rewrite G.
    + intros e Ie Q. apply X. rewrite <- Q. now apply in_map.
  - assert (fname <> f) as D
      by (intros ->; apply X; apply (in_map fst) in I; exact I).
    rewrite (IH Y I E2).
    unfold field_errs in *. rewrite dict_get_del_other in E1 by congruence.
    now rewrite E1.
Qed.

Lemma profile_fields_distinct : NoDup (map fst profile_fields).
Proof.
  unfold profile_fields, fld. cbn [map fst].
  repeat (constructor;
          [intro H; vm_compute in H; repeat destruct H as [H|H];
           try discriminate H; contradiction|]).
  constructor.
Qed.

Lemma field_errors_at d f required ft x :
  In (f, (required, ft)) profile_fields ->
  dict_get f d = Some x ->
  field_errors (dict_del f d) = [] ->
  field_errors d = under (LKey f) (validate ft x).
Proof.
  intros I G E. unfold field_errors, ProfileJSONSchema in *.
  rewrite validate_model in *.
  eapply model_errors_at; eauto. apply profile_fields_distinct.
Qed.

(** C5, for a field that is neither [schema_version] nor required.  Let
    [f] be a declared top-level field without requirement, other than
    [schema_version], whose value is rejected as a whole (one error,
    located at the value itself), and let the profile without [f] be
    valid under [strict], with profile [p] and warnings [ws].  Then
    [validate_profile] with [strict=False] returns the valid profile [p],
    in which [f] has its default, with no error and the error text as one
    more warning, and with [strict=True] it returns an invalid result
    with the same error text as its only error. *)
Theorem C5_lenient_and_strict (now : Z) (iso : pystr) (d : dict pyval)
        (f : pystr) (ft : ftype) (x : pyval) (e0 : verror)
        (p : dict pyval) (ws : list pystr) :
  In (f, (false, ft)) profile_fields ->
  f <> u "schema_version" ->
  dict_get f d = Some x ->
  validate ft x = [e0] -> loc e0 = [] ->
  validate_profile now iso (dict_del f d) true
  = {| is_valid := true; profile := Some p; errors := [];
       warnings := ws |} ->
  validate_profile now iso d false
  = {| is_valid := true; profile := Some p; errors := [];
       warnings := ws ++ [removed_warning (error_msg (field_error f e0))] |}
  /\ dict_get f p = dict_get f (defaults now)
  /\ validate_profile now iso d true
     = {| is_valid := false; profile := None;
          errors := [error_msg (field_error f e0)]; warnings := ws |}.
Proof.
  intros I N G W L V. unfold validate_profile in V.
  destruct (check_version iso (dict_del f d) true) as [d0 es ws0| |] eqn:CV;
    [|discriminate..].
  pose proof (@strict_proceed_no_errors _ _ _ _ _ CV) as ->.
  destruct (@check_version_del iso d f true d0 [] ws0 N CV)
    as (d' & CV' & D & G').
  destruct (construct now d0) as [p0|errs] eqn:C0; [|discriminate].
  injection V as -> ->.
  apply construct_inl in C0. destruct C0 as (F0 & -> & P0).
  rewrite G in G'.
  assert (field_errors d' = [field_error f e0]) as F.
  { rewrite (@field_errors_at d' f false ft x I G')
      by (rewrite D; exact F0).
    rewrite W. unfold under, field_error. cbn [map]. now rewrite L. }
  assert (construct now d' = inr [field_error f e0]) as C
    by (unfold construct; now rewrite F).
  assert (_clean_invalid_fields d' [field_error f e0] = d0) as K
    by (unfold _clean_invalid_fields; cbn [fold_left field_error loc];
        exact D).
  assert (construct now d0 = inl (instance now d0)) as C'
    by (unfold construct; now rewrite F0, P0).
  split; [|split].
  - unfold validate_profile.
    rewrite (@check_version_strict_proceeds _ _ _ _ _ CV'), C. cbn [negb].
    rewrite K, C'. reflexivity.
  - unfold instance. rewrite instance_get_gen. rewrite <- D.
    rewrite dict_get_del_same.
    assert (existsb (fun f0 : pystr * (bool * ftype) => streq f (fst f0))
                    profile_fields = true) as ->; [|reflexivity].
    apply existsb_exists. eexists. split; [exact I|]. apply streq_refl.
  - unfold validate_profile. rewrite CV', C. reflexivity.
Qed.

(** The hypotheses of C5 hold for a valid profile with [summary = 3]. *)
Lemma C5_witness :
  validate_profile 0 [] wrong_summary false
  = {| is_valid := true;
       profile := Some (instance 0 (dict_del (u "summary") wrong_summary));
       errors := [];
       warnings := [u "Removed invalid field: Field 'summary': Input should be a valid dictionary or instance of SummarySchema"] |}
  /\ dict_get (u "summary")
              (instance 0 (dict_del (u "summary") wrong_summary))
     = Some VNone
  /\ validate_profile 0 [] wrong_summary true
     = {| is_valid := false; profile := None;
          errors := [u "Field 'summary': Input should be a valid dictionary or instance of SummarySchema"];
          warnings := [] |}.
Proof.
  apply (@C5_lenient_and_strict 0 [] wrong_summary (u "summary") (TOptional SummarySchema)
              (VInt 3)
              {| loc := [];
                 msg := u "Input should be a valid dictionary or instance of SummarySchema" |}
              (instance 0 (dict_del (u "summary") wrong_summary)) []).
  - unfold profile_fields, fld. simpl. tauto.
  - discriminate.
  - reflexivity.
  - reflexivity.
  - reflexivity.
  - vm_compute. reflexivity.
Defined.

(** C5 as stated fails in three ways.  With [extraction_method = 123],
    a required field, the cleaned data lacks the field, the second
    construction fails with "Field required", and the lenient result is
    invalid.  With [schema_version = 5] the version stage itself raises,
    and the lenient result is invalid.  With [schema_version = 0] the
    version is taken for missing and replaced, and the strict result is
    valid. *)
Lemma C5_counterexample :
  (field_errors wrong_method = [method_error]
   /\ field_errors (dict_del (u "extraction_method") wrong_method)
      = [{| loc := [LKey (u "extraction_method")];
            msg := u "Field required" |}]
   /\ is_valid (validate_profile 0 [] wrong_method false) = false
   /\ profile (validate_profile 0 [] wrong_method false) = None)
  /\ (field_errors version_five
      = [{| loc := [LKey (u "schema_version")];
            msg := u "Input should be a valid string" |}]
      /\ validate_profile 0 [] version_five false
         = {| is_valid := false; profile := None;
              errors := [u "Unexpected validation error: 'int' object has no attribute 'split'"];
              warnings := [] |})
  /\ (field_errors version_zero
      = [{| loc := [LKey (u "schema_version")];
            msg := u "Input should be a valid string" |}]
      /\ is_valid (validate_profile 0 [] version_zero true) = true
      /\ errors (validate_profile 0 [] version_zero true) = []).
Proof. repeat apply conj; vm_compute; reflexivity. Qed.

End ValidatorFacts.

(* ================================================================== *)
(** * Further properties of the profile validator *)
(* ================================================================== *)

Section FurtherPropertiesOfTheProfileValidator.

Import Schema Validator.







(** ** Cleaning *)






(** ** Returned profiles *)







(** ** The transformation *)












End FurtherPropertiesOfTheProfileValidator.

(* ================================================================== *)
(** * Further properties of the skills normalizer *)
(* ================================================================== *)

Section FurtherPropertiesOfTheSkillsNormalizer.

Import Re Skills SkillsTools.

(** ** Every entry has a category *)







(** ** Category statistics *)





(** ** Suggestions *)









(** ** Normalising a canonical name again *)






End FurtherPropertiesOfTheSkillsNormalizer.

(* ================================================================== *)
(** * The objects of the skills normalizer *)
(* ================================================================== *)

Section TheObjectsOfTheSkillsNormalizer.

Import Re Skills SkillsStore.

(** The fresh store is the fresh normalizer. *)
Lemma view_new_store : view new_store = init.
Proof. vm_compute. reflexivity. Qed.

Example foobar_orders :
  (match normalize_skills_list foobar_normalizer (map u ["fb"; "foobar"]) [] with Ok o => Some (map canonical_name o) | _ => None end,
   match normalize_skills_list foobar_normalizer (map u ["foobar"; "fb"]) [] with Ok o => Some (map canonical_name o) | _ => None end)
  = (Some [u "FooBar"], Some [u "Foobar"]).
Proof. vm_compute. reflexivity. Qed.

Example long_name_raises :
  normalize_skill long_name_normalizer (u "xx") []
  = Raise (ValidationError "canonical_name: String should have at most 100 characters").
Proof. vm_compute. reflexivity. Qed.

End TheObjectsOfTheSkillsNormalizer.
